(** * Perocube data monitoring: ingestion, validation and normalisation

    A shallow embedding of the measurement pipeline of the repository:

    - [src/ingestion/labview_connector.py]: the TCP session loop
      ([_handle_client]), message dispatch ([_process_message]) and the three
      [_store_*_measurement] sinks;
    - [src/data_processing/validators.py] and
      [src/data_processing/transformers.py]: the tabular validator and
      normaliser used by the historical importer;
    - [src/ingestion/upload_historical_data.py]: [parse_mpp_data_file] (from
      the parsed table on) and [insert_mpp_data].

    Python values are an inductive type, exceptions are a [result] type,
    floats are IEEE binary64 ([PrimFloat]), the database is the list of
    committed rows, and the socket is a list of turns of the read loop.
    Library functions the repository calls but does not define
    ([json.loads], [bytes.decode], [datetime.fromisoformat], [float] and
    [int] on text, [pandas.to_datetime], the database's acceptance of an
    insert) are fields of the class [World]; the general theorems hold for
    every world. *)

From Stdlib Require Import ZArith List String Ascii Bool Lia.
From Stdlib Require Import Floats.PrimFloat Floats.SpecFloat Floats.FloatOps.
Import ListNotations.

Set Warnings "-register-all".

Local Open Scope Z_scope.
Local Open Scope string_scope.
Local Open Scope list_scope.

(* ------------------------------------------------------------------ *)
(** ** Python values, exceptions and builtins *)

Module Py.

(** The exception classes that the modelled code can meet. *)
Inductive exn : Type :=
| TypeError
| ValueError
| AttributeError
| KeyError
| StopIteration
| OverflowError
| UnicodeDecodeError
| OSError
| DatabaseError.

(** A computation either returns or raises. *)
Inductive result (A : Type) : Type :=
| Ok (a : A)
| Raise (e : exn).

Arguments Ok {A} a.
Arguments Raise {A} e.

Definition bind {A B : Type} (c : result A) (k : A -> result B) : result B :=
  match c with
  | Ok a => k a
  | Raise e => Raise e
  end.

(** [datetime.datetime]: a naive or offset-aware point in time. *)
Record datetime : Type := mkDatetime {
  year : Z;
  month : Z;
  day : Z;
  hour : Z;
  minute : Z;
  second : Z;
  microsecond : Z;
  utcoffset : option Z
}.

(** The Python objects that flow through the pipeline: what [json.loads]
    can return ([None], [bool], [int], [float], [str], [list], and [dict]
    with text keys) and [datetime] objects.  A dict is its list of items;
    keys of a Python dict are distinct, and [lookup] takes the first
    match. *)
Inductive value : Type :=
| PNone
| PBool (b : bool)
| PInt (z : Z)
| PFloat (f : float)
| PStr (s : string)
| PDatetime (t : datetime)
| PList (xs : list value)
| PDict (items : list (string * value)).

Fixpoint lookup (key : string) (items : list (string * value)) : option value :=
  match items with
  | [] => None
  | (k, v) :: rest => if String.eqb k key then Some v else lookup key rest
  end.

(** [obj.get(key, default)]: only a dict has [get]; every other value
    raises [AttributeError]. *)
Definition get (obj : value) (key : string) (default : value) : result value :=
  match obj with
  | PDict items =>
      Ok (match lookup key items with
          | Some v => v
          | None => default
          end)
  | _ => Raise AttributeError
  end.

(** Truth value of an object, as [not x] and [if x] test it. *)
Definition truthy (v : value) : bool :=
  match v with
  | PNone => false
  | PBool b => b
  | PInt z => negb (Z.eqb z 0)
  | PFloat f => negb (PrimFloat.eqb f 0%float)
  | PStr s => negb (String.eqb s "")
  | PDatetime _ => true
  | PList xs => match xs with [] => false | _ :: _ => true end
  | PDict items => match items with [] => false | _ :: _ => true end
  end.

(** [v == 'literal']: only a [str] with the same text compares equal. *)
Definition eq_str (v : value) (s : string) : bool :=
  match v with
  | PStr t => String.eqb t s
  | _ => false
  end.

(** [float(n)] for an [int]: correctly rounded, [OverflowError] when the
    rounded value is not finite. *)
Definition float_of_int (z : Z) : result float :=
  let f := SF2Prim (binary_normalize prec emax z 0 false) in
  if PrimFloat.is_infinity f then Raise OverflowError else Ok f.

(** [int(x)] for a [float]: truncation toward zero. *)
Definition int_of_float (f : float) : result Z :=
  match Prim2SF f with
  | S754_zero _ => Ok 0
  | S754_infinity _ => Raise OverflowError
  | S754_nan => Raise ValueError
  | S754_finite s m e =>
      let a := if Z.leb 0 e then Z.pos m * 2 ^ e else Z.pos m / 2 ^ (- e) in
      Ok (if s then - a else a)
  end.

End Py.

Import Py.

Notation "x <- c ;; k" := (Py.bind c (fun x => k))
  (at level 61, c at next level, right associativity).

(* ------------------------------------------------------------------ *)
(** ** The persistence boundary *)

Module Store.

(** One committed [INSERT]: the constructor is the table, the arguments
    are the Python objects passed as parameters to [cursor.execute], in the
    column order of the SQL statement. *)
Inductive row : Type :=
| MppRow (timestamp current voltage power board channel : value)
| TemperatureRow (timestamp temperature sensor_id : value)
| IrradianceRow (timestamp raw_reading irradiance sensor_id : value).

(** The database: rows in commit order. *)
Definition store : Type := list row.

End Store.

Import Store.

(* ------------------------------------------------------------------ *)
(** ** Tabular data: [pandas.DataFrame] *)

Module Frame.

(** A column with its dtype: [datetime64], [float64], [int64] or
    [object]. *)
Inductive series : Type :=
| SDatetime (xs : list datetime)
| SFloat (xs : list float)
| SInt (xs : list Z)
| SObject (xs : list value).

(** A frame is its labelled columns, in order.  Labels are text, as
    [pandas.read_csv] produces them from a header line. *)
Definition dataframe : Type := list (string * series).

(** What [df[label]] returns: a [Series] when one column carries the label,
    a frame when several do. *)
Inductive selection : Type :=
| Col (s : series)
| Cols (d : dataframe).

(** [df.columns]. *)
Definition columns (df : dataframe) : list string := map fst df.

(** [label in df.columns] and [text in [...]]. *)
Definition mem (s : string) (l : list string) : bool :=
  existsb (String.eqb s) l.

Definition labelled (label : string) (df : dataframe) : dataframe :=
  filter (fun c => String.eqb (fst c) label) df.

(** [df[label]]: [KeyError] when no column carries the label. *)
Definition getitem (df : dataframe) (label : string) : result selection :=
  match labelled label df with
  | [] => Raise KeyError
  | [(_, s)] => Ok (Col s)
  | d => Ok (Cols d)
  end.

(** [df[label] = s]: the columns carrying the label are replaced where
    they stand; a new label is added as the last column. *)
Definition setitem (df : dataframe) (label : string) (s : series) : dataframe :=
  if mem label (columns df) then
    map (fun c => if String.eqb (fst c) label then (fst c, s) else c) df
  else
    df ++ [(label, s)].

(** [df[[l1, ..., ln]]]: the columns carrying each label, in the order of
    the labels; [KeyError] when a label is missing. *)
Fixpoint select (df : dataframe) (labels : list string) : result dataframe :=
  match labels with
  | [] => Ok []
  | l :: rest =>
      match labelled l df with
      | [] => Raise KeyError
      | cols =>
          more <- select df rest ;;
          Ok (cols ++ more)
      end
  end.

(** [df.rename(columns=col_mapping)]: labels outside the mapping stay. *)
Definition rename (col_mapping : string -> option string) (df : dataframe)
  : dataframe :=
  map (fun c => (match col_mapping (fst c) with
                 | Some canonical => canonical
                 | None => fst c
                 end, snd c)) df.

(** [pd.api.types.is_datetime64_any_dtype(df[label])]: a frame has no
    dtype and is answered [False]. *)
Definition is_datetime64_any_dtype (sel : selection) : bool :=
  match sel with
  | Col (SDatetime _) => true
  | _ => false
  end.

(** [series.dtype == 'object']; a frame has no [dtype] attribute. *)
Definition dtype_is_object (sel : selection) : result bool :=
  match sel with
  | Col (SObject _) => Ok true
  | Col _ => Ok false
  | Cols _ => Raise AttributeError
  end.

(** [str.lower] on the ASCII letters.  No other character lowers to an
    ASCII letter sequence that is one of the aliases below, so membership
    of [col.lower()] in the alias lists is decided as Python decides it. *)
Definition lower_ascii (c : ascii) : ascii :=
  let n := nat_of_ascii c in
  if Nat.leb 65 n && Nat.leb n 90 then ascii_of_nat (n + 32) else c.

Fixpoint lower (s : string) : string :=
  match s with
  | EmptyString => EmptyString
  | String c rest => String (lower_ascii c) (lower rest)
  end.

(** The value of an [int64] after an arithmetic overflow: numpy wraps. *)
Definition wrap64 (z : Z) : Z := (z + 2 ^ 63) mod 2 ^ 64 - 2 ^ 63.

(** An [int64] converted to [float64], correctly rounded. *)
Definition float_of_int64 (z : Z) : float :=
  SF2Prim (binary_normalize prec emax z 0 false).

Fixpoint map2 {A B C : Type} (f : A -> B -> C) (xs : list A) (ys : list B)
  : list C :=
  match xs, ys with
  | x :: xs', y :: ys' => f x y :: map2 f xs' ys'
  | _, _ => []
  end.

End Frame.

Import Frame.

(* ------------------------------------------------------------------ *)
(** ** Library functions and the outside world *)

(** Functions of the Python runtime, of pandas and of the database that
    the repository calls.  [None] stands for the call raising. *)
Class World : Type := {
  (** [json.loads(message)]; [None] is [json.JSONDecodeError]. *)
  json_loads : string -> option value;
  (** [data.decode('utf-8')]; [None] is [UnicodeDecodeError]. *)
  utf8_decode : string -> option string;
  (** [datetime.fromisoformat(text)]; [None] is [ValueError]. *)
  fromisoformat : string -> option datetime;
  (** [float(text)]; [None] is [ValueError]. *)
  float_of_str : string -> option float;
  (** [int(text)]; [None] is [ValueError]. *)
  int_of_str : string -> option Z;
  (** [pd.to_datetime(arg)] and [pd.to_datetime(arg, format=fmt)]. *)
  to_datetime : option string -> selection -> option (list datetime);
  (** The product of two columns when one of them has dtype [object]:
      pandas multiplies the Python objects pairwise, which is not
      expanded here. *)
  object_mul : series -> series -> option series;
  (** The product of an [object] column and a float. *)
  object_scale : list value -> float -> option series;
  (** Whether the database executes and commits this insert in this state
      (adaptation of the parameters, constraints, transport). *)
  db_accepts : store -> row -> bool
}.

Section Builtins.

Context {W : World}.

(** [float(x)]. *)
Definition py_float (v : value) : result float :=
  match v with
  | PNone => Raise TypeError
  | PBool b => Ok (if b then 1%float else 0%float)
  | PInt z => float_of_int z
  | PFloat f => Ok f
  | PStr s =>
      match float_of_str s with
      | Some f => Ok f
      | None => Raise ValueError
      end
  | PDatetime _ => Raise TypeError
  | PList _ => Raise TypeError
  | PDict _ => Raise TypeError
  end.

(** [int(x)]. *)
Definition py_int (v : value) : result Z :=
  match v with
  | PNone => Raise TypeError
  | PBool b => Ok (if b then 1 else 0)
  | PInt z => Ok z
  | PFloat f => int_of_float f
  | PStr s =>
      match int_of_str s with
      | Some z => Ok z
      | None => Raise ValueError
      end
  | PDatetime _ => Raise TypeError
  | PList _ => Raise TypeError
  | PDict _ => Raise TypeError
  end.

(** [datetime.fromisoformat(x)]: the argument must be a [str]. *)
Definition py_fromisoformat (v : value) : result datetime :=
  match v with
  | PStr s =>
      match fromisoformat s with
      | Some t => Ok t
      | None => Raise ValueError
      end
  | _ => Raise TypeError
  end.

End Builtins.

(* ------------------------------------------------------------------ *)
(** ** [labview_connector.py]: the network path *)

Module Connector.

Inductive kind : Type := Mpp | Temperature | Irradiance.

(** The calls to [logger.error], [logger.info] and [logger.debug], by call
    site. *)
Inductive log_entry : Type :=
| InvalidJSON                         (* "Invalid JSON message" *)
| InvalidFormat                       (* "Invalid message format: missing type or data" *)
| UnknownType (data_type : value)     (* "Unknown data type: ..." *)
| ProcessingError (e : exn)           (* "Error processing message: ..." *)
| StoreError (k : kind) (e : exn)     (* "Error storing ... measurement: ..." *)
| Stored (k : kind)                   (* "Stored ... measurement: ..." *)
| ClientError (e : exn)               (* "Error handling client ...: ..." *)
| ConnectionClosed.                   (* "Connection from ... closed" *)

Section WithWorld.

Context {W : World}.

(** [cursor.execute(INSERT ...)] followed by [db_conn.commit()]: the row is
    appended, or the database raises and nothing is committed. *)
Definition insert (db : store) (r : row) : result store :=
  if db_accepts db r then Ok (db ++ [r]) else Raise DatabaseError.

(** The parameter tuple that [_store_mpp_measurement] builds before it
    touches the database. *)
Definition mpp_row (measurement metadata : value) : result row :=
  ts <- get measurement "timestamp" PNone ;;
  timestamp <- py_fromisoformat ts ;;
  c <- get measurement "current" (PInt 0) ;;
  current <- py_float c ;;
  v <- get measurement "voltage" (PInt 0) ;;
  voltage <- py_float v ;;
  p <- get measurement "power" (PFloat (current * voltage)%float) ;;
  power <- py_float p ;;
  b <- get metadata "board" (PInt 0) ;;
  board <- py_int b ;;
  ch <- get metadata "channel" (PInt 0) ;;
  channel <- py_int ch ;;
  Ok (MppRow (PDatetime timestamp) (PFloat current) (PFloat voltage)
            (PFloat power) (PInt board) (PInt channel)).

Definition temperature_row (measurement metadata : value) : result row :=
  ts <- get measurement "timestamp" PNone ;;
  timestamp <- py_fromisoformat ts ;;
  t <- get measurement "temperature" (PInt 0) ;;
  temperature <- py_float t ;;
  sensor_id <- get metadata "sensor_id" PNone ;;
  Ok (TemperatureRow (PDatetime timestamp) (PFloat temperature) sensor_id).

Definition irradiance_row (measurement metadata : value) : result row :=
  ts <- get measurement "timestamp" PNone ;;
  timestamp <- py_fromisoformat ts ;;
  r <- get measurement "raw_reading" (PInt 0) ;;
  raw_reading <- py_int r ;;
  i <- get measurement "irradiance" (PInt 0) ;;
  irradiance <- py_float i ;;
  sensor_id <- get metadata "sensor_id" PNone ;;
  Ok (IrradianceRow (PDatetime timestamp) (PInt raw_reading)
                   (PFloat irradiance) sensor_id).

(** The common shape of the three [_store_*_measurement] methods: build
    the parameters, insert and commit; on any exception roll back (the
    store stays at its last commit) and log.  A [rollback] that itself
    raises is caught one level up, in [_process_message], with the same
    store; that case differs only in the line logged and is not
    distinguished here. *)
Definition store_measurement (k : kind) (params : result row) (db : store)
  : store * list log_entry :=
  match (r <- params ;; insert db r) with
  | Ok db' => (db', [Stored k])
  | Raise e => (db, [StoreError k e])
  end.

Definition _store_mpp_measurement (db : store) (measurement metadata : value)
  : store * list log_entry :=
  store_measurement Mpp (mpp_row measurement metadata) db.

Definition _store_temperature_measurement (db : store)
  (measurement metadata : value) : store * list log_entry :=
  store_measurement Temperature (temperature_row measurement metadata) db.

Definition _store_irradiance_measurement (db : store)
  (measurement metadata : value) : store * list log_entry :=
  store_measurement Irradiance (irradiance_row measurement metadata) db.

(** The three [data.get] calls at the head of [_process_message]. *)
Definition envelope (data : value) : result (value * value * value) :=
  data_type <- get data "type" PNone ;;
  measurement <- get data "data" PNone ;;
  metadata <- get data "metadata" (PDict []) ;;
  Ok (data_type, measurement, metadata).

(** [_process_message] after [json.loads] has returned [data]. *)
Definition dispatch (db : store) (data : value) : store * list log_entry :=
  match envelope data with
  | Raise e => (db, [ProcessingError e])
  | Ok (data_type, measurement, metadata) =>
      if negb (truthy data_type) || negb (truthy measurement) then
        (db, [InvalidFormat])
      else if eq_str data_type "mpp" then
        _store_mpp_measurement db measurement metadata
      else if eq_str data_type "temperature" then
        _store_temperature_measurement db measurement metadata
      else if eq_str data_type "irradiance" then
        _store_irradiance_measurement db measurement metadata
      else
        (db, [UnknownType data_type])
  end.

(** [_process_message]: it returns normally on every input, all
    exceptions being caught and logged. *)
Definition _process_message (db : store) (message : string)
  : store * list log_entry :=
  match json_loads message with
  | None => (db, [InvalidJSON])
  | Some data => dispatch db data
  end.

(** *** The session loop *)

(** What [client_socket.recv(4096)] does in one turn of the loop; the
    bytes received are a string of 8-bit characters. *)
Inductive recv_result : Type :=
| Received (data : string)
| RecvFailed.

(** One turn of the [while self.is_running] loop as the environment
    decides it: the flag read at the loop head, the outcome of [recv], and
    whether [sendall] gets through. *)
Record turn : Type := mkTurn {
  is_running : bool;
  recv : recv_result;
  sendall_ok : bool
}.

(** What the session does that is visible outside it. *)
Inductive event : Type :=
| Log (e : log_entry)
| Sent (frame : string)
| Close.

Definition ACK : string := "ACK".

(** The [except]/[finally] tail of [_handle_client]. *)
Definition fail_and_close (e : exn) : list event :=
  [Log (ClientError e); Close; Log ConnectionClosed].

Definition close : list event := [Close; Log ConnectionClosed].

(** [_handle_client]: the turns are consumed one per loop iteration; when
    none is left the peer has closed ([recv] returns no data). *)
Fixpoint _handle_client (db : store) (turns : list turn)
  : store * list event :=
  match turns with
  | [] => (db, close)
  | t :: rest =>
      if negb (is_running t) then (db, close)
      else
        match recv t with
        | RecvFailed => (db, fail_and_close OSError)
        | Received data =>
            if String.eqb data "" then (db, close)
            else
              match utf8_decode data with
              | None => (db, fail_and_close UnicodeDecodeError)
              | Some message =>
                  let '(db1, logs) := _process_message db message in
                  if sendall_ok t then
                    let '(db2, evs) := _handle_client db1 rest in
                    (db2, map Log logs ++ Sent ACK :: evs)
                  else
                    (db1, map Log logs ++ fail_and_close OSError)
              end
        end
  end.

End WithWorld.

End Connector.

(* ------------------------------------------------------------------ *)
(** ** [validators.py] *)

Module Validators.

(** The alias lists written out in the generator expressions. *)
Definition timestamp_names : list string := ["timestamp"; "time"; "datetime"].
Definition current_names : list string := ["current"; "i"].
Definition voltage_names : list string := ["voltage"; "v"].
Definition power_names : list string := ["power"; "p"].
Definition temperature_names : list string := ["temperature"; "temp"; "t"].
Definition raw_names : list string := ["rawreading"; "raw"; "reading"].
Definition irradiance_names : list string := ["irradiance"; "irr"].

(** The fallback formats, in the order of the [for fmt in [...]] loops. *)
Definition formats : list string :=
  ["%Y-%m-%d %H:%M:%S"; "%d/%m/%Y %H:%M:%S"; "%m/%d/%Y %H:%M:%S";
   "%Y/%m/%d %H:%M:%S"].

(** [col.lower() in names]. *)
Definition is_like (names : list string) (col : string) : bool :=
  mem (lower col) names.

(** [any(col.lower() in names for col in df.columns)]. *)
Definition has_like (names : list string) (df : dataframe) : bool :=
  existsb (is_like names) (columns df).

Section WithWorld.

Context {W : World}.

(** The [for fmt in [...]] loop: the first format that converts wins. *)
Fixpoint try_formats (fmts : list string) (sel : selection)
  : option (list datetime) :=
  match fmts with
  | [] => None
  | fmt :: rest =>
      match to_datetime (Some fmt) sel with
      | Some ts => Some ts
      | None => try_formats rest sel
      end
  end.

(** [try: pd.to_datetime(x) except: <the format loop>]. *)
Definition convert (sel : selection) : option (list datetime) :=
  match to_datetime None sel with
  | Some ts => Some ts
  | None => try_formats formats sel
  end.

(** The second half of each validator, from
    [timestamp_col = next(...)] on. *)
Definition timestamp_is_valid (df : dataframe) : result bool :=
  match find (is_like timestamp_names) (columns df) with
  | None => Raise StopIteration
  | Some timestamp_col =>
      sel <- getitem df timestamp_col ;;
      if is_datetime64_any_dtype sel then Ok true
      else
        match convert sel with
        | Some _ => Ok true
        | None => Ok false
        end
  end.

Definition _validate_mpp_data_format (df : dataframe) : result bool :=
  let has_timestamp := has_like timestamp_names df in
  let has_current := has_like current_names df in
  let has_voltage := has_like voltage_names df in
  if negb (has_timestamp && has_current && has_voltage) then Ok false
  else timestamp_is_valid df.

Definition _validate_temperature_data_format (df : dataframe) : result bool :=
  let has_timestamp := has_like timestamp_names df in
  let has_temperature := has_like temperature_names df in
  if negb (has_timestamp && has_temperature) then Ok false
  else timestamp_is_valid df.

Definition _validate_irradiance_data_format (df : dataframe) : result bool :=
  let has_timestamp := has_like timestamp_names df in
  let has_raw := has_like raw_names df in
  let has_irradiance := has_like irradiance_names df in
  if negb (has_timestamp && (has_raw || has_irradiance)) then Ok false
  else timestamp_is_valid df.

Definition validate_data_format (df : dataframe) (data_type : string)
  : result bool :=
  if String.eqb data_type "mpp" then _validate_mpp_data_format df
  else if String.eqb data_type "temperature" then
    _validate_temperature_data_format df
  else if String.eqb data_type "irradiance" then
    _validate_irradiance_data_format df
  else Raise ValueError.

End WithWorld.

End Validators.

(* ------------------------------------------------------------------ *)
(** ** [transformers.py] *)

Module Transformers.

Import Validators.

(** The [col_mapping] dictionaries, as the [if]/[elif] chains that fill
    them. *)
Definition mpp_col_mapping (col : string) : option string :=
  if is_like timestamp_names col then Some "timestamp"
  else if is_like current_names col then Some "current"
  else if is_like voltage_names col then Some "voltage"
  else if is_like power_names col then Some "power"
  else None.

Definition temperature_col_mapping (col : string) : option string :=
  if is_like timestamp_names col then Some "timestamp"
  else if is_like temperature_names col then Some "temperature"
  else None.

Definition irradiance_col_mapping (col : string) : option string :=
  if is_like timestamp_names col then Some "timestamp"
  else if is_like raw_names col then Some "raw_reading"
  else if is_like irradiance_names col then Some "irradiance"
  else None.

(** The example conversion factor [0.1], as the binary64 value the
    literal denotes. *)
Definition conversion_factor : float := 0x1.999999999999ap-4%float.

Section WithWorld.

Context {W : World}.

(** "Parse timestamp if it's a string": the column is replaced by the
    first conversion that succeeds, and left as it is when none does. *)
Definition parse_timestamp (result : dataframe) : Py.result dataframe :=
  sel <- getitem result "timestamp" ;;
  is_object <- dtype_is_object sel ;;
  if is_object then
    match convert sel with
    | Some ts => Ok (setitem result "timestamp" (SDatetime ts))
    | None => Ok result
    end
  else Ok result.

(** [a * b] on two columns of one frame. *)
Definition series_mul (a b : series) : Py.result series :=
  match a, b with
  | SFloat xs, SFloat ys => Ok (SFloat (map2 PrimFloat.mul xs ys))
  | SInt xs, SInt ys => Ok (SInt (map2 (fun x y => wrap64 (x * y)) xs ys))
  | SInt xs, SFloat ys =>
      Ok (SFloat (map2 (fun x y => (float_of_int64 x * y)%float) xs ys))
  | SFloat xs, SInt ys =>
      Ok (SFloat (map2 (fun x y => (x * float_of_int64 y)%float) xs ys))
  | SDatetime _, (SDatetime _ | SFloat _ | SInt _) => Raise TypeError
  | (SFloat _ | SInt _), SDatetime _ => Raise TypeError
  | SObject _, _ | _, SObject _ =>
      match object_mul a b with
      | Some s => Ok s
      | None => Raise TypeError
      end
  end.

(** [result['current'] * result['voltage']] as the value assigned to one
    column: a frame operand gives a frame, which cannot be assigned. *)
Definition mul (a b : selection) : Py.result series :=
  match a, b with
  | Col x, Col y => series_mul x y
  | _, _ => Raise ValueError
  end.

(** [result['raw_reading'] * 0.1]. *)
Definition scale (a : selection) (k : float) : Py.result series :=
  match a with
  | Col (SFloat xs) => Ok (SFloat (map (fun x => (x * k)%float) xs))
  | Col (SInt xs) =>
      Ok (SFloat (map (fun x => (float_of_int64 x * k)%float) xs))
  | Col (SDatetime _) => Raise TypeError
  | Col (SObject xs) =>
      match object_scale xs k with
      | Some s => Ok s
      | None => Raise TypeError
      end
  | Cols _ => Raise ValueError
  end.

Definition _transform_mpp_data (df : dataframe) : Py.result dataframe :=
  let result := rename mpp_col_mapping df in
  result <- parse_timestamp result ;;
  result <-
    (if negb (mem "power" (columns result)) then
       current <- getitem result "current" ;;
       voltage <- getitem result "voltage" ;;
       power <- mul current voltage ;;
       Ok (setitem result "power" power)
     else Ok result) ;;
  select result ["timestamp"; "current"; "voltage"; "power"].

Definition _transform_temperature_data (df : dataframe)
  : Py.result dataframe :=
  let result := rename temperature_col_mapping df in
  result <- parse_timestamp result ;;
  select result ["timestamp"; "temperature"].

Definition _transform_irradiance_data (df : dataframe)
  : Py.result dataframe :=
  let result := rename irradiance_col_mapping df in
  result <- parse_timestamp result ;;
  result <-
    (if negb (mem "irradiance" (columns result))
        && mem "raw_reading" (columns result) then
       raw_reading <- getitem result "raw_reading" ;;
       irradiance <- scale raw_reading conversion_factor ;;
       Ok (setitem result "irradiance" irradiance)
     else Ok result) ;;
  select result ["timestamp"; "raw_reading"; "irradiance"].

Definition transform_measurement_data (df : dataframe) (data_type : string)
  : Py.result dataframe :=
  if String.eqb data_type "mpp" then _transform_mpp_data df
  else if String.eqb data_type "temperature" then
    _transform_temperature_data df
  else if String.eqb data_type "irradiance" then
    _transform_irradiance_data df
  else Raise ValueError.

End WithWorld.

End Transformers.

(* ------------------------------------------------------------------ *)
(** ** [upload_historical_data.py]: the batch path *)

Module Importer.

Import Validators Transformers.

(** What opening a data file gives: a parsed table, a suffix that is
    neither [.txt] nor [.csv], or [pd.read_csv] raising. *)
Inductive data_file : Type :=
| Table (df : dataframe)
| UnsupportedFormat
| Unreadable (e : exn).

Inductive log_entry : Type :=
| UnsupportedFile                     (* "Unsupported file format: ..." *)
| InvalidData                         (* "Invalid data format in file: ..." *)
| ParseError (e : exn)                (* "Error parsing MPP data file ...: ..." *)
| Inserted (n : nat)                  (* "Inserted ... MPP records ..." *)
| InsertError (e : exn)               (* "Error inserting MPP data: ..." *)
| MissingBoardOrChannel               (* "Board and channel must be specified ..." *)
| NoDataFiles.                        (* "No data files found in ..." *)

(** The Python objects in a column. *)
Definition cells (s : series) : list value :=
  match s with
  | SDatetime xs => map PDatetime xs
  | SFloat xs => map PFloat xs
  | SInt xs => map PInt xs
  | SObject xs => xs
  end.

Definition is_numeric (s : series) : bool :=
  match s with
  | SFloat _ | SInt _ => true
  | _ => false
  end.

Definition is_float (s : series) : bool :=
  match s with
  | SFloat _ => true
  | _ => false
  end.

(** [data.iterrows()] builds each row from [data.values]: when all the
    columns are numeric and one is [float64], the [int64] columns are
    read as floats; otherwise every cell keeps its own type. *)
Definition row_values (data : dataframe) : dataframe :=
  if forallb (fun c => is_numeric (snd c)) data
     && existsb (fun c => is_float (snd c)) data then
    map (fun c => match snd c with
                  | SInt xs => (fst c, SFloat (map float_of_int64 xs))
                  | s => (fst c, s)
                  end) data
  else data.

(** [len(data)]. *)
Definition len (data : dataframe) : nat :=
  match data with
  | [] => 0%nat
  | (_, s) :: _ => List.length (cells s)
  end.

(** [row[label]] for the row at position [i], as a parameter of
    [cursor.execute]: with several columns under the label it is a
    [Series], which the database driver cannot adapt. *)
Definition row_item (data : dataframe) (i : nat) (label : string)
  : result value :=
  sel <- getitem (row_values data) label ;;
  match sel with
  | Col s =>
      match nth_error (cells s) i with
      | Some v => Ok v
      | None => Raise KeyError
      end
  | Cols _ => Raise DatabaseError
  end.

Definition mpp_row (data : dataframe) (board channel : Z) (i : nat)
  : result row :=
  timestamp <- row_item data i "timestamp" ;;
  current <- row_item data i "current" ;;
  voltage <- row_item data i "voltage" ;;
  power <- row_item data i "power" ;;
  Ok (MppRow timestamp current voltage power (PInt board) (PInt channel)).

Section WithWorld.

Context {W : World}.

(** [parse_mpp_data_file], the file already opened. *)
Definition parse_mpp_data_file (file : data_file)
  : option dataframe * list log_entry :=
  match file with
  | UnsupportedFormat => (None, [UnsupportedFile])
  | Unreadable e => (None, [ParseError e])
  | Table df =>
      match validate_data_format df "mpp" with
      | Raise e => (None, [ParseError e])
      | Ok false => (None, [InvalidData])
      | Ok true =>
          match transform_measurement_data df "mpp" with
          | Raise e => (None, [ParseError e])
          | Ok data => (Some data, [])
          end
      end
  end.

(** The [for _, row in data.iterrows()] loop inside one transaction. *)
Fixpoint execute_rows (db : store) (data : dataframe) (board channel : Z)
  (indices : list nat) : result store :=
  match indices with
  | [] => Ok db
  | i :: rest =>
      r <- mpp_row data board channel i ;;
      db' <- Connector.insert db r ;;
      execute_rows db' data board channel rest
  end.

(** [insert_mpp_data]: one commit after the last row; any exception rolls
    every row of the file back. *)
Definition insert_mpp_data (db : store) (data : dataframe)
  (board channel : Z) : store * list log_entry :=
  match execute_rows db data board channel (seq 0 (len data)) with
  | Ok db' => (db', [Inserted (len data)])
  | Raise e => (db, [InsertError e])
  end.

(** The "Process each file" loop of [main]. *)
Fixpoint process_files (db : store) (files : list data_file)
  (board channel : Z) : store * list log_entry :=
  match files with
  | [] => (db, [])
  | file :: rest =>
      let '(data, logs) := parse_mpp_data_file file in
      let '(db1, logs1) :=
        match data with
        | Some d => insert_mpp_data db d board channel
        | None => (db, [])
        end in
      let '(db2, logs2) := process_files db1 rest board channel in
      (db2, logs ++ logs1 ++ logs2)
  end.

(** [main] after the arguments are parsed and the data directory listed:
    only [--data-type mpp] has a branch. *)
Definition main (db : store) (data_type : string) (board channel : option Z)
  (files : list data_file) : store * list log_entry :=
  if String.eqb data_type "mpp" then
    match board, channel with
    | Some b, Some c =>
        match files with
        | [] => (db, [NoDataFiles])
        | _ => process_files db files b c
        end
    | _, _ => (db, [MissingBoardOrChannel])
    end
  else (db, []).

End WithWorld.

End Importer.

(* ------------------------------------------------------------------ *)
(** ** A concrete world for the examples *)

(** The examples below run the model in one fixed world.  Each of its
    functions answers as the library function does on the inputs the
    examples send it, and answers [None] outside the small fragment it
    covers. *)
Module Sample.

(** Frames are written with apostrophes; [json_text] puts the double
    quotes of JSON in their place. *)
Definition json_quote (c : ascii) : ascii :=
  if Ascii.eqb c "'"%char then ascii_of_nat 34 else c.

Fixpoint json_text (s : string) : string :=
  match s with
  | EmptyString => EmptyString
  | String c rest => String (json_quote c) (json_text rest)
  end.

(** Scenario 1 of the specification. *)
Definition mpp_frame : string :=
  json_text "{'type':'mpp','data':{'timestamp':'2023-09-20T12:00:00','current':0.05,'voltage':0.8},'metadata':{'board':1,'channel':2}}".

(** An MPP message that carries neither current nor voltage. *)
Definition bare_mpp_frame : string :=
  json_text "{'type':'mpp','data':{'timestamp':'2023-09-20T12:00:00'}}".

(** An MPP message without a timestamp. *)
Definition untimed_mpp_frame : string :=
  json_text "{'type':'mpp','data':{'current':0.05,'voltage':0.8}}".

(** An irradiance message with a raw reading and no irradiance. *)
Definition raw_irradiance_frame : string :=
  json_text "{'type':'irradiance','data':{'timestamp':'2023-09-20T12:00:00','raw_reading':900}}".

(** Scenario 3 of the specification. *)
Definition slash_irradiance_frame : string :=
  json_text "{'type':'irradiance','data':{'timestamp':'2023/09/20 12:00:00','raw':900}}".

(** An envelope whose payload is the empty object, and one without a
    payload. *)
Definition empty_data_frame : string := json_text "{'type':'mpp','data':{}}".

Definition no_data_frame : string := json_text "{'type':'mpp'}".

(** Scenario 2 of the specification. *)
Definition not_json_frame : string := "{not json".

Definition noon : datetime := mkDatetime 2023 9 20 12 0 0 0 None.

Definition mpp_message : value :=
  PDict [("type", PStr "mpp");
         ("data", PDict [("timestamp", PStr "2023-09-20T12:00:00");
                         ("current", PFloat 0x1.999999999999ap-5%float);
                         ("voltage", PFloat 0x1.999999999999ap-1%float)]);
         ("metadata", PDict [("board", PInt 1); ("channel", PInt 2)])].

Definition bare_mpp_message : value :=
  PDict [("type", PStr "mpp");
         ("data", PDict [("timestamp", PStr "2023-09-20T12:00:00")])].

Definition untimed_mpp_message : value :=
  PDict [("type", PStr "mpp");
         ("data", PDict [("current", PFloat 0x1.999999999999ap-5%float);
                         ("voltage", PFloat 0x1.999999999999ap-1%float)])].

Definition raw_irradiance_message : value :=
  PDict [("type", PStr "irradiance");
         ("data", PDict [("timestamp", PStr "2023-09-20T12:00:00");
                         ("raw_reading", PInt 900)])].

Definition slash_irradiance_message : value :=
  PDict [("type", PStr "irradiance");
         ("data", PDict [("timestamp", PStr "2023/09/20 12:00:00");
                         ("raw", PInt 900)])].

Definition empty_data_message : value :=
  PDict [("type", PStr "mpp"); ("data", PDict [])].

Definition no_data_message : value := PDict [("type", PStr "mpp")].

(** [json.loads] on the frames above. *)
Definition loads (message : string) : option value :=
  if String.eqb message mpp_frame then Some mpp_message
  else if String.eqb message bare_mpp_frame then Some bare_mpp_message
  else if String.eqb message untimed_mpp_frame then Some untimed_mpp_message
  else if String.eqb message raw_irradiance_frame then
    Some raw_irradiance_message
  else if String.eqb message slash_irradiance_frame then
    Some slash_irradiance_message
  else if String.eqb message empty_data_frame then Some empty_data_message
  else if String.eqb message no_data_frame then Some no_data_message
  else None.

(** [bytes.decode('utf-8')] on 7-bit data, where it changes nothing. *)
Definition decode (data : string) : option string :=
  if forallb (fun c => Nat.ltb (nat_of_ascii c) 128) (list_ascii_of_string data)
  then Some data else None.

Definition digit (c : ascii) : option Z :=
  let n := nat_of_ascii c in
  if Nat.leb 48 n && Nat.leb n 57 then Some (Z.of_nat (n - 48)) else None.

Fixpoint number (acc : Z) (s : string) : option Z :=
  match s with
  | EmptyString => Some acc
  | String c rest =>
      match digit c with
      | Some d => number (10 * acc + d) rest
      | None => None
      end
  end.

(** The decimal number in [s] at [start], exactly [n] digits wide. *)
Definition field (s : string) (start n : nat) : option Z :=
  let t := substring start n s in
  if Nat.eqb (String.length t) n then number 0 t else None.

Definition is_leap (y : Z) : bool :=
  (Z.eqb (y mod 4) 0 && negb (Z.eqb (y mod 100) 0)) || Z.eqb (y mod 400) 0.

Definition days_in_month (y m : Z) : Z :=
  if Z.eqb m 2 then (if is_leap y then 29 else 28)
  else if Z.eqb m 4 || Z.eqb m 6 || Z.eqb m 9 || Z.eqb m 11 then 30
  else 31.

Definition make_datetime (y m d hh mm ss : Z) : option datetime :=
  if Z.leb 1 y && Z.leb y 9999 && Z.leb 1 m && Z.leb m 12
     && Z.leb 1 d && Z.leb d (days_in_month y m)
     && Z.leb hh 23 && Z.leb mm 59 && Z.leb ss 59
  then Some (mkDatetime y m d hh mm ss 0 None) else None.

Definition char_at (s : string) (i : nat) (c : ascii) : bool :=
  match String.get i s with
  | Some c' => Ascii.eqb c c'
  | None => false
  end.

(** The time of day [HH:MM:SS] at position 11, after a date of 10
    characters and one separator. *)
Definition clock (s : string) : option (Z * Z * Z) :=
  if Nat.eqb (String.length s) 19 && char_at s 13 ":"%char
     && char_at s 16 ":"%char then
    match field s 11 2, field s 14 2, field s 17 2 with
    | Some hh, Some mm, Some ss => Some (hh, mm, ss)
    | _, _, _ => None
    end
  else None.

(** [datetime.fromisoformat] on [YYYY-MM-DDTHH:MM:SS] (or with a space
    for the [T]). *)
Definition isoformat (s : string) : option datetime :=
  if char_at s 4 "-"%char && char_at s 7 "-"%char
     && (char_at s 10 "T"%char || char_at s 10 " "%char) then
    match field s 0 4, field s 5 2, field s 8 2, clock s with
    | Some y, Some m, Some d, Some (hh, mm, ss) =>
        make_datetime y m d hh mm ss
    | _, _, _, _ => None
    end
  else None.

(** [int(text)] on a run of decimal digits. *)
Definition int_of_digits (s : string) : option Z :=
  match s with
  | EmptyString => None
  | _ => number 0 s
  end.

(** [float(text)] on a run of decimal digits. *)
Definition float_of_digits (s : string) : option float :=
  match int_of_digits s with
  | Some z =>
      match float_of_int z with
      | Ok f => Some f
      | Raise _ => None
      end
  | None => None
  end.

Fixpoint all_some {A : Type} (xs : list (option A)) : option (list A) :=
  match xs with
  | [] => Some []
  | Some x :: rest =>
      match all_some rest with
      | Some ys => Some (x :: ys)
      | None => None
      end
  | None :: _ => None
  end.

(** [pd.to_datetime] without a format, on a column of datetimes or of
    texts in the ISO form above. *)
Definition datetimes (fmt : option string) (sel : selection)
  : option (list datetime) :=
  match fmt, sel with
  | None, Col (SDatetime xs) => Some xs
  | None, Col (SObject xs) =>
      all_some (map (fun v => match v with
                              | PStr s => isoformat s
                              | _ => None
                              end) xs)
  | _, _ => None
  end.

(** Bytes that are not UTF-8: [0xFF] cannot start a character. *)
Definition not_utf8_frame : string := String (ascii_of_nat 255) "{not json".

(** A turn of the session loop in which [data] arrives and the
    acknowledgment gets through. *)
Definition arrives (data : string) : Connector.turn :=
  Connector.mkTurn true (Connector.Received data) true.

(** The rows the examples expect in the store. *)
Definition mpp_stored : row :=
  MppRow (PDatetime noon) (PFloat 0x1.999999999999ap-5%float)
         (PFloat 0x1.999999999999ap-1%float)
         (PFloat (0x1.999999999999ap-5 * 0x1.999999999999ap-1)%float)
         (PInt 1) (PInt 2).

Definition bare_mpp_stored : row :=
  MppRow (PDatetime noon) (PFloat 0%float) (PFloat 0%float) (PFloat 0%float)
         (PInt 0) (PInt 0).

Definition raw_irradiance_stored : row :=
  IrradianceRow (PDatetime noon) (PInt 900) (PFloat 0%float) PNone.

(** Scenario 4: a table with header [Time, I, V] and one data row. *)
Definition mpp_table : dataframe :=
  [("Time", SObject [PStr "2023-09-20 12:00:00"]);
   ("I", SFloat [0x1.999999999999ap-5%float]);
   ("V", SFloat [0x1.999999999999ap-1%float])].

(** A table with a timestamp and an irradiance column and no raw
    reading. *)
Definition irradiance_only_table : dataframe :=
  [("Time", SObject [PStr "2023-09-20 12:00:00"]);
   ("Irr", SFloat [0x1.68p+9%float])].

(** A normalised MPP table. *)
Definition canonical_mpp_table : dataframe :=
  [("timestamp", SDatetime [noon]);
   ("current", SFloat [0x1.999999999999ap-5%float]);
   ("voltage", SFloat [0x1.999999999999ap-1%float]);
   ("power", SFloat [(0x1.999999999999ap-5 * 0x1.999999999999ap-1)%float])].

#[export] Instance world : World := {|
  json_loads := loads;
  utf8_decode := decode;
  fromisoformat := isoformat;
  float_of_str := float_of_digits;
  int_of_str := int_of_digits;
  to_datetime := datetimes;
  object_mul := fun _ _ => None;
  object_scale := fun _ _ => None;
  db_accepts := fun _ _ => true
|}.

End Sample.

(* ------------------------------------------------------------------ *)
(** ** Vocabulary of the statements *)

Module Spec.

Import Validators.

(** The first parameter of every insert. *)
Definition row_timestamp (r : row) : value :=
  match r with
  | MppRow timestamp _ _ _ _ _ => timestamp
  | TemperatureRow timestamp _ _ => timestamp
  | IrradianceRow timestamp _ _ _ => timestamp
  end.

(** The columns of a frame whose label is one of the aliases. *)
Definition like (names : list string) (df : dataframe) : dataframe :=
  filter (fun c => is_like names (fst c)) df.

(** The labels each transformer returns, from its [return result[[...]]]
    line. *)
Definition canonical_columns (data_type : string) : list string :=
  if String.eqb data_type "mpp" then
    ["timestamp"; "current"; "voltage"; "power"]
  else if String.eqb data_type "temperature" then
    ["timestamp"; "temperature"]
  else if String.eqb data_type "irradiance" then
    ["timestamp"; "raw_reading"; "irradiance"]
  else [].

(** A frame in canonical form for a kind: exactly the canonical labels,
    in order, and a timestamp column that already holds datetimes. *)
Definition is_canonical (data_type : string) (df : dataframe) : Prop :=
  mem data_type ["mpp"; "temperature"; "irradiance"] = true /\
  columns df = canonical_columns data_type /\
  exists ts rest, df = ("timestamp", SDatetime ts) :: rest.

(** The frames a session has sent. *)
Fixpoint sent (evs : list Connector.event) : list string :=
  match evs with
  | [] => []
  | Connector.Sent frame :: rest => frame :: sent rest
  | _ :: rest => sent rest
  end.

End Spec.

Import Validators Transformers Connector Spec.

(* ------------------------------------------------------------------ *)
(** ** [app/config.py]: the [Config] class *)

Module Config.

(** [key in container], the test behind [in self._config]: key
    membership for a dict, element equality for a list, substring search
    for a text; the other objects are not containers. *)
Fixpoint is_substring (needle s : string) : bool :=
  String.prefix needle s
  || match s with
     | EmptyString => false
     | String _ rest => is_substring needle rest
     end.

Definition contains (container : value) (key : string) : result bool :=
  match container with
  | PDict items =>
      Ok (match lookup key items with Some _ => true | None => false end)
  | PList xs => Ok (existsb (fun x => eq_str x key) xs)
  | PStr s => Ok (is_substring key s)
  | _ => Raise TypeError
  end.

(** [container[key]] with a text key: only a dict can answer. *)
Definition getitem (container : value) (key : string) : result value :=
  match container with
  | PDict items =>
      match lookup key items with
      | Some v => Ok v
      | None => Raise KeyError
      end
  | _ => Raise TypeError
  end.

(** [d[key] = v] on the items of a dict: an existing key keeps its place,
    a new key goes last. *)
Fixpoint set_item (items : list (string * value)) (key : string) (v : value)
  : list (string * value) :=
  match items with
  | [] => [(key, v)]
  | (k, old) :: rest =>
      if String.eqb k key then (k, v) :: rest
      else (k, old) :: set_item rest key v
  end.

(** [container[key] = v] with a text key. *)
Definition setitem (container : value) (key : string) (v : value)
  : result value :=
  match container with
  | PDict items => Ok (PDict (set_item items key v))
  | _ => Raise TypeError
  end.

(** ['.' in key]. *)
Fixpoint contains_dot (key : string) : bool :=
  match key with
  | EmptyString => false
  | String c rest => Ascii.eqb c "."%char || contains_dot rest
  end.

(** [key.split('.')]. *)
Fixpoint split_dot (key : string) : list string :=
  match key with
  | EmptyString => [EmptyString]
  | String c rest =>
      if Ascii.eqb c "."%char then EmptyString :: split_dot rest
      else
        match split_dot rest with
        | [] => [String c EmptyString]
        | part :: parts => String c part :: parts
        end
  end.

(** The [for part in parts] loop of [get]. *)
Fixpoint walk (parts : list string) (v default : value) : value :=
  match parts with
  | [] => v
  | part :: rest =>
      match v with
      | PDict items =>
          match lookup part items with
          | Some inner => walk rest inner default
          | None => default
          end
      | _ => default
      end
  end.

(** [Config.get]. *)
Definition get (_config : value) (key : string) (default : value)
  : result value :=
  if contains_dot key then Ok (walk (split_dot key) _config default)
  else Py.get _config key default.

(** [Config.__getattr__], which Python calls for a name that is not an
    attribute of the object. *)
Definition __getattr__ (_config : value) (key : string) : result value :=
  present <- contains _config key ;;
  if present then getitem _config key else Raise AttributeError.

(** [Config.__getitem__]. *)
Definition __getitem__ (_config : value) (key : string) : result value :=
  present <- contains _config key ;;
  if present then getitem _config key else Raise KeyError.

(** [Config.__contains__]. *)
Definition __contains__ (_config : value) (key : string) : result bool :=
  contains _config key.

(** [Config.load_config]: the document read by [yaml.safe_load], or
    [None] when opening or parsing the file raised; the new [_config] and
    the value returned. *)
Definition load_config (_config : value) (loaded : option value)
  : value * bool :=
  match loaded with
  | Some document => (document, true)
  | None => (_config, false)
  end.

Section WithEnvironment.

Context {W : World}.

(** [os.getenv] and [str.isdigit]. *)
Variable getenv : string -> option string.
Variable isdigit : string -> bool.

(** The [db_settings] dictionary. *)
Definition db_settings : list (string * option string) :=
  [("host", getenv "DB_HOST");
   ("port", getenv "DB_PORT");
   ("dbname", getenv "DB_NAME");
   ("user", getenv "DB_USER");
   ("password", getenv "DB_PASSWORD")].

(** The value stored for a variable that is set. *)
Definition override_value (key value : string) : result Py.value :=
  if String.eqb key "port" && isdigit value then
    match int_of_str value with
    | Some port => Ok (PInt port)
    | None => Raise ValueError
    end
  else Ok (PStr value).

(** [self._config['database'][key] = ...]: the dict under [database] is
    changed in place. *)
Definition override (_config : Py.value) (key value : string)
  : result Py.value :=
  new <- override_value key value ;;
  database <- getitem _config "database" ;;
  database <- setitem database key new ;;
  setitem _config "database" database.

(** The [for key, value in db_settings.items()] loop. *)
Fixpoint apply_overrides (_config : Py.value)
  (settings : list (string * option string)) : result Py.value :=
  match settings with
  | [] => Ok _config
  | (key, Some value) :: rest =>
      _config <- override _config key value ;;
      apply_overrides _config rest
  | (_, None) :: rest => apply_overrides _config rest
  end.

(** [Config._apply_environment_overrides]. *)
Definition _apply_environment_overrides (_config : Py.value)
  : result Py.value :=
  present <- contains _config "database" ;;
  _config <-
    (if negb present then setitem _config "database" (PDict [])
     else Ok _config) ;;
  apply_overrides _config db_settings.

(** [Config.__init__], the configuration file already read: the
    [_config] of the new object, or the exception the constructor
    raises. *)
Definition __init__ (loaded : option Py.value) : result Py.value :=
  _apply_environment_overrides (fst (load_config (PDict []) loaded)).

End WithEnvironment.

End Config.

(* ------------------------------------------------------------------ *)
(** ** [labview_connector.py]: construction of the connector *)

Module Server.

(** The [default_db_config] dictionary of [LabVIEWConnector.__init__]. *)
Definition default_db_config : list (string * value) :=
  [("dbname", PStr "perocube");
   ("user", PStr "postgres");
   ("password", PStr "");
   ("host", PStr "localhost");
   ("port", PStr "5432")].

(** [base.update(extra)] for a dict [extra]: its items are assigned in
    order. *)
Definition update (base extra : list (string * value))
  : list (string * value) :=
  fold_left (fun acc kv => Config.set_item acc (fst kv) (snd kv)) extra base.

(** The attributes of a new connector; [server_socket] and [db_conn] are
    [None] until [start]. *)
Record connector : Type := mkConnector {
  host : value;
  port : value;
  db_config : list (string * value);
  server_socket_open : bool;
  is_running : bool;
  db_connected : bool
}.

(** [LabVIEWConnector.__init__]; [db_config] is a dict or [None], as its
    docstring says. *)
Definition __init__ (host port : value)
  (db_config : option (list (string * value))) : connector :=
  let merged :=
    match db_config with
    | Some (kv :: more) => update default_db_config (kv :: more)
    | _ => default_db_config
    end in
  mkConnector host port merged false false false.

End Server.

(* ------------------------------------------------------------------ *)
(** ** [api/models.py] and [api/routes.py]: the measurement endpoints *)

Module Api.

(** [MeasurementQuery]: the fields and their defaults; [limit] is
    declared [Field(100, ge=1, le=1000)] and [offset] [Field(0, ge=0)]. *)
Record MeasurementQuery : Type := mkQuery {
  start_time : option datetime;
  end_time : option datetime;
  limit : Z;
  offset : Z;
  sort : string;
  order : string
}.

(** The bounds that validation of a [MeasurementQuery] enforces. *)
Definition within_bounds (query : MeasurementQuery) : bool :=
  Z.leb 1 (limit query) && Z.leb (limit query) 1000
  && Z.leb 0 (offset query).

(** [MeasurementQuery(...)] from request parameters, absent ones taking
    their defaults; [None] when validation refuses the values. *)
Definition measurement_query (start_time end_time : option datetime)
  (limit offset : option Z) (sort order : option string)
  : option MeasurementQuery :=
  let query :=
    mkQuery start_time end_time
            (match limit with Some n => n | None => 100 end)
            (match offset with Some n => n | None => 0 end)
            (match sort with Some s => s | None => "timestamp" end)
            (match order with Some s => s | None => "desc" end) in
  if within_bounds query then Some query else None.

(** [range(n)] as integers. *)
Definition range (n : Z) : list Z := map Z.of_nat (seq 0 (Z.to_nat n)).

(** The literals of the mock rows, as the binary64 values they denote. *)
Definition f0_05 : float := 0x1.999999999999ap-5%float.
Definition f0_8 : float := 0x1.999999999999ap-1%float.
Definition f0_001 : float := 0x1.0624dd2f1a9fcp-10%float.
Definition f0_01 : float := 0x1.47ae147ae147bp-7%float.

(** [datetime.now() - timedelta(minutes=i)]: the reading of the clock is
    left symbolic. *)
Inductive instant : Type :=
| MinutesAgo (i : Z).

(** One element of the ["data"] list of [get_mpp_measurements]. *)
Record mpp_item : Type := mkMppItem {
  timestamp : instant;
  current : float;
  voltage : float;
  power : float;
  tracking_channel_board : Z;
  tracking_channel_channel : Z
}.

(** [x or 1] for an optional integer: [None] and [0] are both falsy. *)
Definition or_1 (x : option Z) : Z :=
  match x with
  | Some n => if Z.eqb n 0 then 1 else n
  | None => 1
  end.

(** The response dictionary of the measurement endpoints. *)
Record response (item : Type) : Type := mkResponse {
  data : list item;
  total : Z;
  page : Z;
  page_size : Z
}.

Arguments mkResponse {item} data total page page_size.
Arguments data {item} r.
Arguments total {item} r.
Arguments page {item} r.
Arguments page_size {item} r.

(** [query.offset // query.limit + 1 if query.limit > 0 else 1], the
    expression the three endpoints share. *)
Definition page_of (query : MeasurementQuery) : Z :=
  if Z.ltb 0 (limit query) then offset query / limit query + 1 else 1.

Definition mpp_row_at (board channel : option Z) (i : Z) : mpp_item :=
  let i_f := float_of_int64 i in
  mkMppItem (MinutesAgo i)
            (f0_05 - i_f * f0_001)%float
            (f0_8 - i_f * f0_01)%float
            ((f0_05 - i_f * f0_001) * (f0_8 - i_f * f0_01))%float
            (or_1 board) (or_1 channel).

(** [get_mpp_measurements]. *)
Definition get_mpp_measurements (query : MeasurementQuery)
  (board channel : option Z) : response mpp_item :=
  mkResponse (map (mpp_row_at board channel) (range (limit query)))
             1000 (page_of query) (limit query).

End Api.

(* ------------------------------------------------------------------ *)
(** ** More vocabulary and sample data *)

Module Spec2.

(** [isinstance(v, dict)]. *)
Definition is_dict (v : value) : bool :=
  match v with
  | PDict _ => true
  | _ => false
  end.

(** The objects that are neither containers nor text. *)
Definition is_scalar (v : value) : bool :=
  match v with
  | PNone | PBool _ | PInt _ | PFloat _ | PDatetime _ => true
  | _ => false
  end.

(** The tracking channel or sensor a row is attributed to is the default
    one: board 0 and channel 0, or no sensor. *)
Definition default_attribution (r : row) : Prop :=
  match r with
  | MppRow _ _ _ _ board channel => board = PInt 0 /\ channel = PInt 0
  | TemperatureRow _ _ sensor_id => sensor_id = PNone
  | IrradianceRow _ _ _ sensor_id => sensor_id = PNone
  end.

(** The event of closing the client socket. *)
Definition is_close (e : Connector.event) : bool :=
  match e with
  | Connector.Close => true
  | _ => false
  end.

(** The timestamp column a transformer returns for the column it found:
    a text column is replaced by its first successful conversion and
    kept when none succeeds; a column of another dtype is kept. *)
Definition parsed_timestamp {W : World} (s : series) : series :=
  match s with
  | SObject _ =>
      match convert (Col s) with
      | Some ts => SDatetime ts
      | None => s
      end
  | _ => s
  end.

(** A turn in which [data] arrives while the server runs and the
    acknowledgment gets through. *)
Definition delivered (data : string) : Connector.turn :=
  Connector.mkTurn true (Connector.Received data) true.

(** The text of a frame that decodes. *)
Definition decoded {W : World} (data : string) : string :=
  match utf8_decode data with
  | Some message => message
  | None => EmptyString
  end.

(** A frame the session can decode: not empty, and UTF-8. *)
Definition decodable {W : World} (data : string) : bool :=
  negb (String.eqb data "")
  && match utf8_decode data with
     | Some _ => true
     | None => false
     end.

(** The three kinds of data. *)
Definition kinds : list string := ["mpp"; "temperature"; "irradiance"].

(** The environment variable behind each database setting. *)
Definition variables : list (string * string) :=
  [("host", "DB_HOST"); ("port", "DB_PORT"); ("dbname", "DB_NAME");
   ("user", "DB_USER"); ("password", "DB_PASSWORD")].

(** Every row is an MPP row of the given board and channel. *)
Definition every_row_on (board channel : Z) (rows : list row) : Prop :=
  Forall (fun r => exists timestamp current voltage power,
              r = MppRow timestamp current voltage power
                         (PInt board) (PInt channel)) rows.

End Spec2.

Module Sample2.

(** An MPP envelope whose metadata is [null]. *)
Definition null_metadata_frame : string :=
  Sample.json_text
    "{'type':'mpp','data':{'timestamp':'2023-09-20T12:00:00'},'metadata':null}".

Definition null_metadata_message : value :=
  PDict [("type", PStr "mpp");
         ("data", PDict [("timestamp", PStr "2023-09-20T12:00:00")]);
         ("metadata", PNone)].

(** A temperature envelope. *)
Definition temperature_payload : list (string * value) :=
  [("timestamp", PStr "2023-09-20T12:00:00");
   ("temperature", PFloat 0x1.9p+4%float)].

Definition temperature_metadata : list (string * value) :=
  [("sensor_id", PStr "a3086f43-c11c-4cad-9497-dcd1c7a1e9ed")].

(** [json.loads] on the frames of the examples. *)
Definition loads (message : string) : option value :=
  if String.eqb message null_metadata_frame then Some null_metadata_message
  else Sample.loads message.

(** The sample world with the larger [json.loads] table. *)
Definition world : World := {|
  json_loads := loads;
  utf8_decode := Sample.decode;
  fromisoformat := Sample.isoformat;
  float_of_str := Sample.float_of_digits;
  int_of_str := Sample.int_of_digits;
  to_datetime := Sample.datetimes;
  object_mul := fun _ _ => None;
  object_scale := fun _ _ => None;
  db_accepts := fun _ _ => true
|}.

(** [str.isdigit] on 7-bit text. *)
Definition isdigit (s : string) : bool :=
  match s with
  | EmptyString => false
  | _ => forallb (fun c => match Sample.digit c with
                           | Some _ => true
                           | None => false
                           end) (list_ascii_of_string s)
  end.

(** An environment that sets the database host and port. *)
Definition getenv (name : string) : option string :=
  if String.eqb name "DB_HOST" then Some "db.example.org"
  else if String.eqb name "DB_PORT" then Some "6543"
  else None.

(** A configuration document with a database and an API section. *)
Definition document : value :=
  PDict [("database", PDict [("host", PStr "localhost");
                             ("port", PInt 5432);
                             ("dbname", PStr "perocube")]);
         ("api", PDict [("port", PInt 8000)])].

(** Tables with two timestamp-like columns and with none. *)
Definition two_timestamps_table : dataframe :=
  [("Time", SDatetime [Sample.noon]);
   ("DateTime", SDatetime [Sample.noon]);
   ("Temp", SFloat [0x1.9p+4%float])].

Definition no_timestamp_table : dataframe :=
  [("Temp", SFloat [0x1.9p+4%float])].

(** A temperature table with a text timestamp and an extra column. *)
Definition temperature_table : dataframe :=
  [("Time", SObject [PStr "2023-09-20 12:00:00"]);
   ("Comment", SObject [PStr "calm"]);
   ("Temp", SFloat [0x1.9p+4%float])].

(** An irradiance table with a raw reading only. *)
Definition raw_table : dataframe :=
  [("Time", SDatetime [Sample.noon]); ("Raw", SInt [900])].

End Sample2.

(* ------------------------------------------------------------------ *)
(** ** [labview_connector.py]: starting and stopping the server *)

(** [start], [_connect_to_database], [_accept_connections], [stop] and
    [main], in the way [main] runs them: one thread calls [start], which
    blocks in the accept loop until a [KeyboardInterrupt] arrives there,
    and then [stop].  The handler threads are started, not followed. *)
Module Listener.

(** An attribute that holds a socket or a connection: [None], the open
    object, or the object after [close()]. *)
Inductive handle : Type :=
| NoHandle
| OpenHandle
| ClosedHandle.

Record server : Type := mkServer {
  server_socket : handle;
  is_running : bool;
  db_conn : handle
}.

(** The attributes [__init__] sets. *)
Definition created : server := mkServer NoHandle false NoHandle.

Inductive event : Type :=
| ServerStarted                       (* "Server started on ..." *)
| DatabaseConnected                   (* "Connected to database successfully" *)
| DatabaseError                       (* "Error connecting to database: ..." *)
| StartError                          (* "Error starting server: ..." *)
| NewConnection (client : string)     (* "New connection from ..." *)
| Spawned (client : string)           (* [client_thread.start()] *)
| AcceptError                         (* "Error accepting connection: ..." *)
| Slept                               (* [time.sleep(1)] *)
| Interrupted                         (* "Keyboard interrupt received, ..." *)
| Stopping                            (* "Stopping server..." *)
| Stopped.                            (* "Server stopped" *)

(** What the environment decides during [start]: whether the socket can
    be created, whether it can be bound and listened on, and whether
    [psycopg2.connect] succeeds. *)
Record startup : Type := mkStartup {
  socket_created : bool;
  listening : bool;
  database_reachable : bool
}.

(** One turn of the accept loop: a connection, with whether its thread
    could be started, or [accept] raising. *)
Inductive accepted : Type :=
| Connection (client : string) (thread_started : bool)
| AcceptFailed.

(** [if handle: handle.close()]. *)
Definition close (h : handle) : handle :=
  match h with
  | NoHandle => NoHandle
  | _ => ClosedHandle
  end.

(** [_accept_connections] while [is_running] stays [True]: every
    exception is logged and followed by a pause; the loop is left only
    by the interrupt that ends the list. *)
Fixpoint _accept_connections (accepts : list accepted) : list event :=
  match accepts with
  | [] => []
  | Connection client true :: rest =>
      NewConnection client :: Spawned client :: _accept_connections rest
  | Connection client false :: rest =>
      NewConnection client :: AcceptError :: Slept
        :: _accept_connections rest
  | AcceptFailed :: rest => AcceptError :: Slept :: _accept_connections rest
  end.

(** [start]: the server afterwards, what was logged and done, and
    whether [start] was left by the interrupt rather than by
    returning. *)
Definition start (s : server) (env : startup) (accepts : list accepted)
  : server * list event * bool :=
  if negb (socket_created env) then
    (s, [StartError], false)
  else if negb (listening env) then
    (mkServer ClosedHandle (is_running s) (db_conn s), [StartError], false)
  else if negb (database_reachable env) then
    (mkServer ClosedHandle (is_running s) (db_conn s),
     [ServerStarted; DatabaseError; StartError], false)
  else
    (mkServer OpenHandle true OpenHandle,
     ServerStarted :: DatabaseConnected :: _accept_connections accepts,
     true).

(** [stop]. *)
Definition stop (s : server) : server * list event :=
  (mkServer (close (server_socket s)) false (close (db_conn s)),
   [Stopping; Stopped]).

(** [main], the arguments parsed: [start] under [try], the interrupt
    logged, [stop] in the [finally]. *)
Definition main (env : startup) (accepts : list accepted)
  : server * list event :=
  let '(s, events, interrupted) := start created env accepts in
  let '(s', stop_events) := stop s in
  (s', events ++ (if interrupted then [Interrupted] else []) ++ stop_events).

(** The clients for which a handler thread was started. *)
Fixpoint spawned (events : list event) : list string :=
  match events with
  | [] => []
  | Spawned client :: rest => client :: spawned rest
  | _ :: rest => spawned rest
  end.

(** Whether a handle is an open object. *)
Definition is_open (h : handle) : bool :=
  match h with
  | OpenHandle => true
  | _ => false
  end.

(** The clients that connected and whose thread could be started, in
    the order of their connections. *)
Fixpoint served (accepts : list accepted) : list string :=
  match accepts with
  | [] => []
  | Connection client true :: rest => client :: served rest
  | _ :: rest => served rest
  end.

(** Whether the three steps of the start-up succeed. *)
Definition starts (env : startup) : bool :=
  socket_created env && listening env && database_reachable env.

End Listener.

(* ------------------------------------------------------------------ *)
(** ** The result monad *)

Lemma bind_Ok {A B : Type} (c : result A) (k : A -> result B) (b : B) :
  bind c k = Ok b -> exists a, c = Ok a /\ k a = Ok b.
Proof.
  destruct c as [a | e]; simpl; intro H.
  - exists a; split; [reflexivity | exact H].
  - discriminate H.
Qed.

(** Peel the head of a chain of binds that returned. *)
Ltac bind_inv H :=
  let a := fresh "a" in
  let Ha := fresh "Ha" in
  apply bind_Ok in H; destruct H as (a & Ha & H).

Lemma app_one_neq {A : Type} (l : list A) (x : A) : l ++ [x] <> l.
Proof.
  intro H. apply (f_equal (@List.length A)) in H.
  rewrite length_app in H. simpl in H. lia.
Qed.

Lemma app_one_inj {A : Type} (l : list A) (x y : A) :
  l ++ [x] = l ++ [y] -> x = y.
Proof.
  intro H. apply app_inv_head in H. congruence.
Qed.

(* ------------------------------------------------------------------ *)
(** ** The network path *)

Section ConnectorFacts.

Context {W : World}.

Lemma get_Ok (obj : value) (key : string) (default v : value) :
  get obj key default = Ok v ->
  exists items,
    obj = PDict items /\
    v = match lookup key items with Some x => x | None => default end.
Proof.
  destruct obj; simpl; intro H; try discriminate H.
  exists items. split; [reflexivity | congruence].
Qed.

Lemma py_fromisoformat_Ok (v : value) (t : datetime) :
  py_fromisoformat v = Ok t ->
  exists s, v = PStr s /\ fromisoformat s = Some t.
Proof.
  destruct v; simpl; intro H; try discriminate H.
  destruct (fromisoformat s) as [t' |] eqn:E; [| discriminate H].
  exists s. split; [reflexivity | congruence].
Qed.

(** Every insert starts with the same two steps: the timestamp is read
    from the payload and parsed. *)
Lemma timestamp_prefix (measurement : value) (k : datetime -> result row)
  (r : row) :
  (ts <- get measurement "timestamp" PNone ;;
   timestamp <- py_fromisoformat ts ;;
   k timestamp) = Ok r ->
  exists items s t,
    measurement = PDict items /\
    lookup "timestamp" items = Some (PStr s) /\
    fromisoformat s = Some t /\
    k t = Ok r.
Proof.
  intro H. bind_inv H. bind_inv H.
  apply get_Ok in Ha. destruct Ha as (items & -> & ->).
  apply py_fromisoformat_Ok in Ha0. destruct Ha0 as (s & Hs & Ht).
  exists items, s, a0. repeat split; try assumption.
  destruct (lookup "timestamp" items); [congruence | discriminate Hs].
Qed.

Lemma mpp_row_timestamp (measurement metadata : value) (r : row) :
  mpp_row measurement metadata = Ok r ->
  exists items s t,
    measurement = PDict items /\
    lookup "timestamp" items = Some (PStr s) /\
    fromisoformat s = Some t /\
    row_timestamp r = PDatetime t.
Proof.
  intro H. apply timestamp_prefix in H.
  destruct H as (items & s & t & Hm & Hl & Ht & H).
  exists items, s, t. repeat split; try assumption.
  repeat bind_inv H. inversion H. reflexivity.
Qed.

Lemma temperature_row_timestamp (measurement metadata : value) (r : row) :
  temperature_row measurement metadata = Ok r ->
  exists items s t,
    measurement = PDict items /\
    lookup "timestamp" items = Some (PStr s) /\
    fromisoformat s = Some t /\
    row_timestamp r = PDatetime t.
Proof.
  intro H. apply timestamp_prefix in H.
  destruct H as (items & s & t & Hm & Hl & Ht & H).
  exists items, s, t. repeat split; try assumption.
  repeat bind_inv H. inversion H. reflexivity.
Qed.

Lemma irradiance_row_timestamp (measurement metadata : value) (r : row) :
  irradiance_row measurement metadata = Ok r ->
  exists items s t,
    measurement = PDict items /\
    lookup "timestamp" items = Some (PStr s) /\
    fromisoformat s = Some t /\
    row_timestamp r = PDatetime t.
Proof.
  intro H. apply timestamp_prefix in H.
  destruct H as (items & s & t & Hm & Hl & Ht & H).
  exists items, s, t. repeat split; try assumption.
  repeat bind_inv H. inversion H. reflexivity.
Qed.

(** A sink leaves the store alone or appends the one row it built. *)
Lemma store_measurement_cases (k : kind) (params : result row) (db : store) :
  (fst (store_measurement k params db) = db /\
   exists e, snd (store_measurement k params db) = [StoreError k e]) \/
  (exists r,
     params = Ok r /\ db_accepts db r = true /\
     store_measurement k params db = (db ++ [r], [Stored k])).
Proof.
  unfold store_measurement, insert.
  destruct params as [r | e]; simpl.
  - destruct (db_accepts db r) eqn:E.
    + right. exists r. split; [reflexivity |]. split; [exact E | reflexivity].
    + left. split; [reflexivity | exists DatabaseError; reflexivity].
  - left. split; [reflexivity | exists e; reflexivity].
Qed.

Lemma store_measurement_wrote (k : kind) (params : result row) (db : store)
  (r : row) :
  fst (store_measurement k params db) = db ++ [r] ->
  params = Ok r /\ db_accepts db r = true.
Proof.
  intro H.
  destruct (store_measurement_cases k params db) as [[Hsame _] | (r' & Hp & Ha & Hs)].
  - rewrite Hsame in H. symmetry in H. destruct (app_one_neq _ _ H).
  - rewrite Hs in H. simpl in H. apply app_one_inj in H. subst r'. auto.
Qed.

Lemma eq_str_true (v : value) (s : string) :
  eq_str v s = true -> v = PStr s.
Proof.
  destruct v; simpl; intro H; try discriminate H.
  apply String.eqb_eq in H. congruence.
Qed.

Lemma lookup_or_None (o : option value) (v : value) :
  match o with Some x => x | None => PNone end = v ->
  v <> PNone -> o = Some v.
Proof.
  destruct o; intros H Hv; [congruence | symmetry in H; contradiction].
Qed.

(** What [_process_message] has read from the envelope when it reaches a
    sink. *)
Lemma envelope_Ok (data data_type measurement metadata : value) :
  envelope data = Ok (data_type, measurement, metadata) ->
  exists items,
    data = PDict items /\
    data_type = match lookup "type" items with Some x => x | None => PNone end /\
    measurement = match lookup "data" items with Some x => x | None => PNone end /\
    metadata = match lookup "metadata" items with Some x => x | None => PDict [] end.
Proof.
  unfold envelope. intro H. repeat bind_inv H.
  apply get_Ok in Ha. destruct Ha as (items & -> & Ht).
  simpl in Ha0, Ha1. inversion Ha0. inversion Ha1. inversion H. subst.
  exists items. repeat split.
Qed.

Lemma unchanged_is_not_appended (db : store) (r : row) (logs : list log_entry) :
  fst (db, logs) = db ++ [r] -> False.
Proof.
  simpl. intro H. symmetry in H. exact (app_one_neq _ _ H).
Qed.

(** C1 (as amended).  On the network path a row is persisted only if the
    message is a JSON object whose type is one of the three kinds, whose
    data is an object carrying a timestamp text that
    [datetime.fromisoformat] accepts, and the database accepts the insert;
    the row's timestamp is that point in time.  No other field is
    required. *)
Theorem C1_row_persisted_only_with_iso_timestamp
  (db : store) (message : string) (r : row) :
  fst (_process_message db message) = db ++ [r] ->
  exists fields data_type items s t,
    json_loads message = Some (PDict fields) /\
    lookup "type" fields = Some (PStr data_type) /\
    In data_type ["mpp"; "temperature"; "irradiance"] /\
    lookup "data" fields = Some (PDict items) /\
    lookup "timestamp" items = Some (PStr s) /\
    fromisoformat s = Some t /\
    row_timestamp r = PDatetime t /\
    db_accepts db r = true.
Proof.
  unfold _process_message. intro H.
  destruct (json_loads message) as [data |] eqn:Hj;
    [| destruct (unchanged_is_not_appended _ _ _ H)].
  unfold dispatch in H.
  destruct (envelope data) as [[[data_type measurement] metadata] | e] eqn:He;
    [| destruct (unchanged_is_not_appended _ _ _ H)].
  apply envelope_Ok in He. destruct He as (fields & -> & Ht & Hm & _).
  destruct (negb (truthy data_type) || negb (truthy measurement));
    [destruct (unchanged_is_not_appended _ _ _ H) |].
  assert (Hsink : forall name params,
             eq_str data_type name = true ->
             In name ["mpp"; "temperature"; "irradiance"] ->
             params = Ok r ->
             db_accepts db r = true ->
             (exists items s t,
                 measurement = PDict items /\
                 lookup "timestamp" items = Some (PStr s) /\
                 fromisoformat s = Some t /\
                 row_timestamp r = PDatetime t) ->
             exists fields' data_type' items s t,
               Some (PDict fields) = Some (PDict fields') /\
               lookup "type" fields' = Some (PStr data_type') /\
               In data_type' ["mpp"; "temperature"; "irradiance"] /\
               lookup "data" fields' = Some (PDict items) /\
               lookup "timestamp" items = Some (PStr s) /\
               fromisoformat s = Some t /\
               row_timestamp r = PDatetime t /\
               db_accepts db r = true).
  { intros name params Hname Hin _ Hacc (items & s & t & Hitems & Hs & Hiso & Hrow).
    apply eq_str_true in Hname.
    exists fields, name, items, s, t.
    repeat split; try assumption.
    - apply lookup_or_None; [congruence | discriminate].
    - apply lookup_or_None; [congruence | discriminate]. }
  destruct (eq_str data_type "mpp") eqn:E1.
  { apply store_measurement_wrote in H. destruct H as [Hp Hacc].
    apply (Hsink "mpp" _ E1 (or_introl eq_refl) Hp Hacc).
    exact (mpp_row_timestamp _ _ _ Hp). }
  destruct (eq_str data_type "temperature") eqn:E2.
  { apply store_measurement_wrote in H. destruct H as [Hp Hacc].
    apply (Hsink "temperature" _ E2 (or_intror (or_introl eq_refl)) Hp Hacc).
    exact (temperature_row_timestamp _ _ _ Hp). }
  destruct (eq_str data_type "irradiance") eqn:E3.
  { apply store_measurement_wrote in H. destruct H as [Hp Hacc].
    apply (Hsink "irradiance" _ E3
             (or_intror (or_intror (or_introl eq_refl))) Hp Hacc).
    exact (irradiance_row_timestamp _ _ _ Hp). }
  destruct (unchanged_is_not_appended _ _ _ H).
Qed.

(** C10.  A decoded JSON object whose type is absent or the empty text,
    or whose data is absent or the empty object, is answered before any
    sink is reached: the store is unchanged, the only effect is the
    "missing type or data" log line, and [_process_message] returns
    normally.  An envelope whose data is the empty object and one whose
    data is absent have the same outcome. *)
Theorem C10_missing_type_or_data_stops_before_store
  (db : store) (message : string) (fields : list (string * value)) :
  json_loads message = Some (PDict fields) ->
  lookup "type" fields = None \/ lookup "type" fields = Some (PStr "") \/
  lookup "data" fields = None \/ lookup "data" fields = Some (PDict []) ->
  _process_message db message = (db, [InvalidFormat]) /\
  forall message' fields',
    json_loads message' = Some (PDict fields') ->
    lookup "data" fields' = None \/ lookup "data" fields' = Some (PDict []) ->
    _process_message db message' = _process_message db message.
Proof.
  assert (Hstop : forall m f,
             json_loads m = Some (PDict f) ->
             lookup "type" f = None \/ lookup "type" f = Some (PStr "") \/
             lookup "data" f = None \/ lookup "data" f = Some (PDict []) ->
             _process_message db m = (db, [InvalidFormat])).
  { intros m f Hj Hcases. unfold _process_message. rewrite Hj.
    unfold dispatch, envelope. simpl.
    destruct Hcases as [H | [H | [H | H]]]; rewrite H; simpl;
      try reflexivity;
      destruct (truthy match lookup "type" f with
                       | Some x => x
                       | None => PNone
                       end); reflexivity. }
  intros Hj Hcases. split.
  - exact (Hstop _ _ Hj Hcases).
  - intros message' fields' Hj' Hdata.
    rewrite (Hstop _ _ Hj Hcases).
    apply (Hstop _ _ Hj'). right. right. exact Hdata.
Qed.

(** *** The parameters of the MPP insert *)

(** What [_store_mpp_measurement] computes for a payload [items]. *)
Lemma mpp_row_power (items : list (string * value)) (metadata : value)
  (r : row) :
  mpp_row (PDict items) metadata = Ok r ->
  exists t current voltage power board channel,
    r = MppRow (PDatetime t) (PFloat current) (PFloat voltage) (PFloat power)
               (PInt board) (PInt channel) /\
    py_float (match lookup "current" items with
              | Some x => x
              | None => PInt 0
              end) = Ok current /\
    py_float (match lookup "voltage" items with
              | Some x => x
              | None => PInt 0
              end) = Ok voltage /\
    (lookup "power" items = None -> power = (current * voltage)%float) /\
    (forall x, lookup "power" items = Some x -> py_float x = Ok power).
Proof.
  unfold mpp_row. intro H. repeat bind_inv H.
  simpl in Ha, Ha1, Ha3, Ha5.
  inversion Ha; subst a. inversion Ha1; subst a1. inversion Ha3; subst a3.
  inversion Ha5; subst a5. inversion H; subst r. clear Ha Ha1 Ha3 Ha5 H.
  exists a0, a2, a4, a6, a8, a10.
  repeat split; try assumption.
  - intro Hnone. rewrite Hnone in Ha6. simpl in Ha6. congruence.
  - intros x Hx. rewrite Hx in Ha6. exact Ha6.
Qed.

(** The irradiance that [_store_irradiance_measurement] sends to the
    database when the payload has none. *)
Lemma irradiance_row_default (items : list (string * value))
  (metadata : value) (r : row) :
  lookup "irradiance" items = None ->
  irradiance_row (PDict items) metadata = Ok r ->
  exists t raw_reading sensor_id,
    r = IrradianceRow (PDatetime t) (PInt raw_reading) (PFloat 0%float)
                      sensor_id /\
    py_int (match lookup "raw_reading" items with
            | Some x => x
            | None => PInt 0
            end) = Ok raw_reading.
Proof.
  unfold irradiance_row. intros Hnone H. repeat bind_inv H.
  simpl in Ha, Ha1, Ha3.
  inversion Ha; subst a. inversion Ha1; subst a1. inversion Ha3; subst a3.
  inversion H; subst r. clear Ha Ha1 Ha3 H.
  rewrite Hnone in Ha4. vm_compute in Ha4. inversion Ha4; subst a4.
  exists a0, a2, a5. split; [reflexivity | assumption].
Qed.

(** *** The session loop *)

Lemma sent_app (xs ys : list event) : sent (xs ++ ys) = sent xs ++ sent ys.
Proof.
  induction xs as [| x xs IH]; [reflexivity |].
  destruct x; simpl; rewrite IH; reflexivity.
Qed.

Lemma sent_logs (logs : list log_entry) : sent (map Log logs) = [].
Proof.
  induction logs as [| l logs IH]; simpl; [reflexivity | exact IH].
Qed.

(** One turn that receives a decodable frame and whose acknowledgment
    gets through. *)
Lemma handle_client_step (db : store) (t : turn) (rest : list turn)
  (data message : string) :
  is_running t = true ->
  recv t = Received data ->
  data <> "" ->
  utf8_decode data = Some message ->
  sendall_ok t = true ->
  _handle_client db (t :: rest) =
    (fst (_handle_client (fst (_process_message db message)) rest),
     map Log (snd (_process_message db message))
       ++ Sent ACK
       :: snd (_handle_client (fst (_process_message db message)) rest)).
Proof.
  intros Hrun Hrecv Hdata Hdec Hsend. simpl.
  rewrite Hrun, Hrecv. simpl.
  destruct (String.eqb data "") eqn:E;
    [apply String.eqb_eq in E; contradiction |].
  rewrite Hdec.
  destruct (_process_message db message) as [db1 logs].
  rewrite Hsend. cbn [fst snd].
  destruct (_handle_client db1 rest) as [db2 evs]. reflexivity.
Qed.

(** The only frame a session ever sends is the fixed acknowledgment. *)
Lemma sent_frames_are_ACK (turns : list turn) (db : store) :
  Forall (fun frame => frame = "ACK") (sent (snd (_handle_client db turns))).
Proof.
  revert db. induction turns as [| t rest IH]; intro db; simpl.
  - constructor.
  - destruct (is_running t); simpl; [| constructor].
    destruct (recv t) as [data |]; [| constructor].
    destruct (String.eqb data ""); [constructor |].
    destruct (utf8_decode data) as [message |]; [| constructor].
    destruct (_process_message db message) as [db1 logs].
    destruct (sendall_ok t).
    + specialize (IH db1). destruct (_handle_client db1 rest) as [db2 evs].
      simpl in *. rewrite sent_app, sent_logs. simpl.
      constructor; [reflexivity | exact IH].
    + simpl. rewrite sent_app, sent_logs. constructor.
Qed.

(** The store only grows: a message appends at most its own row, a
    session appends the rows of its messages. *)
Lemma process_message_grows (db : store) (message : string) :
  exists rows, fst (_process_message db message) = db ++ rows.
Proof.
  assert (Hsame : forall logs : list log_entry,
             exists rows, fst (db, logs) = db ++ rows).
  { intro logs. exists []. simpl. now rewrite app_nil_r. }
  assert (Hsink : forall k params,
             exists rows, fst (store_measurement k params db) = db ++ rows).
  { intros k params.
    destruct (store_measurement_cases k params db)
      as [[Hs _] | (r & _ & _ & Hs)]; rewrite Hs.
    - exists []. now rewrite app_nil_r.
    - exists [r]. reflexivity. }
  unfold _process_message.
  destruct (json_loads message) as [data |]; [| apply Hsame].
  unfold dispatch.
  destruct (envelope data) as [[[data_type measurement] metadata] | e];
    [| apply Hsame].
  destruct (negb (truthy data_type) || negb (truthy measurement));
    [apply Hsame |].
  destruct (eq_str data_type "mpp"); [apply Hsink |].
  destruct (eq_str data_type "temperature"); [apply Hsink |].
  destruct (eq_str data_type "irradiance"); [apply Hsink | apply Hsame].
Qed.

Lemma handle_client_grows (turns : list turn) (db : store) :
  exists rows, fst (_handle_client db turns) = db ++ rows.
Proof.
  assert (Hsame : forall d : store, exists rows, d = d ++ rows).
  { intro d. exists []. now rewrite app_nil_r. }
  revert db. induction turns as [| t rest IH]; intro db; simpl.
  - apply Hsame.
  - destruct (is_running t); simpl; [| apply Hsame].
    destruct (recv t) as [data |]; [| simpl; apply Hsame].
    destruct (String.eqb data ""); [simpl; apply Hsame |].
    destruct (utf8_decode data) as [message |]; [| simpl; apply Hsame].
    destruct (process_message_grows db message) as (rows1 & H1).
    destruct (_process_message db message) as [db1 logs]. simpl in H1.
    destruct (sendall_ok t).
    + destruct (IH db1) as (rows2 & H2).
      destruct (_handle_client db1 rest) as [db2 evs]. simpl in *.
      exists (rows1 ++ rows2). rewrite H2, H1. now rewrite app_assoc.
    + simpl. exists rows1. exact H1.
Qed.

(** C5 (as amended).  After every frame that is received while the
    session runs, is not empty and decodes as UTF-8, and whatever
    [_process_message] made of it, the session sends one frame before it
    reads again, and that frame is the fixed text ACK: it is the same for
    a stored, a dropped and an unparsable message.  No other frame is
    ever sent. *)
Theorem C5_one_fixed_ACK_after_each_decoded_frame
  (db : store) (t : turn) (rest : list turn) (data message : string) :
  is_running t = true ->
  recv t = Received data ->
  data <> "" ->
  utf8_decode data = Some message ->
  sendall_ok t = true ->
  let after := _handle_client (fst (_process_message db message)) rest in
  _handle_client db (t :: rest) =
    (fst after, map Log (snd (_process_message db message))
                  ++ Sent "ACK" :: snd after) /\
  sent (snd (_handle_client db (t :: rest))) = "ACK" :: sent (snd after) /\
  Forall (fun frame => frame = "ACK")
         (sent (snd (_handle_client db (t :: rest)))).
Proof.
  intros Hrun Hrecv Hdata Hdec Hsend after.
  pose proof (handle_client_step db t rest data message
                Hrun Hrecv Hdata Hdec Hsend) as Hstep.
  fold after in Hstep. split; [exact Hstep |]. split.
  - rewrite Hstep. simpl. rewrite sent_app, sent_logs. reflexivity.
  - apply sent_frames_are_ACK.
Qed.

(** C7 (as amended).  A frame that decodes as UTF-8 text but is not JSON
    does not end the session: the decode failure is logged, the frame is
    acknowledged, and the loop goes on with the remaining turns from the
    same store, exactly as a session that starts there.  In particular
    the row that the next message persists is in the final store. *)
Theorem C7_non_JSON_text_keeps_the_session
  (db : store) (t : turn) (rest : list turn) (data message : string) :
  is_running t = true ->
  recv t = Received data ->
  data <> "" ->
  utf8_decode data = Some message ->
  json_loads message = None ->
  sendall_ok t = true ->
  _handle_client db (t :: rest) =
    (fst (_handle_client db rest),
     Log InvalidJSON :: Sent ACK :: snd (_handle_client db rest)) /\
  forall t2 rest2 data2 message2 r,
    rest = t2 :: rest2 ->
    is_running t2 = true ->
    recv t2 = Received data2 ->
    data2 <> "" ->
    utf8_decode data2 = Some message2 ->
    sendall_ok t2 = true ->
    fst (_process_message db message2) = db ++ [r] ->
    In r (fst (_handle_client db (t :: rest))).
Proof.
  intros Hrun Hrecv Hdata Hdec Hjson Hsend.
  pose proof (handle_client_step db t rest data message
                Hrun Hrecv Hdata Hdec Hsend) as Hstep.
  assert (Hbad : _process_message db message = (db, [InvalidJSON])).
  { unfold _process_message. now rewrite Hjson. }
  rewrite Hbad in Hstep. cbn [fst snd map app] in Hstep.
  split; [exact Hstep |].
  intros t2 rest2 data2 message2 r -> Hrun2 Hrecv2 Hdata2 Hdec2 Hsend2 Hrow.
  rewrite Hstep. cbn [fst].
  rewrite (handle_client_step db t2 rest2 data2 message2
             Hrun2 Hrecv2 Hdata2 Hdec2 Hsend2). cbn [fst].
  destruct (handle_client_grows rest2 (fst (_process_message db message2)))
    as (rows & Hrows).
  rewrite Hrows, Hrow. apply in_or_app. left. apply in_or_app. right.
  left. reflexivity.
Qed.

End ConnectorFacts.

(* ------------------------------------------------------------------ *)
(** ** Frames *)

Section FrameFacts.

Lemma mem_true (s : string) (l : list string) : mem s l = true <-> In s l.
Proof.
  unfold mem. rewrite existsb_exists. split.
  - intros (x & Hin & Heq). apply String.eqb_eq in Heq. now subst.
  - intro Hin. exists s. split; [assumption | apply String.eqb_refl].
Qed.

Lemma labelled_app (label : string) (d1 d2 : dataframe) :
  labelled label (d1 ++ d2) = labelled label d1 ++ labelled label d2.
Proof. apply filter_app. Qed.

Lemma labelled_nil (label : string) (df : dataframe) :
  mem label (columns df) = false -> labelled label df = [].
Proof.
  unfold labelled, columns, mem.
  induction df as [| [l s] df IH]; simpl; [reflexivity |].
  rewrite String.eqb_sym.
  destruct (String.eqb l label); simpl; [discriminate | exact IH].
Qed.

Lemma labelled_not_nil (label : string) (df : dataframe) :
  In label (columns df) -> labelled label df <> [].
Proof.
  unfold labelled, columns.
  induction df as [| [l s] df IH]; simpl; [contradiction |].
  intros [-> | Hin].
  - rewrite String.eqb_refl. discriminate.
  - destruct (String.eqb l label); [discriminate | exact (IH Hin)].
Qed.

Lemma getitem_Col (df : dataframe) (label : string) (s : series) :
  getitem df label = Ok (Col s) -> exists l, labelled label df = [(l, s)].
Proof.
  unfold getitem.
  destruct (labelled label df) as [| [l s'] [| c rest]]; intro H;
    try discriminate H.
  inversion H. now exists l.
Qed.

Lemma getitem_one (df : dataframe) (label l : string) (s : series) :
  labelled label df = [(l, s)] -> getitem df label = Ok (Col s).
Proof. unfold getitem. now intros ->. Qed.

Lemma labelled_label (label : string) (df : dataframe) (c : string * series) :
  In c (labelled label df) -> fst c = label.
Proof.
  unfold labelled. rewrite filter_In. intros [_ H].
  now apply String.eqb_eq in H.
Qed.

(** Assigning a column leaves the columns under other labels alone. *)
Lemma labelled_setitem_other (df : dataframe) (label other : string)
  (s : series) :
  other <> label ->
  labelled other (setitem df label s) = labelled other df.
Proof.
  intro Hneq. unfold setitem.
  destruct (mem label (columns df)).
  - unfold labelled. induction df as [| [l x] df IH]; simpl; [reflexivity |].
    destruct (String.eqb l label) eqn:E; simpl.
    + apply String.eqb_eq in E. subst l.
      destruct (String.eqb label other) eqn:E'.
      * apply String.eqb_eq in E'. congruence.
      * exact IH.
    + destruct (String.eqb l other); [now rewrite IH | exact IH].
  - rewrite labelled_app. simpl.
    destruct (String.eqb label other) eqn:E'.
    + apply String.eqb_eq in E'. congruence.
    + apply app_nil_r.
Qed.

(** Assigning under a label replaces every column that carries it. *)
Lemma labelled_replaced (df : dataframe) (label : string) (s : series) :
  labelled label
    (map (fun c => if String.eqb (fst c) label then (fst c, s) else c) df) =
  map (fun c => (fst c, s)) (labelled label df).
Proof.
  unfold labelled. induction df as [| [l x] df IH]; [reflexivity |].
  cbn [map filter fst].
  destruct (String.eqb l label) eqn:E; cbn [fst]; rewrite E.
  - cbn [map fst]. now rewrite IH.
  - exact IH.
Qed.

(** Assigning to the one column that carries a label. *)
Lemma labelled_setitem_same (df : dataframe) (label l : string)
  (old s : series) :
  labelled label df = [(l, old)] ->
  labelled label (setitem df label s) = [(label, s)].
Proof.
  intro H. unfold setitem.
  assert (Hmem : mem label (columns df) = true).
  { destruct (mem label (columns df)) eqn:E; [reflexivity |].
    rewrite (labelled_nil _ _ E) in H. discriminate H. }
  rewrite Hmem, labelled_replaced, H. cbn [map fst].
  assert (Hl : fst (l, old) = label).
  { apply (labelled_label label df). rewrite H. now left. }
  simpl in Hl. now subst l.
Qed.

Lemma columns_setitem_present (df : dataframe) (label : string) (s : series) :
  mem label (columns df) = true ->
  columns (setitem df label s) = columns df.
Proof.
  intro H. unfold setitem. rewrite H. unfold columns.
  rewrite map_map. apply map_ext. intros [l x]. simpl.
  now destruct (String.eqb l label).
Qed.

Lemma select_missing (df : dataframe) (first label : string)
  (rest : list string) :
  labelled label df = [] ->
  select df (first :: label :: rest) = Raise KeyError.
Proof.
  intro H. simpl. rewrite H.
  destruct (labelled first df); reflexivity.
Qed.

End FrameFacts.

(* ------------------------------------------------------------------ *)
(** ** The validator *)

Section ValidatorFacts.

Context {W : World}.

(** Past the required-column test, the timestamp column that [next]
    picks exists and can be read, so the check returns. *)
Lemma timestamp_is_valid_returns (df : dataframe) :
  has_like timestamp_names df = true ->
  exists ok, timestamp_is_valid df = Ok ok.
Proof.
  unfold has_like, timestamp_is_valid. intro H.
  destruct (find (is_like timestamp_names) (columns df)) as [col |] eqn:Hfind.
  - apply find_some in Hfind. destruct Hfind as [Hin _].
    unfold getitem.
    pose proof (labelled_not_nil col df Hin) as Hne.
    destruct (labelled col df) as [| [l s] [| c rest]];
      [contradiction | |]; cbn [bind].
    + destruct (is_datetime64_any_dtype (Col s)); [now exists true |].
      destruct (convert (Col s)); [now exists true | now exists false].
    + destruct (is_datetime64_any_dtype (Cols ((l, s) :: c :: rest)));
        [now exists true |].
      destruct (convert (Cols ((l, s) :: c :: rest)));
        [now exists true | now exists false].
  - apply existsb_exists in H. destruct H as (col & Hin & Hlike).
    rewrite (find_none _ _ Hfind col Hin) in Hlike. discriminate Hlike.
Qed.

Lemma guarded_check_returns (required : bool) (df : dataframe) :
  (required = true -> has_like timestamp_names df = true) ->
  exists ok,
    (if negb required then Ok false else timestamp_is_valid df) = Ok ok.
Proof.
  intro H. destruct required; simpl.
  - apply timestamp_is_valid_returns. now apply H.
  - now exists false.
Qed.

(** C6 (as amended).  For each of the three kinds the validator returns a
    boolean on every frame and raises nothing; for any other kind text it
    raises [ValueError]. *)
Theorem C6_validate_returns_for_the_three_kinds (df : dataframe) :
  (exists ok, validate_data_format df "mpp" = Ok ok) /\
  (exists ok, validate_data_format df "temperature" = Ok ok) /\
  (exists ok, validate_data_format df "irradiance" = Ok ok) /\
  (forall data_type,
      mem data_type ["mpp"; "temperature"; "irradiance"] = false ->
      validate_data_format df data_type = Raise ValueError).
Proof.
  repeat split.
  - apply guarded_check_returns. intro H.
    apply andb_prop in H. destruct H as [H _].
    apply andb_prop in H. now destruct H.
  - apply guarded_check_returns. intro H.
    apply andb_prop in H. now destruct H.
  - apply guarded_check_returns. intro H.
    apply andb_prop in H. now destruct H.
  - intros data_type H. unfold validate_data_format.
    unfold mem in H. simpl in H.
    apply orb_false_elim in H. destruct H as [H1 H].
    apply orb_false_elim in H. destruct H as [H2 H].
    apply orb_false_elim in H. destruct H as [H3 _].
    now rewrite H1, H2, H3.
Qed.

End ValidatorFacts.

(* ------------------------------------------------------------------ *)
(** ** The normaliser *)

Section RenameFacts.

Lemma is_like_In (names : list string) (l : string) :
  is_like names l = true -> In (lower l) names.
Proof. unfold is_like. apply mem_true. Qed.

(** The columns found under a canonical name after [rename] are the
    columns whose old label the mapping sends there. *)
Lemma labelled_rename (mapping : string -> option string) (name : string)
  (p : string -> bool) (df : dataframe) :
  (forall l,
      String.eqb (match mapping l with Some c => c | None => l end) name
      = p l) ->
  labelled name (rename mapping df) =
  map (fun c => (name, snd c)) (filter (fun c => p (fst c)) df).
Proof.
  intro Hp. unfold labelled, rename.
  induction df as [| [l s] df IH]; [reflexivity |].
  cbn [map filter fst snd]. rewrite <- (Hp l).
  destruct (String.eqb match mapping l with
                       | Some c => c
                       | None => l
                       end name) eqn:E.
  - apply String.eqb_eq in E. cbn [map snd]. rewrite E. f_equal. exact IH.
  - exact IH.
Qed.

Lemma columns_rename_mem (mapping : string -> option string) (name : string)
  (p : string -> bool) (df : dataframe) :
  (forall l,
      String.eqb (match mapping l with Some c => c | None => l end) name
      = p l) ->
  mem name (columns (rename mapping df)) = existsb p (columns df).
Proof.
  intro Hp. unfold mem, columns, rename.
  induction df as [| [l s] df IH]; [reflexivity |].
  cbn [map existsb fst]. rewrite IH, <- (Hp l).
  f_equal. apply String.eqb_sym.
Qed.

(** Decide what a renamed label is, by cases on the alias tests. *)
Ltac alias_cases l :=
  repeat match goal with
         | |- context [is_like ?names l] =>
             let E := fresh "E" in destruct (is_like names l) eqn:E
         end;
  repeat match goal with
         | H : is_like _ l = true |- _ => apply is_like_In in H; simpl in H
         end;
  try reflexivity;
  try (repeat match goal with
              | H : _ \/ _ |- _ => destruct H
              | H : False |- _ => destruct H
              end; congruence).

(** A label that no alias test recognises is not a canonical name. *)
Ltac unmapped l name :=
  let E := fresh "E" in
  destruct (String.eqb l name) eqn:E;
  [apply String.eqb_eq in E; subst l;
   repeat match goal with
          | H : is_like _ _ = false |- _ => vm_compute in H
          end; congruence
  | reflexivity].

Lemma mpp_timestamp_label (l : string) :
  String.eqb (match mpp_col_mapping l with Some c => c | None => l end)
             "timestamp" = is_like timestamp_names l.
Proof.
  unfold mpp_col_mapping. alias_cases l. unmapped l "timestamp".
Qed.

Lemma mpp_current_label (l : string) :
  String.eqb (match mpp_col_mapping l with Some c => c | None => l end)
             "current" = is_like current_names l.
Proof.
  unfold mpp_col_mapping. alias_cases l. unmapped l "current".
Qed.

Lemma mpp_voltage_label (l : string) :
  String.eqb (match mpp_col_mapping l with Some c => c | None => l end)
             "voltage" = is_like voltage_names l.
Proof.
  unfold mpp_col_mapping. alias_cases l. unmapped l "voltage".
Qed.

Lemma mpp_power_label (l : string) :
  String.eqb (match mpp_col_mapping l with Some c => c | None => l end)
             "power" = is_like power_names l.
Proof.
  unfold mpp_col_mapping. alias_cases l. unmapped l "power".
Qed.

(** [raw_reading] is not one of its own aliases: a column already
    labelled so is not renamed and keeps the canonical name. *)
Lemma irradiance_raw_label (l : string) :
  String.eqb (match irradiance_col_mapping l with Some c => c | None => l end)
             "raw_reading"
  = is_like raw_names l || String.eqb l "raw_reading".
Proof.
  unfold irradiance_col_mapping.
  destruct (is_like timestamp_names l) eqn:E1.
  - destruct (is_like raw_names l) eqn:E2.
    + apply is_like_In in E1, E2. simpl in E1, E2.
      repeat match goal with
             | H : _ \/ _ |- _ => destruct H
             | H : False |- _ => destruct H
             end; congruence.
    + destruct (String.eqb l "raw_reading") eqn:E; [| reflexivity].
      apply String.eqb_eq in E. subst l. vm_compute in E1. discriminate E1.
  - destruct (is_like raw_names l) eqn:E2; [reflexivity |].
    destruct (is_like irradiance_names l) eqn:E3.
    + destruct (String.eqb l "raw_reading") eqn:E; [| reflexivity].
      apply String.eqb_eq in E. subst l. vm_compute in E3. discriminate E3.
    + reflexivity.
Qed.

End RenameFacts.

Section TransformerFacts.

Context {W : World}.

Lemma like_nil (names : list string) (df : dataframe) :
  like names df = [] -> existsb (is_like names) (columns df) = false.
Proof.
  unfold like, columns. induction df as [| [l s] df IH]; [reflexivity |].
  cbn [filter map existsb fst].
  destruct (is_like names l); [discriminate | exact IH].
Qed.

Lemma has_like_false (names : list string) (df : dataframe) :
  has_like names df = false -> like names df = [].
Proof.
  unfold has_like, like, columns. induction df as [| [l s] df IH];
    [reflexivity |].
  cbn [filter map existsb fst].
  destruct (is_like names l); [discriminate | exact IH].
Qed.

(** When the timestamp step returns, there is one timestamp column, the
    other columns are untouched and no label has changed. *)
Lemma parse_timestamp_Ok (result parsed : dataframe) :
  parse_timestamp result = Ok parsed ->
  (exists ts, labelled "timestamp" parsed = [("timestamp", ts)]) /\
  (forall other, other <> "timestamp" ->
                 labelled other parsed = labelled other result) /\
  columns parsed = columns result.
Proof.
  unfold parse_timestamp. intro H. bind_inv H. bind_inv H.
  destruct a as [s | d]; [| discriminate Ha0].
  apply getitem_Col in Ha. destruct Ha as (l & Hl).
  assert (Hlabel : l = "timestamp").
  { apply (labelled_label "timestamp" result (l, s)). rewrite Hl. now left. }
  subst l.
  assert (Hsame : Ok result = Ok parsed ->
                  (exists ts, labelled "timestamp" parsed = [("timestamp", ts)]) /\
                  (forall other, other <> "timestamp" ->
                                 labelled other parsed = labelled other result) /\
                  columns parsed = columns result).
  { intro E. inversion E. subst parsed. repeat split; eauto. }
  destruct a0; [| exact (Hsame H)].
  destruct (convert (Col s)) as [ts |]; [| exact (Hsame H)].
  inversion H. subst parsed. repeat split.
  - exists (SDatetime ts). exact (labelled_setitem_same _ _ _ _ _ Hl).
  - intros other Hother. now apply labelled_setitem_other.
  - apply columns_setitem_present.
    destruct (mem "timestamp" (columns result)) eqn:E; [reflexivity |].
    rewrite (labelled_nil _ _ E) in Hl. discriminate Hl.
Qed.

Lemma parse_timestamp_Raise (result : dataframe) (e : exn) :
  parse_timestamp result = Raise e -> e = KeyError \/ e = AttributeError.
Proof.
  unfold parse_timestamp, getitem.
  destruct (labelled "timestamp" result) as [| [l s] [| c rest]];
    cbn [bind]; intro H.
  - left. congruence.
  - destruct s; cbn [dtype_is_object bind] in H; try discriminate H.
    destruct (convert (Col (SObject xs))); discriminate H.
  - right. cbn [dtype_is_object bind] in H. congruence.
Qed.

(** What [result[[...]]] holds under each of the labels asked for. *)
Lemma select_labels (df : dataframe) (labels : list string) (r : dataframe) :
  select df labels = Ok r ->
  forall c, In c r -> In (fst c) labels.
Proof.
  revert r. induction labels as [| l labels IH]; intros r H c Hc.
  - inversion H. subst r. destruct Hc.
  - cbn [select] in H.
    destruct (labelled l df) as [| c0 cols] eqn:El; [discriminate H |].
    bind_inv H. inversion H. subst r.
    rewrite app_comm_cons in Hc.
    apply in_app_or in Hc. destruct Hc as [Hc | Hc].
    + left. symmetry. apply (labelled_label l df). now rewrite El.
    + right. exact (IH a Ha c Hc).
Qed.

Lemma labelled_idem (label : string) (df : dataframe) :
  labelled label (labelled label df) = labelled label df.
Proof.
  unfold labelled. induction df as [| [l s] df IH]; [reflexivity |].
  cbn [filter fst]. destruct (String.eqb l label) eqn:E.
  - cbn [filter fst]. rewrite E. now f_equal.
  - exact IH.
Qed.

Lemma labelled_none (label : string) (d : dataframe) :
  (forall c, In c d -> fst c <> label) -> labelled label d = [].
Proof.
  unfold labelled. induction d as [| [l s] d IH]; intro H; [reflexivity |].
  cbn [filter fst]. destruct (String.eqb l label) eqn:E.
  - apply String.eqb_eq in E. destruct (H (l, s)); [now left | exact E].
  - apply IH. intros c Hc. apply H. now right.
Qed.

Lemma select_keeps (df : dataframe) (labels : list string) (r : dataframe)
  (x : string) :
  NoDup labels ->
  In x labels ->
  select df labels = Ok r ->
  labelled x r = labelled x df.
Proof.
  revert r. induction labels as [| l labels IH]; intros r Hnd Hin H.
  - destruct Hin.
  - cbn [select] in H.
    destruct (labelled l df) as [| c0 cols] eqn:El; [discriminate H |].
    bind_inv H. inversion H. subst r.
    rewrite app_comm_cons, labelled_app.
    inversion Hnd as [| ? ? Hnotin Hnd']. subst.
    destruct Hin as [-> | Hin].
    + rewrite <- El, labelled_idem.
      rewrite (labelled_none x a); [apply app_nil_r |].
      intros c Hc Heq. apply Hnotin. rewrite <- Heq.
      exact (select_labels _ _ _ Ha c Hc).
    + rewrite (IH a Hnd' Hin Ha).
      rewrite (labelled_none x (c0 :: cols)); [reflexivity |].
      intros c Hc Heq. apply Hnotin.
      assert (fst c = l) by (apply (labelled_label l df); now rewrite El).
      congruence.
Qed.

Lemma mpp_renamed (name : string) (names : list string) (df : dataframe) :
  (forall l,
      String.eqb (match mpp_col_mapping l with Some c => c | None => l end)
                 name = is_like names l) ->
  labelled name (rename mpp_col_mapping df)
  = map (fun c => (name, snd c)) (like names df).
Proof. intro H. exact (labelled_rename _ _ _ df H). Qed.

(** Power absent: the transformer returns the four
    canonical columns, and the power column is the product of the
    current and voltage columns. *)
Lemma transform_mpp_derives_power (df : dataframe) (lc lv : string)
  (c v : series) (r : dataframe) :
  like current_names df = [(lc, c)] ->
  like voltage_names df = [(lv, v)] ->
  like power_names df = [] ->
  _transform_mpp_data df = Ok r ->
  exists ts p,
    r = [("timestamp", ts); ("current", c); ("voltage", v); ("power", p)] /\
    series_mul c v = Ok p.
Proof.
  intros Hc Hv Hp H. unfold _transform_mpp_data in H.
  apply bind_Ok in H. destruct H as (parsed & Hparse & H).
  apply parse_timestamp_Ok in Hparse.
  destruct Hparse as ((ts & Hts) & Hother & Hcols).
  apply bind_Ok in H. destruct H as (full & Hpower & H).
  rewrite Hcols, (columns_rename_mem _ _ _ _ mpp_power_label),
    (like_nil _ _ Hp) in Hpower.
  cbn [negb] in Hpower.
  assert (Hcur : labelled "current" parsed = [("current", c)]).
  { rewrite Hother by discriminate.
    rewrite (mpp_renamed _ _ _ mpp_current_label), Hc. reflexivity. }
  assert (Hvol : labelled "voltage" parsed = [("voltage", v)]).
  { rewrite Hother by discriminate.
    rewrite (mpp_renamed _ _ _ mpp_voltage_label), Hv. reflexivity. }
  assert (Hpow : labelled "power" parsed = []).
  { rewrite Hother by discriminate.
    rewrite (mpp_renamed _ _ _ mpp_power_label), Hp. reflexivity. }
  rewrite (getitem_one _ _ _ _ Hcur), (getitem_one _ _ _ _ Hvol) in Hpower.
  cbn [bind mul] in Hpower.
  apply bind_Ok in Hpower. destruct Hpower as (p & Hmul & Hfull).
  inversion Hfull. subst full. clear Hfull.
  assert (Hset : setitem parsed "power" p = parsed ++ [("power", p)]).
  { unfold setitem.
    rewrite Hcols, (columns_rename_mem _ _ _ _ mpp_power_label),
      (like_nil _ _ Hp). reflexivity. }
  rewrite Hset in H. exists ts, p. split; [| exact Hmul].
  cbn [select] in H.
  rewrite !labelled_app, Hts, Hcur, Hvol, Hpow in H.
  cbn in H. inversion H. reflexivity.
Qed.

(** Power supplied: the power columns of the result are
    the power-like columns of the input, unchanged. *)
Lemma transform_mpp_keeps_power (df r : dataframe) :
  like power_names df <> [] ->
  _transform_mpp_data df = Ok r ->
  labelled "power" r = map (fun c => ("power", snd c)) (like power_names df).
Proof.
  intros Hp H. unfold _transform_mpp_data in H.
  apply bind_Ok in H. destruct H as (parsed & Hparse & H).
  apply parse_timestamp_Ok in Hparse.
  destruct Hparse as (_ & Hother & Hcols).
  apply bind_Ok in H. destruct H as (full & Hpower & H).
  rewrite Hcols, (columns_rename_mem _ _ _ _ mpp_power_label) in Hpower.
  assert (Hhas : existsb (is_like power_names) (columns df) = true).
  { destruct (existsb (is_like power_names) (columns df)) eqn:E;
      [reflexivity |].
    destruct Hp. exact (has_like_false _ _ E). }
  rewrite Hhas in Hpower. cbn [negb] in Hpower.
  inversion Hpower. subst full.
  assert (Hnd : NoDup ["timestamp"; "current"; "voltage"; "power"]).
  { repeat constructor; simpl; intuition discriminate. }
  assert (Hin : In "power" ["timestamp"; "current"; "voltage"; "power"]).
  { simpl. tauto. }
  rewrite (select_keeps parsed _ r "power" Hnd Hin H).
  rewrite Hother by discriminate.
  exact (mpp_renamed _ _ _ mpp_power_label).
Qed.

Lemma nth_error_map2 {A B C : Type} (f : A -> B -> C) (xs : list A)
  (ys : list B) (i : nat) (x : A) (y : B) :
  nth_error xs i = Some x ->
  nth_error ys i = Some y ->
  nth_error (map2 f xs ys) i = Some (f x y).
Proof.
  revert ys i. induction xs as [| x0 xs IH]; intros ys i Hx Hy.
  - destruct i; discriminate Hx.
  - destruct ys as [| y0 ys]; [destruct i; discriminate Hy |].
    destruct i as [| i]; simpl in *.
    + congruence.
    + exact (IH ys i Hx Hy).
Qed.

(** Persistence on the batch path: the parameters [insert_mpp_data] sends
    for row [i] of a normalised table with a derived power column. *)
Lemma importer_row_power (ts : list datetime) (xs ys : list float)
  (board channel : Z) (i : nat) (t : datetime) (x y : float) :
  nth_error ts i = Some t ->
  nth_error xs i = Some x ->
  nth_error ys i = Some y ->
  Importer.mpp_row
    [("timestamp", SDatetime ts); ("current", SFloat xs);
     ("voltage", SFloat ys); ("power", SFloat (map2 PrimFloat.mul xs ys))]
    board channel i
  = Ok (MppRow (PDatetime t) (PFloat x) (PFloat y) (PFloat (x * y)%float)
               (PInt board) (PInt channel)).
Proof.
  intros Ht Hx Hy.
  pose proof (nth_error_map2 PrimFloat.mul xs ys i x y Hx Hy) as Hp.
  unfold Importer.mpp_row, Importer.row_item.
  cbn [Importer.row_values forallb existsb Importer.is_numeric snd andb
       getitem labelled filter fst String.eqb Ascii.eqb Bool.eqb bind
       Importer.cells].
  rewrite (map_nth_error PDatetime _ _ Ht), (map_nth_error PFloat _ _ Hx),
    (map_nth_error PFloat _ _ Hy), (map_nth_error PFloat _ _ Hp).
  reflexivity.
Qed.

(** C2.  (1) Network path: the MPP row that is persisted carries
    [float(current)] and [float(voltage)] of the payload; when the payload
    has no power its power is exactly their binary64 product, and when it
    has one its power is [float] of the value given.  (2) Batch path: for
    a table with one current-like and one voltage-like column the
    transformer returns, when there is no power-like column, the four
    canonical columns with power the product of the current and voltage
    columns (elementwise binary64 product for float columns), and when
    there are power-like columns, those columns as given.  (3) The
    importer sends each row of such a table to the database with the
    power of the table. *)
Theorem C2_power_is_current_times_voltage :
  (forall db items metadata r,
      fst (_store_mpp_measurement db (PDict items) metadata) = db ++ [r] ->
      exists t current voltage power board channel,
        r = MppRow (PDatetime t) (PFloat current) (PFloat voltage)
                   (PFloat power) (PInt board) (PInt channel) /\
        py_float (match lookup "current" items with
                  | Some x => x
                  | None => PInt 0
                  end) = Ok current /\
        py_float (match lookup "voltage" items with
                  | Some x => x
                  | None => PInt 0
                  end) = Ok voltage /\
        (lookup "power" items = None -> power = (current * voltage)%float) /\
        (forall x, lookup "power" items = Some x -> py_float x = Ok power)) /\
  (forall df lc lv c v r,
      like current_names df = [(lc, c)] ->
      like voltage_names df = [(lv, v)] ->
      _transform_mpp_data df = Ok r ->
      (like power_names df = [] ->
       exists ts p,
         r = [("timestamp", ts); ("current", c); ("voltage", v); ("power", p)] /\
         series_mul c v = Ok p /\
         forall xs ys, c = SFloat xs -> v = SFloat ys ->
                       p = SFloat (map2 PrimFloat.mul xs ys)) /\
      (like power_names df <> [] ->
       labelled "power" r
       = map (fun col => ("power", snd col)) (like power_names df))) /\
  (forall ts xs ys board channel i t x y,
      nth_error ts i = Some t ->
      nth_error xs i = Some x ->
      nth_error ys i = Some y ->
      Importer.mpp_row
        [("timestamp", SDatetime ts); ("current", SFloat xs);
         ("voltage", SFloat ys); ("power", SFloat (map2 PrimFloat.mul xs ys))]
        board channel i
      = Ok (MppRow (PDatetime t) (PFloat x) (PFloat y) (PFloat (x * y)%float)
                   (PInt board) (PInt channel))).
Proof.
  split; [| split].
  - intros db items metadata r H.
    apply store_measurement_wrote in H. destruct H as [H _].
    exact (mpp_row_power _ _ _ H).
  - intros df lc lv c v r Hc Hv H. split.
    + intro Hp.
      destruct (transform_mpp_derives_power df lc lv c v r Hc Hv Hp H)
        as (ts & p & Hr & Hmul).
      exists ts, p. repeat split; try assumption.
      intros xs ys -> ->. simpl in Hmul. congruence.
    + intro Hp. exact (transform_mpp_keeps_power df r Hp H).
  - exact importer_row_power.
Qed.

(** *** Irradiance *)

Lemma parse_timestamp_object (result : dataframe) (l : string)
  (xs : list value) :
  labelled "timestamp" result = [(l, SObject xs)] ->
  parse_timestamp result =
  Ok (match convert (Col (SObject xs)) with
      | Some ts => setitem result "timestamp" (SDatetime ts)
      | None => result
      end).
Proof.
  intro H. unfold parse_timestamp, getitem. rewrite H.
  cbn [bind dtype_is_object].
  destruct (convert (Col (SObject xs))); reflexivity.
Qed.

(** The format loop reaches the fourth format only after the parse
    without a format and the first three formats have failed. *)
Lemma convert_fourth_format (sel : selection) (ts : list datetime) :
  to_datetime None sel = None ->
  to_datetime (Some "%Y-%m-%d %H:%M:%S") sel = None ->
  to_datetime (Some "%d/%m/%Y %H:%M:%S") sel = None ->
  to_datetime (Some "%m/%d/%Y %H:%M:%S") sel = None ->
  to_datetime (Some "%Y/%m/%d %H:%M:%S") sel = Some ts ->
  convert sel = Some ts.
Proof.
  intros H0 H1 H2 H3 H4. unfold convert, formats. rewrite H0.
  cbn [try_formats]. now rewrite H1, H2, H3, H4.
Qed.

(** From a raw reading the transformer derives the irradiance with the
    factor 0.1. *)
Lemma transform_irradiance_derives (ts : list datetime) (xs : list Z) :
  _transform_irradiance_data
    [("timestamp", SDatetime ts); ("raw_reading", SInt xs)]
  = Ok [("timestamp", SDatetime ts); ("raw_reading", SInt xs);
        ("irradiance",
         SFloat (map (fun x => (float_of_int64 x * conversion_factor)%float)
                     xs))].
Proof. reflexivity. Qed.

(** The one-row table of scenario 3. *)
Lemma transform_slash_irradiance :
  let stamp := SObject [PStr "2023/09/20 12:00:00"] in
  _transform_irradiance_data [("timestamp", stamp); ("raw", SInt [900])]
  = Ok [("timestamp", match convert (Col stamp) with
                      | Some ts => SDatetime ts
                      | None => stamp
                      end);
        ("raw_reading", SInt [900]);
        ("irradiance", SFloat [90%float])].
Proof.
  intro stamp. unfold _transform_irradiance_data.
  assert (Hr : rename irradiance_col_mapping
                 [("timestamp", stamp); ("raw", SInt [900])]
               = [("timestamp", stamp); ("raw_reading", SInt [900])])
    by reflexivity.
  rewrite Hr.
  rewrite (parse_timestamp_object _ "timestamp" [PStr "2023/09/20 12:00:00"])
    by reflexivity.
  fold stamp. destruct (convert (Col stamp)); vm_compute; reflexivity.
Qed.

Lemma no_raw_reading_after_rename (df : dataframe) :
  has_like raw_names df = false ->
  mem "raw_reading" (columns df) = false ->
  mem "raw_reading" (columns (rename irradiance_col_mapping df)) = false.
Proof.
  intros Hraw Hlit.
  rewrite (columns_rename_mem _ _ _ _ irradiance_raw_label).
  unfold has_like in Hraw. unfold mem in Hlit.
  induction (columns df) as [| l ls IH]; [reflexivity |].
  cbn [existsb] in *.
  apply orb_false_elim in Hraw. destruct Hraw as [Hl Hraw].
  apply orb_false_elim in Hlit. destruct Hlit as [Hl' Hlit].
  rewrite Hl, (String.eqb_sym l), Hl'. exact (IH Hraw Hlit).
Qed.

(** C8.  A frame that the irradiance validator accepts and that has no
    raw-reading column is not normalised: the transformer raises, with
    [KeyError] from the final column selection (or [AttributeError] when
    several columns are timestamp-like), and returns no value. *)
Theorem C8_accepted_frame_without_raw_reading_raises (df : dataframe) :
  validate_data_format df "irradiance" = Ok true ->
  has_like raw_names df = false ->
  mem "raw_reading" (columns df) = false ->
  transform_measurement_data df "irradiance" = Raise KeyError \/
  transform_measurement_data df "irradiance" = Raise AttributeError.
Proof.
  intros _ Hraw Hlit.
  change (transform_measurement_data df "irradiance")
    with (_transform_irradiance_data df).
  unfold _transform_irradiance_data.
  destruct (parse_timestamp (rename irradiance_col_mapping df))
    as [parsed | e] eqn:Hparse.
  - left. apply parse_timestamp_Ok in Hparse.
    destruct Hparse as (_ & _ & Hcols).
    pose proof (no_raw_reading_after_rename df Hraw Hlit) as Hno.
    rewrite <- Hcols in Hno.
    cbn [bind]. rewrite Hno, andb_false_r. cbn [bind].
    apply select_missing. exact (labelled_nil _ _ Hno).
  - cbn [bind]. apply parse_timestamp_Raise in Hparse.
    destruct Hparse as [-> | ->]; [now left | now right].
Qed.

(** C9.  On a frame already in canonical form (the canonical labels in
    order and a datetime timestamp column, derived columns included) the
    validator answers [True] and the transformer returns the frame
    itself. *)
Theorem C9_canonical_frame_is_a_fixed_point (data_type : string)
  (df : dataframe) :
  is_canonical data_type df ->
  validate_data_format df data_type = Ok true /\
  transform_measurement_data df data_type = Ok df.
Proof.
  intros (Hkind & Hcols & ts & rest & ->).
  apply mem_true in Hkind.
  destruct Hkind as [<- | [<- | [<- | []]]];
    cbn in Hcols.
  - destruct rest as [| [l1 c1] [| [l2 c2] [| [l3 c3] [| c4 rest]]]];
      try discriminate Hcols.
    cbn in Hcols. inversion Hcols. subst. split; reflexivity.
  - destruct rest as [| [l1 c1] [| c2 rest]]; try discriminate Hcols.
    cbn in Hcols. inversion Hcols. subst. split; reflexivity.
  - destruct rest as [| [l1 c1] [| [l2 c2] [| c3 rest]]];
      try discriminate Hcols.
    cbn in Hcols. inversion Hcols. subst. split; reflexivity.
Qed.

(** C3 (what the code does).  On the network path an irradiance row whose
    payload has no irradiance is persisted with irradiance 0.0, whatever
    the raw reading; the factor 0.1 is applied only by the transformer
    ([transform_irradiance_derives]). *)
Theorem C3_network_path_stores_zero_irradiance
  (db : store) (items : list (string * value)) (metadata : value) (r : row) :
  lookup "irradiance" items = None ->
  fst (_store_irradiance_measurement db (PDict items) metadata) = db ++ [r] ->
  exists t raw_reading sensor_id,
    r = IrradianceRow (PDatetime t) (PInt raw_reading) (PFloat 0%float)
                      sensor_id /\
    py_int (match lookup "raw_reading" items with
            | Some x => x
            | None => PInt 0
            end) = Ok raw_reading.
Proof.
  intros Hnone H.
  apply store_measurement_wrote in H. destruct H as [H _].
  exact (irradiance_row_default _ _ _ Hnone H).
Qed.

(** C4 (as amended).  For the envelope of scenario 3 the network path
    persists nothing: [datetime.fromisoformat] rejects the timestamp
    written with slashes, the sink rolls back and logs.  On the
    normaliser path the one-row table with the same fields is returned
    with [raw] renamed to [raw_reading] and irradiance 90.0; its
    timestamp is converted by the first attempt that succeeds, the
    fourth format being reached only when the parse without a format and
    the first three formats fail. *)
Theorem C4_slash_timestamp_envelope :
  (forall db message,
      fromisoformat "2023/09/20 12:00:00" = None ->
      json_loads message = Some Sample.slash_irradiance_message ->
      _process_message db message
      = (db, [StoreError Irradiance ValueError])) /\
  (let stamp := SObject [PStr "2023/09/20 12:00:00"] in
   _transform_irradiance_data [("timestamp", stamp); ("raw", SInt [900])]
   = Ok [("timestamp", match convert (Col stamp) with
                       | Some ts => SDatetime ts
                       | None => stamp
                       end);
         ("raw_reading", SInt [900]);
         ("irradiance", SFloat [90%float])]) /\
  (forall sel ts,
      to_datetime None sel = None ->
      to_datetime (Some "%Y-%m-%d %H:%M:%S") sel = None ->
      to_datetime (Some "%d/%m/%Y %H:%M:%S") sel = None ->
      to_datetime (Some "%m/%d/%Y %H:%M:%S") sel = None ->
      to_datetime (Some "%Y/%m/%d %H:%M:%S") sel = Some ts ->
      convert sel = Some ts).
Proof.
  split; [| split].
  - intros db message Hiso Hj. unfold _process_message. rewrite Hj.
    unfold dispatch. cbn.
    unfold _store_irradiance_measurement, store_measurement, irradiance_row.
    cbn. rewrite Hiso. reflexivity.
  - exact transform_slash_irradiance.
  - exact convert_fourth_format.
Qed.

End TransformerFacts.

(* ------------------------------------------------------------------ *)
(** ** Examples in the sample world *)

(** The sample world answers the examples' inputs as the libraries do. *)
Example sample_world_reads_the_frames :
  @json_loads Sample.world Sample.mpp_frame = Some Sample.mpp_message /\
  @json_loads Sample.world Sample.bare_mpp_frame
  = Some Sample.bare_mpp_message /\
  @json_loads Sample.world Sample.not_json_frame = None /\
  @utf8_decode Sample.world Sample.not_utf8_frame = None /\
  @fromisoformat Sample.world "2023-09-20T12:00:00" = Some Sample.noon /\
  @fromisoformat Sample.world "2023/09/20 12:00:00" = None.
Proof. vm_compute. repeat split; reflexivity. Qed.

(** Scenario 4: the importer normalises the table and inserts one row
    whose power is the product of its current and voltage. *)
Example scenario_4_import :
  @Importer.main Sample.world [] "mpp" (Some 1) (Some 2)
    [Importer.Table Sample.mpp_table]
  = ([Sample.mpp_stored], [Importer.Inserted 1]).
Proof. vm_compute. reflexivity. Qed.

(** Only [--data-type mpp] has a branch in the importer: an irradiance
    import persists nothing. *)
Example irradiance_import_persists_nothing :
  @Importer.main Sample.world [] "irradiance" None None
    [Importer.Table Sample.irradiance_only_table]
  = ([], []).
Proof. reflexivity. Qed.

(** C1, counterexample to the claim as stated: an MPP message that carries
    neither current nor voltage is written, with zeros in their place. *)
Lemma C1_bare_mpp_message_is_written :
  @json_loads Sample.world Sample.bare_mpp_frame
  = Some (PDict [("type", PStr "mpp");
                 ("data", PDict [("timestamp", PStr "2023-09-20T12:00:00")])]) /\
  lookup "current" [("timestamp", PStr "2023-09-20T12:00:00")] = None /\
  lookup "voltage" [("timestamp", PStr "2023-09-20T12:00:00")] = None /\
  @_process_message Sample.world [] Sample.bare_mpp_frame
  = ([MppRow (PDatetime Sample.noon) (PFloat 0%float) (PFloat 0%float)
             (PFloat 0%float) (PInt 0) (PInt 0)],
     [Stored Mpp]).
Proof. vm_compute. repeat split; reflexivity. Qed.

Lemma C1_witness :
  fst (@_process_message Sample.world [] Sample.mpp_frame)
  = [] ++ [Sample.mpp_stored] /\
  exists fields data_type items s t,
    @json_loads Sample.world Sample.mpp_frame = Some (PDict fields) /\
    lookup "type" fields = Some (PStr data_type) /\
    In data_type ["mpp"; "temperature"; "irradiance"] /\
    lookup "data" fields = Some (PDict items) /\
    lookup "timestamp" items = Some (PStr s) /\
    @fromisoformat Sample.world s = Some t /\
    row_timestamp Sample.mpp_stored = PDatetime t /\
    @db_accepts Sample.world [] Sample.mpp_stored = true.
Proof.
  assert (H : fst (@_process_message Sample.world [] Sample.mpp_frame)
              = [] ++ [Sample.mpp_stored]) by (vm_compute; reflexivity).
  split; [exact H |].
  exact (@C1_row_persisted_only_with_iso_timestamp Sample.world []
           Sample.mpp_frame Sample.mpp_stored H).
Defined.

Lemma C2_witness :
  like current_names Sample.mpp_table
  = [("I", SFloat [0x1.999999999999ap-5%float])] /\
  like voltage_names Sample.mpp_table
  = [("V", SFloat [0x1.999999999999ap-1%float])] /\
  like power_names Sample.mpp_table = [] /\
  @_transform_mpp_data Sample.world Sample.mpp_table
  = Ok Sample.canonical_mpp_table /\
  exists ts p,
    Sample.canonical_mpp_table
    = [("timestamp", ts);
       ("current", SFloat [0x1.999999999999ap-5%float]);
       ("voltage", SFloat [0x1.999999999999ap-1%float]);
       ("power", p)] /\
    p = SFloat (map2 PrimFloat.mul [0x1.999999999999ap-5%float]
                                   [0x1.999999999999ap-1%float]).
Proof.
  assert (Hc : like current_names Sample.mpp_table
               = [("I", SFloat [0x1.999999999999ap-5%float])])
    by (vm_compute; reflexivity).
  assert (Hv : like voltage_names Sample.mpp_table
               = [("V", SFloat [0x1.999999999999ap-1%float])])
    by (vm_compute; reflexivity).
  assert (Hp : like power_names Sample.mpp_table = [])
    by (vm_compute; reflexivity).
  assert (Ht : @_transform_mpp_data Sample.world Sample.mpp_table
               = Ok Sample.canonical_mpp_table)
    by (vm_compute; reflexivity).
  repeat (split; [assumption |]).
  destruct (proj1 (proj1 (proj2 (@C2_power_is_current_times_voltage
                                   Sample.world))
                     Sample.mpp_table "I" "V" _ _ _ Hc Hv Ht) Hp)
    as (ts & p & Hr & _ & Hfloat).
  exists ts, p. split; [exact Hr |].
  exact (Hfloat _ _ eq_refl eq_refl).
Defined.

Lemma C3_witness :
  lookup "irradiance" [("timestamp", PStr "2023-09-20T12:00:00");
                       ("raw_reading", PInt 900)] = None /\
  fst (@_store_irradiance_measurement Sample.world []
         (PDict [("timestamp", PStr "2023-09-20T12:00:00");
                 ("raw_reading", PInt 900)])
         (PDict []))
  = [] ++ [Sample.raw_irradiance_stored] /\
  exists t raw_reading sensor_id,
    Sample.raw_irradiance_stored
    = IrradianceRow (PDatetime t) (PInt raw_reading) (PFloat 0%float)
                    sensor_id /\
    @py_int Sample.world (PInt 900) = Ok raw_reading.
Proof.
  assert (H1 : lookup "irradiance" [("timestamp", PStr "2023-09-20T12:00:00");
                                    ("raw_reading", PInt 900)] = None)
    by reflexivity.
  assert (H2 : fst (@_store_irradiance_measurement Sample.world []
                      (PDict [("timestamp", PStr "2023-09-20T12:00:00");
                              ("raw_reading", PInt 900)])
                      (PDict []))
               = [] ++ [Sample.raw_irradiance_stored])
    by (vm_compute; reflexivity).
  split; [exact H1 |]. split; [exact H2 |].
  exact (@C3_network_path_stores_zero_irradiance Sample.world [] _ _ _ H1 H2).
Defined.

(** C4, counterexample to the claim as stated: the envelope of scenario 3
    is not persisted by the session; the sink fails on the timestamp. *)
Lemma C4_slash_envelope_is_not_persisted :
  @json_loads Sample.world Sample.slash_irradiance_frame
  = Some (PDict [("type", PStr "irradiance");
                 ("data", PDict [("timestamp", PStr "2023/09/20 12:00:00");
                                 ("raw", PInt 900)])]) /\
  @_handle_client Sample.world []
    [Sample.arrives Sample.slash_irradiance_frame]
  = ([], [Log (StoreError Irradiance ValueError); Sent "ACK"; Close;
          Log ConnectionClosed]).
Proof. vm_compute. split; reflexivity. Qed.

Lemma C4_witness :
  @fromisoformat Sample.world "2023/09/20 12:00:00" = None /\
  @_process_message Sample.world [] Sample.slash_irradiance_frame
  = ([], [StoreError Irradiance ValueError]).
Proof.
  assert (H : @fromisoformat Sample.world "2023/09/20 12:00:00" = None)
    by (vm_compute; reflexivity).
  split; [exact H |].
  apply (proj1 (@C4_slash_timestamp_envelope Sample.world) [] _ H).
  vm_compute. reflexivity.
Defined.

(** C5, counterexample to the claim as stated: a message that is stored,
    one that is dropped by its sink and one that is not JSON are answered
    with the same frame, which carries no status. *)
Lemma C5_same_ACK_for_stored_dropped_and_unparsable :
  @_handle_client Sample.world [] [Sample.arrives Sample.mpp_frame]
  = ([Sample.mpp_stored],
     [Log (Stored Mpp); Sent "ACK"; Close; Log ConnectionClosed]) /\
  @_handle_client Sample.world [] [Sample.arrives Sample.untimed_mpp_frame]
  = ([], [Log (StoreError Mpp TypeError); Sent "ACK"; Close;
          Log ConnectionClosed]) /\
  @_handle_client Sample.world [] [Sample.arrives Sample.not_json_frame]
  = ([], [Log InvalidJSON; Sent "ACK"; Close; Log ConnectionClosed]).
Proof. vm_compute. repeat split; reflexivity. Qed.

Lemma C5_witness :
  sent (snd (@_handle_client Sample.world []
               [Sample.arrives Sample.untimed_mpp_frame;
                Sample.arrives Sample.mpp_frame]))
  = ["ACK"; "ACK"].
Proof.
  destruct (@C5_one_fixed_ACK_after_each_decoded_frame Sample.world []
              (Sample.arrives Sample.untimed_mpp_frame)
              [Sample.arrives Sample.mpp_frame]
              Sample.untimed_mpp_frame Sample.untimed_mpp_frame
              eq_refl eq_refl
              ltac:(discriminate) ltac:(vm_compute; reflexivity) eq_refl)
    as (_ & Hsent & _).
  rewrite Hsent. vm_compute. reflexivity.
Defined.

(** C6, counterexample to the claim as stated: with a kind that is not
    one of the three, validation raises instead of returning. *)
Lemma C6_unknown_kind_raises :
  @validate_data_format Sample.world Sample.mpp_table "humidity"
  = Raise ValueError.
Proof. reflexivity. Qed.

(** C7, counterexample to the claim as stated: a frame that is not UTF-8
    ends the session; the well-formed message that follows on the same
    connection is never read. *)
Lemma C7_undecodable_bytes_end_the_session :
  @_handle_client Sample.world []
    [Sample.arrives Sample.not_utf8_frame; Sample.arrives Sample.mpp_frame]
  = ([], [Log (ClientError UnicodeDecodeError); Close; Log ConnectionClosed]).
Proof. vm_compute. reflexivity. Qed.

Lemma C7_witness :
  @_handle_client Sample.world []
    [Sample.arrives Sample.not_json_frame; Sample.arrives Sample.mpp_frame]
  = ([Sample.mpp_stored],
     [Log InvalidJSON; Sent "ACK"; Log (Stored Mpp); Sent "ACK"; Close;
      Log ConnectionClosed]) /\
  In Sample.mpp_stored
     (fst (@_handle_client Sample.world []
             [Sample.arrives Sample.not_json_frame;
              Sample.arrives Sample.mpp_frame])).
Proof.
  destruct (@C7_non_JSON_text_keeps_the_session Sample.world []
              (Sample.arrives Sample.not_json_frame)
              [Sample.arrives Sample.mpp_frame]
              Sample.not_json_frame Sample.not_json_frame
              eq_refl eq_refl
              ltac:(discriminate) ltac:(vm_compute; reflexivity)
              ltac:(vm_compute; reflexivity) eq_refl)
    as (Hstep & Hnext).
  split.
  - rewrite Hstep. vm_compute. reflexivity.
  - apply (Hnext (Sample.arrives Sample.mpp_frame) [] Sample.mpp_frame
             Sample.mpp_frame Sample.mpp_stored eq_refl eq_refl eq_refl).
    + discriminate.
    + vm_compute. reflexivity.
    + reflexivity.
    + vm_compute. reflexivity.
Defined.

Lemma C8_witness :
  @validate_data_format Sample.world Sample.irradiance_only_table "irradiance"
  = Ok true /\
  has_like raw_names Sample.irradiance_only_table = false /\
  mem "raw_reading" (columns Sample.irradiance_only_table) = false /\
  @transform_measurement_data Sample.world Sample.irradiance_only_table
    "irradiance" = Raise KeyError.
Proof.
  assert (H1 : @validate_data_format Sample.world
                 Sample.irradiance_only_table "irradiance" = Ok true)
    by (vm_compute; reflexivity).
  assert (H2 : has_like raw_names Sample.irradiance_only_table = false)
    by (vm_compute; reflexivity).
  assert (H3 : mem "raw_reading" (columns Sample.irradiance_only_table)
               = false)
    by (vm_compute; reflexivity).
  repeat (split; [assumption |]).
  destruct (@C8_accepted_frame_without_raw_reading_raises Sample.world
              Sample.irradiance_only_table H1 H2 H3) as [H | H].
  - exact H.
  - vm_compute in H. discriminate H.
Defined.

Lemma C9_witness :
  is_canonical "mpp" Sample.canonical_mpp_table /\
  @validate_data_format Sample.world Sample.canonical_mpp_table "mpp"
  = Ok true /\
  @transform_measurement_data Sample.world Sample.canonical_mpp_table "mpp"
  = Ok Sample.canonical_mpp_table.
Proof.
  assert (H : is_canonical "mpp" Sample.canonical_mpp_table).
  { split; [reflexivity |]. split; [reflexivity |].
    exists [Sample.noon]. eexists. reflexivity. }
  split; [exact H |].
  exact (@C9_canonical_frame_is_a_fixed_point Sample.world "mpp"
           Sample.canonical_mpp_table H).
Defined.

Lemma C10_witness :
  @_process_message Sample.world [Sample.mpp_stored] Sample.empty_data_frame
  = ([Sample.mpp_stored], [InvalidFormat]) /\
  @_process_message Sample.world [Sample.mpp_stored] Sample.no_data_frame
  = @_process_message Sample.world [Sample.mpp_stored]
      Sample.empty_data_frame.
Proof.
  destruct (@C10_missing_type_or_data_stops_before_store Sample.world
              [Sample.mpp_stored] Sample.empty_data_frame
              [("type", PStr "mpp"); ("data", PDict [])]
              ltac:(vm_compute; reflexivity)
              (or_intror (or_intror (or_intror eq_refl))))
    as (Hstop & Hsame).
  split; [exact Hstop |].
  apply (Hsame Sample.no_data_frame [("type", PStr "mpp")]).
  - vm_compute. reflexivity.
  - left. reflexivity.
Defined.

(* ------------------------------------------------------------------ *)
(** ** More on the network path *)

Section SessionFacts.

Context {W : World}.

Lemma process_message_appends (db : store) (message : string) :
  exists rows,
    fst (_process_message db message) = db ++ rows /\
    (List.length rows <= 1)%nat.
Proof.
  assert (Hsame : forall logs : list log_entry,
             exists rows, fst (db, logs) = db ++ rows
                          /\ (List.length rows <= 1)%nat).
  { intro logs. exists []. simpl. split; [now rewrite app_nil_r | lia]. }
  assert (Hsink : forall k params,
             exists rows, fst (store_measurement k params db) = db ++ rows
                          /\ (List.length rows <= 1)%nat).
  { intros k params.
    destruct (store_measurement_cases k params db)
      as [[Hs _] | (r & _ & _ & Hs)]; rewrite Hs.
    - exists []. split; [now rewrite app_nil_r | simpl; lia].
    - exists [r]. split; [reflexivity | simpl; lia]. }
  unfold _process_message.
  destruct (json_loads message) as [data |]; [| apply Hsame].
  unfold dispatch.
  destruct (envelope data) as [[[data_type measurement] metadata] | e];
    [| apply Hsame].
  destruct (negb (truthy data_type) || negb (truthy measurement));
    [apply Hsame |].
  destruct (eq_str data_type "mpp"); [apply Hsink |].
  destruct (eq_str data_type "temperature"); [apply Hsink |].
  destruct (eq_str data_type "irradiance"); [apply Hsink | apply Hsame].
Qed.

(** The three counts of a session: rows appended, turns taken and
    acknowledgments sent. *)
Lemma session_counts (turns : list turn) (db : store) :
  exists rows,
    fst (_handle_client db turns) = db ++ rows /\
    (List.length rows <= List.length turns)%nat /\
    (List.length rows
     <= List.length (sent (snd (_handle_client db turns))) + 1)%nat.
Proof.
  revert db. induction turns as [| t rest IH]; intro db.
  - exists []. simpl. rewrite app_nil_r. repeat split; lia.
  - assert (Hstop : forall evs : list event,
               sent evs = [] ->
               exists rows : list row,
                 fst (db, evs) = db ++ rows /\
                 (List.length rows <= List.length (t :: rest))%nat /\
                 (List.length rows <= List.length (sent (snd (db, evs))) + 1)%nat).
    { intros evs Hevs. exists []. simpl. rewrite app_nil_r, Hevs.
      simpl. repeat split; lia. }
    cbn [_handle_client].
    destruct (is_running t); cbn [negb]; [| now apply Hstop].
    destruct (recv t) as [data |]; [| now apply Hstop].
    destruct (String.eqb data ""); [now apply Hstop |].
    destruct (utf8_decode data) as [message |]; [| now apply Hstop].
    destruct (process_message_appends db message) as (rows1 & H1 & Hlen1).
    destruct (_process_message db message) as [db1 logs]. cbn [fst] in H1.
    destruct (sendall_ok t).
    + destruct (IH db1) as (rows2 & H2 & Hlen2 & Hack2).
      destruct (_handle_client db1 rest) as [db2 evs]. cbn [fst snd] in *.
      exists (rows1 ++ rows2). rewrite H2, H1, app_assoc.
      rewrite sent_app, sent_logs. cbn [app sent List.length].
      rewrite length_app. repeat split; lia.
    + exists rows1. cbn [fst snd]. rewrite sent_app, sent_logs.
      cbn [app fail_and_close sent List.length]. repeat split; try assumption; lia.
Qed.

(** X1.  A session only appends to the store: the rows present when it
    starts stay where they are, and it appends at most one row for each
    turn of its read loop. *)
Theorem X1_session_appends_at_most_one_row_per_turn
  (db : store) (turns : list turn) :
  exists rows,
    fst (_handle_client db turns) = db ++ rows /\
    (List.length rows <= List.length turns)%nat.
Proof.
  destruct (session_counts turns db) as (rows & Hrows & Hlen & _).
  exists rows. split; assumption.
Qed.

(** X2.  At most one of the rows a session has persisted was not followed
    by an acknowledgment: the number of rows it appends never exceeds the
    number of frames it has sent by more than one. *)
Theorem X2_at_most_one_persisted_row_is_unacknowledged
  (db : store) (turns : list turn) :
  (List.length (fst (_handle_client db turns))
   <= List.length db
      + List.length (sent (snd (_handle_client db turns))) + 1)%nat.
Proof.
  destruct (session_counts turns db) as (rows & Hrows & _ & Hack).
  rewrite Hrows, length_app. lia.
Qed.

Lemma session_tail (turns : list turn) (db : store) :
  exists evs,
    snd (_handle_client db turns) = evs ++ [Close; Log ConnectionClosed] /\
    existsb Spec2.is_close evs = false.
Proof.
  revert db. induction turns as [| t rest IH]; intro db.
  - exists []. split; reflexivity.
  - assert (Hclose : exists evs,
               close = evs ++ [Close; Log ConnectionClosed] /\
               existsb Spec2.is_close evs = false).
    { exists []. split; reflexivity. }
    assert (Hfail : forall e, exists evs,
               fail_and_close e = evs ++ [Close; Log ConnectionClosed] /\
               existsb Spec2.is_close evs = false).
    { intro e. exists [Log (ClientError e)]. split; reflexivity. }
    assert (Hlogs : forall logs : list log_entry,
               existsb Spec2.is_close (map Log logs) = false).
    { intro logs. induction logs as [| l logs IHl]; [reflexivity | exact IHl]. }
    cbn [_handle_client].
    destruct (is_running t); cbn [negb snd]; [| exact Hclose].
    destruct (recv t) as [data |]; cbn [snd]; [| apply Hfail].
    destruct (String.eqb data ""); cbn [snd]; [exact Hclose |].
    destruct (utf8_decode data) as [message |]; cbn [snd]; [| apply Hfail].
    destruct (_process_message db message) as [db1 logs].
    destruct (sendall_ok t).
    + destruct (IH db1) as (evs & Hevs & Hnone).
      destruct (_handle_client db1 rest) as [db2 evs']. cbn [snd] in *.
      exists (map Log logs ++ Sent ACK :: evs). split.
      * rewrite Hevs, <- app_assoc. reflexivity.
      * rewrite existsb_app, Hlogs. cbn. exact Hnone.
    + cbn [snd]. exists (map Log logs ++ [Log (ClientError OSError)]). split.
      * rewrite <- app_assoc. reflexivity.
      * rewrite existsb_app, Hlogs. reflexivity.
Qed.

(** X3.  However a session ends (peer closed, stop flag, receive, decode
    or send error), its last two actions are closing the client socket
    and logging the closure, and the socket is closed only then: no
    frame is sent and no message is processed after the close. *)
Theorem X3_session_closes_the_socket_once_at_the_end
  (db : store) (turns : list turn) :
  exists evs,
    snd (_handle_client db turns) = evs ++ [Close; Log ConnectionClosed] /\
    existsb Spec2.is_close evs = false.
Proof.
  destruct (session_tail turns db) as (evs & Hevs & Hnone).
  exists evs. split; assumption.
Qed.

(** What a message with a given envelope persists, by sink. *)
Lemma process_message_wrote (db : store) (message : string)
  (fields : list (string * value)) (r : row) :
  json_loads message = Some (PDict fields) ->
  fst (_process_message db message) = db ++ [r] ->
  let measurement :=
    match lookup "data" fields with Some x => x | None => PNone end in
  let metadata :=
    match lookup "metadata" fields with Some x => x | None => PDict [] end in
  mpp_row measurement metadata = Ok r \/
  temperature_row measurement metadata = Ok r \/
  irradiance_row measurement metadata = Ok r.
Proof.
  intros Hj H measurement metadata.
  unfold _process_message in H. rewrite Hj in H.
  unfold dispatch, envelope in H. cbn [get bind] in H.
  fold measurement metadata in H.
  destruct (negb (truthy match lookup "type" fields with
                         | Some x => x
                         | None => PNone
                         end) || negb (truthy measurement));
    [destruct (unchanged_is_not_appended _ _ _ H) |].
  destruct (eq_str _ "mpp").
  { left. exact (proj1 (store_measurement_wrote _ _ _ _ H)). }
  destruct (eq_str _ "temperature").
  { right. left. exact (proj1 (store_measurement_wrote _ _ _ _ H)). }
  destruct (eq_str _ "irradiance").
  { right. right. exact (proj1 (store_measurement_wrote _ _ _ _ H)). }
  destruct (unchanged_is_not_appended _ _ _ H).
Qed.

(** X4.  A message whose envelope has no metadata is stored under the
    default attribution: an MPP row under board 0 and channel 0, a
    temperature or irradiance row without a sensor. *)
Theorem X4_missing_metadata_is_stored_under_the_defaults
  (db : store) (message : string) (fields : list (string * value))
  (r : row) :
  json_loads message = Some (PDict fields) ->
  lookup "metadata" fields = None ->
  fst (_process_message db message) = db ++ [r] ->
  Spec2.default_attribution r.
Proof.
  intros Hj Hmeta H.
  pose proof (process_message_wrote db message fields r Hj H) as Hrow.
  cbv zeta in Hrow. rewrite Hmeta in Hrow.
  destruct Hrow as [Hrow | [Hrow | Hrow]].
  - unfold mpp_row in Hrow. repeat bind_inv Hrow.
    cbn in Ha7, Ha9. inversion Ha7; subst. inversion Ha9; subst.
    cbn in Ha8, Ha10. inversion Ha8; subst. inversion Ha10; subst.
    inversion Hrow. split; reflexivity.
  - unfold temperature_row in Hrow. repeat bind_inv Hrow.
    cbn in Ha3. inversion Ha3; subst. inversion Hrow. reflexivity.
  - unfold irradiance_row in Hrow. repeat bind_inv Hrow.
    cbn in Ha5. inversion Ha5; subst. inversion Hrow. reflexivity.
Qed.

Lemma sink_needs_dict_metadata (measurement metadata : value) (r : row) :
  mpp_row measurement metadata = Ok r \/
  temperature_row measurement metadata = Ok r \/
  irradiance_row measurement metadata = Ok r ->
  Spec2.is_dict metadata = true.
Proof.
  intros [H | [H | H]].
  - unfold mpp_row in H. repeat bind_inv H.
    apply get_Ok in Ha7. destruct Ha7 as (items & -> & _). reflexivity.
  - unfold temperature_row in H. repeat bind_inv H.
    apply get_Ok in Ha3. destruct Ha3 as (items & -> & _). reflexivity.
  - unfold irradiance_row in H. repeat bind_inv H.
    apply get_Ok in Ha5. destruct Ha5 as (items & -> & _). reflexivity.
Qed.

(** X5.  A message whose metadata is present but is not a JSON object
    ([null], a list, a number, a text) is never stored, whatever its
    type and payload. *)
Theorem X5_non_object_metadata_is_never_stored
  (db : store) (message : string) (fields : list (string * value))
  (metadata : value) :
  json_loads message = Some (PDict fields) ->
  lookup "metadata" fields = Some metadata ->
  Spec2.is_dict metadata = false ->
  fst (_process_message db message) = db.
Proof.
  intros Hj Hmeta Hnot.
  destruct (process_message_appends db message) as (rows & Hrows & Hlen).
  destruct rows as [| r [| r' rows]].
  - now rewrite Hrows, app_nil_r.
  - pose proof (process_message_wrote db message fields r Hj Hrows) as Hrow.
    cbv zeta in Hrow. rewrite Hmeta in Hrow.
    apply sink_needs_dict_metadata in Hrow. congruence.
  - simpl in Hlen. lia.
Qed.

(** X6.  The temperature row that is persisted carries the parsed
    timestamp, [float] of the payload's temperature (of 0 when the
    payload has none) and the metadata's sensor id as it was received,
    [None] when the metadata has none. *)
Theorem X6_temperature_row_parameters
  (db : store) (items metadata : list (string * value)) (r : row) :
  fst (_store_temperature_measurement db (PDict items) (PDict metadata))
  = db ++ [r] ->
  exists s t temperature,
    lookup "timestamp" items = Some (PStr s) /\
    fromisoformat s = Some t /\
    py_float (match lookup "temperature" items with
              | Some x => x
              | None => PInt 0
              end) = Ok temperature /\
    r = TemperatureRow (PDatetime t) (PFloat temperature)
          (match lookup "sensor_id" metadata with
           | Some x => x
           | None => PNone
           end).
Proof.
  intro H. apply store_measurement_wrote in H. destruct H as [H _].
  apply timestamp_prefix in H.
  destruct H as (items' & s & t & Hitems & Hs & Ht & H).
  inversion Hitems. subst items'.
  repeat bind_inv H. cbn in Ha, Ha1.
  inversion Ha; subst. inversion Ha1; subst. inversion H.
  exists s, t, a0. repeat split; assumption.
Qed.

End SessionFacts.

(* ------------------------------------------------------------------ *)
(** ** More on the normaliser *)

Section LabelFacts.

(** The alias tests tried on a label, one after the other. *)
Ltac by_alias l :=
  repeat match goal with
         | |- context [is_like ?names l] =>
             let E := fresh "E" in destruct (is_like names l) eqn:E
         end;
  repeat match goal with
         | H : is_like _ l = true |- _ => apply is_like_In in H; simpl in H
         end;
  try reflexivity;
  try (repeat match goal with
              | H : _ \/ _ |- _ => destruct H
              | H : False |- _ => destruct H
              end; congruence).

Ltac not_canonical l name :=
  let E := fresh "E" in
  destruct (String.eqb l name) eqn:E;
  [apply String.eqb_eq in E; subst l;
   repeat match goal with
          | H : is_like _ _ = false |- _ => vm_compute in H
          end; congruence
  | reflexivity].

Lemma temperature_timestamp_label (l : string) :
  String.eqb (match temperature_col_mapping l with
              | Some c => c
              | None => l
              end) "timestamp" = is_like timestamp_names l.
Proof.
  unfold temperature_col_mapping. by_alias l. not_canonical l "timestamp".
Qed.

Lemma temperature_temperature_label (l : string) :
  String.eqb (match temperature_col_mapping l with
              | Some c => c
              | None => l
              end) "temperature" = is_like temperature_names l.
Proof.
  unfold temperature_col_mapping. by_alias l. not_canonical l "temperature".
Qed.

Lemma irradiance_timestamp_label (l : string) :
  String.eqb (match irradiance_col_mapping l with
              | Some c => c
              | None => l
              end) "timestamp" = is_like timestamp_names l.
Proof.
  unfold irradiance_col_mapping. by_alias l. not_canonical l "timestamp".
Qed.

Lemma irradiance_irradiance_label (l : string) :
  String.eqb (match irradiance_col_mapping l with
              | Some c => c
              | None => l
              end) "irradiance" = is_like irradiance_names l.
Proof.
  unfold irradiance_col_mapping. by_alias l. not_canonical l "irradiance".
Qed.

(** The columns a mapping puts under a canonical name. *)
Lemma renamed_like (mapping : string -> option string) (name : string)
  (names : list string) (df : dataframe) :
  (forall l,
      String.eqb (match mapping l with Some c => c | None => l end) name
      = is_like names l) ->
  labelled name (rename mapping df)
  = map (fun c => (name, snd c)) (like names df).
Proof. intro H. exact (labelled_rename _ _ _ df H). Qed.

Lemma renamed_mem (mapping : string -> option string) (name : string)
  (names : list string) (df : dataframe) :
  (forall l,
      String.eqb (match mapping l with Some c => c | None => l end) name
      = is_like names l) ->
  mem name (columns (rename mapping df)) = has_like names df.
Proof. intro H. exact (columns_rename_mem _ _ _ df H). Qed.

Lemma mem_labelled (label : string) (df : dataframe) :
  labelled label df <> [] -> mem label (columns df) = true.
Proof.
  intro H. destruct (mem label (columns df)) eqn:E; [reflexivity |].
  destruct H. exact (labelled_nil _ _ E).
Qed.

End LabelFacts.

Section TimestampFacts.

Context {W : World}.

(** The timestamp step on a frame with one timestamp column. *)
Lemma parse_timestamp_one (result : dataframe) (l : string) (s : series) :
  labelled "timestamp" result = [(l, s)] ->
  exists parsed,
    parse_timestamp result = Ok parsed /\
    labelled "timestamp" parsed = [("timestamp", Spec2.parsed_timestamp s)] /\
    (forall other, other <> "timestamp" ->
                   labelled other parsed = labelled other result) /\
    columns parsed = columns result.
Proof.
  intro Hl.
  assert (Hlabel : l = "timestamp").
  { apply (labelled_label "timestamp" result (l, s)). rewrite Hl. now left. }
  subst l.
  assert (Hsame : Spec2.parsed_timestamp s = s ->
                  parse_timestamp result = Ok result ->
                  exists parsed,
                    parse_timestamp result = Ok parsed /\
                    labelled "timestamp" parsed
                    = [("timestamp", Spec2.parsed_timestamp s)] /\
                    (forall other, other <> "timestamp" ->
                                   labelled other parsed = labelled other result) /\
                    columns parsed = columns result).
  { intros Hs Hp. exists result. rewrite Hs. repeat split; assumption. }
  unfold parse_timestamp in *. rewrite (getitem_one _ _ _ _ Hl) in *.
  cbn [bind] in *.
  destruct s; cbn [dtype_is_object bind] in *;
    try (apply Hsame; reflexivity).
  unfold Spec2.parsed_timestamp in *.
  destruct (convert (Col (SObject xs))) as [ts |];
    [| apply Hsame; reflexivity].
  exists (setitem result "timestamp" (SDatetime ts)). repeat split.
  - exact (labelled_setitem_same _ _ _ _ _ Hl).
  - intros other Hother. now apply labelled_setitem_other.
  - apply columns_setitem_present. apply mem_labelled. rewrite Hl. discriminate.
Qed.

(** A timestamp column that the step has produced is left alone by a
    second pass. *)
Lemma parsed_timestamp_idem (s : series) :
  Spec2.parsed_timestamp (Spec2.parsed_timestamp s) = Spec2.parsed_timestamp s.
Proof.
  unfold Spec2.parsed_timestamp. destruct s; try reflexivity.
  destruct (convert (Col (SObject xs))) as [ts |] eqn:E; [reflexivity |].
  now rewrite E.
Qed.

Lemma parse_timestamp_fixed (r : dataframe) (l : string) (s : series) :
  labelled "timestamp" r = [(l, s)] ->
  Spec2.parsed_timestamp s = s ->
  parse_timestamp r = Ok r.
Proof.
  intros Hl Hs. unfold parse_timestamp. rewrite (getitem_one _ _ _ _ Hl).
  cbn [bind]. destruct s; cbn [dtype_is_object bind]; try reflexivity.
  unfold Spec2.parsed_timestamp in Hs.
  destruct (convert (Col (SObject xs))); [discriminate Hs | reflexivity].
Qed.

(** When the timestamp step returns, the column it leaves is one a
    second pass keeps. *)
Lemma parse_timestamp_stable (result parsed : dataframe) :
  parse_timestamp result = Ok parsed ->
  exists s,
    labelled "timestamp" parsed = [("timestamp", s)] /\
    Spec2.parsed_timestamp s = s.
Proof.
  intro H.
  assert (Hone : exists l s, labelled "timestamp" result = [(l, s)]).
  { unfold parse_timestamp in H. bind_inv H. bind_inv H.
    destruct a as [s | d]; [| discriminate Ha0].
    apply getitem_Col in Ha. destruct Ha as (l & Hl). now exists l, s. }
  destruct Hone as (l & s & Hl).
  destruct (parse_timestamp_one result l s Hl) as (parsed' & Hp & Hts & _).
  rewrite Hp in H. inversion H. subst parsed'.
  exists (Spec2.parsed_timestamp s). split; [exact Hts |].
  apply parsed_timestamp_idem.
Qed.

(** With several timestamp columns the step fails on [.dtype]; with
    none, on the lookup. *)
Lemma parse_timestamp_several (result : dataframe) :
  (2 <= List.length (labelled "timestamp" result))%nat ->
  parse_timestamp result = Raise AttributeError.
Proof.
  intro H. unfold parse_timestamp, getitem.
  destruct (labelled "timestamp" result) as [| [l s] [| c rest]];
    simpl in H; try lia.
  reflexivity.
Qed.

Lemma parse_timestamp_none (result : dataframe) :
  labelled "timestamp" result = [] ->
  parse_timestamp result = Raise KeyError.
Proof.
  intro H. unfold parse_timestamp, getitem. now rewrite H.
Qed.

(** X7.  A table with two or more timestamp-like columns (say [Time] and
    [DateTime]) is not normalised for any kind: after the renaming both
    are called [timestamp], and the transformer raises [AttributeError]
    when it asks for the dtype of what is then a frame. *)
Theorem X7_several_timestamp_columns_raise_AttributeError
  (df : dataframe) (data_type : string) :
  (2 <= List.length (Spec.like timestamp_names df))%nat ->
  In data_type Spec2.kinds ->
  transform_measurement_data df data_type = Raise AttributeError.
Proof.
  intros Hlen Hkind.
  assert (Hstep : forall mapping,
             (forall l,
                 String.eqb (match mapping l with Some c => c | None => l end)
                            "timestamp" = is_like timestamp_names l) ->
             parse_timestamp (rename mapping df) = Raise AttributeError).
  { intros mapping Hm. apply parse_timestamp_several.
    rewrite (renamed_like _ _ _ _ Hm), length_map. exact Hlen. }
  destruct Hkind as [<- | [<- | [<- | []]]].
  - change (transform_measurement_data df "mpp") with (_transform_mpp_data df).
    unfold _transform_mpp_data.
    now rewrite (Hstep _ mpp_timestamp_label).
  - change (transform_measurement_data df "temperature")
      with (_transform_temperature_data df).
    unfold _transform_temperature_data.
    now rewrite (Hstep _ temperature_timestamp_label).
  - change (transform_measurement_data df "irradiance")
      with (_transform_irradiance_data df).
    unfold _transform_irradiance_data.
    now rewrite (Hstep _ irradiance_timestamp_label).
Qed.

(** X8.  A table without any timestamp-like column makes every
    transformer raise [KeyError], at its first access to the timestamp
    column. *)
Theorem X8_no_timestamp_column_raises_KeyError
  (df : dataframe) (data_type : string) :
  has_like timestamp_names df = false ->
  In data_type Spec2.kinds ->
  transform_measurement_data df data_type = Raise KeyError.
Proof.
  intros Hnone Hkind.
  assert (Hstep : forall mapping,
             (forall l,
                 String.eqb (match mapping l with Some c => c | None => l end)
                            "timestamp" = is_like timestamp_names l) ->
             parse_timestamp (rename mapping df) = Raise KeyError).
  { intros mapping Hm. apply parse_timestamp_none.
    rewrite (renamed_like _ _ _ _ Hm), (has_like_false _ _ Hnone).
    reflexivity. }
  destruct Hkind as [<- | [<- | [<- | []]]].
  - change (transform_measurement_data df "mpp") with (_transform_mpp_data df).
    unfold _transform_mpp_data.
    now rewrite (Hstep _ mpp_timestamp_label).
  - change (transform_measurement_data df "temperature")
      with (_transform_temperature_data df).
    unfold _transform_temperature_data.
    now rewrite (Hstep _ temperature_timestamp_label).
  - change (transform_measurement_data df "irradiance")
      with (_transform_irradiance_data df).
    unfold _transform_irradiance_data.
    now rewrite (Hstep _ irradiance_timestamp_label).
Qed.

End TimestampFacts.

Section NormaliserFacts.

Context {W : World}.

(** A selection that returned finds every label it was asked for. *)
Lemma select_found (df : dataframe) (labels : list string) (r : dataframe) :
  select df labels = Ok r ->
  forall l, In l labels -> labelled l df <> [].
Proof.
  revert r. induction labels as [| l0 labels IH]; intros r H l Hin.
  - destruct Hin.
  - cbn [select] in H.
    destruct (labelled l0 df) as [| c0 cols] eqn:El; [discriminate H |].
    bind_inv H. destruct Hin as [<- | Hin].
    + rewrite El. discriminate.
    + exact (IH a Ha l Hin).
Qed.

(** Two frames with the same columns under the labels select alike. *)
Lemma select_ext (d1 d2 : dataframe) (labels : list string) :
  (forall l, In l labels -> labelled l d1 = labelled l d2) ->
  select d1 labels = select d2 labels.
Proof.
  induction labels as [| l labels IH]; intro H; [reflexivity |].
  cbn [select]. rewrite (H l (or_introl eq_refl)).
  rewrite IH; [reflexivity |]. intros l' Hl'. apply H. now right.
Qed.

(** Selecting from the result of a selection changes nothing. *)
Lemma select_again (df : dataframe) (labels : list string) (r : dataframe) :
  NoDup labels ->
  select df labels = Ok r ->
  select r labels = Ok r.
Proof.
  intros Hnd H. rewrite <- H. apply select_ext.
  intros l Hl. exact (select_keeps df labels r l Hnd Hl H).
Qed.

(** A mapping that keeps the labels of a frame renames nothing in it. *)
Lemma rename_fixed (mapping : string -> option string) (r : dataframe) :
  (forall c, In c r ->
             match mapping (fst c) with Some x => x | None => fst c end
             = fst c) ->
  rename mapping r = r.
Proof.
  unfold rename. induction r as [| [l s] r IH]; intro H; [reflexivity |].
  pose proof (H (l, s) (or_introl eq_refl)) as Hl. cbn [fst] in Hl.
  cbn [map fst snd]. rewrite Hl.
  f_equal. apply IH. intros c Hc. apply H. now right.
Qed.

(** The second pass over a result [r] selected from [full]: nothing is
    renamed, the timestamp is kept, every canonical label is present and
    the selection returns [r]. *)
Lemma second_pass (mapping : string -> option string)
  (labels : list string) (full r : dataframe) (s : series) :
  select full labels = Ok r ->
  NoDup labels ->
  In "timestamp" labels ->
  labelled "timestamp" full = [("timestamp", s)] ->
  Spec2.parsed_timestamp s = s ->
  (forall l, In l labels ->
             match mapping l with Some x => x | None => l end = l) ->
  rename mapping r = r /\
  parse_timestamp r = Ok r /\
  select r labels = Ok r /\
  (forall l, In l labels -> mem l (columns r) = true).
Proof.
  intros Hsel Hnd Hts Hfull Hs Hmap. repeat split.
  - apply rename_fixed. intros c Hc. apply Hmap.
    exact (select_labels _ _ _ Hsel c Hc).
  - apply (parse_timestamp_fixed r "timestamp" s); [| exact Hs].
    rewrite (select_keeps full labels r "timestamp" Hnd Hts Hsel).
    exact Hfull.
  - exact (select_again full labels r Hnd Hsel).
  - intros l Hl. apply mem_labelled.
    rewrite (select_keeps full labels r l Hnd Hl Hsel).
    exact (select_found _ _ _ Hsel l Hl).
Qed.

Lemma canonical_labels_fixed (mapping : string -> option string)
  (labels : list string) :
  forallb (fun l => String.eqb (match mapping l with
                                | Some x => x
                                | None => l
                                end) l) labels = true ->
  forall l, In l labels ->
            match mapping l with Some x => x | None => l end = l.
Proof.
  intros H l Hl. rewrite forallb_forall in H.
  apply String.eqb_eq. exact (H l Hl).
Qed.

(** X10.  Normalisation is idempotent: whenever a transformer returns a
    frame, transforming that frame again for the same kind returns it
    unchanged. *)
Theorem X10_transform_is_idempotent
  (df r : dataframe) (data_type : string) :
  transform_measurement_data df data_type = Ok r ->
  transform_measurement_data r data_type = Ok r.
Proof.
  unfold transform_measurement_data.
  destruct (String.eqb data_type "mpp");
    [| destruct (String.eqb data_type "temperature");
       [| destruct (String.eqb data_type "irradiance");
          [| intro H; discriminate H]]].
  - unfold _transform_mpp_data. intro H.
    apply bind_Ok in H. destruct H as (parsed & Hparse & H).
    apply bind_Ok in H. destruct H as (full & Hstep & H).
    destruct (parse_timestamp_stable _ _ Hparse) as (s & Hts & Hs).
    assert (Hfull : labelled "timestamp" full = [("timestamp", s)]).
    { destruct (negb (mem "power" (columns parsed))).
      - repeat bind_inv Hstep. inversion Hstep. subst full.
        rewrite labelled_setitem_other by discriminate. exact Hts.
      - inversion Hstep. subst full. exact Hts. }
    destruct (second_pass mpp_col_mapping _ full r s H) as (Hr & Hp & Hsel & Hmem);
      try assumption.
    + repeat constructor; simpl; intuition discriminate.
    + now left.
    + apply canonical_labels_fixed. reflexivity.
    + rewrite Hr, Hp. cbn [bind].
      rewrite (Hmem "power") by (simpl; tauto). cbn [negb bind]. exact Hsel.
  - unfold _transform_temperature_data. intro H.
    apply bind_Ok in H. destruct H as (parsed & Hparse & H).
    destruct (parse_timestamp_stable _ _ Hparse) as (s & Hts & Hs).
    destruct (second_pass temperature_col_mapping _ parsed r s H)
      as (Hr & Hp & Hsel & _); try assumption.
    + repeat constructor; simpl; intuition discriminate.
    + now left.
    + apply canonical_labels_fixed. reflexivity.
    + rewrite Hr, Hp. cbn [bind]. exact Hsel.
  - unfold _transform_irradiance_data. intro H.
    apply bind_Ok in H. destruct H as (parsed & Hparse & H).
    apply bind_Ok in H. destruct H as (full & Hstep & H).
    destruct (parse_timestamp_stable _ _ Hparse) as (s & Hts & Hs).
    assert (Hfull : labelled "timestamp" full = [("timestamp", s)]).
    { destruct (negb (mem "irradiance" (columns parsed))
                && mem "raw_reading" (columns parsed)).
      - repeat bind_inv Hstep. inversion Hstep. subst full.
        rewrite labelled_setitem_other by discriminate. exact Hts.
      - inversion Hstep. subst full. exact Hts. }
    destruct (second_pass irradiance_col_mapping _ full r s H)
      as (Hr & Hp & Hsel & Hmem); try assumption.
    + repeat constructor; simpl; intuition discriminate.
    + now left.
    + apply canonical_labels_fixed. reflexivity.
    + rewrite Hr, Hp. cbn [bind].
      rewrite (Hmem "irradiance") by (simpl; tauto). cbn [negb andb bind].
      exact Hsel.
Qed.

(** X11.  For a table with one timestamp-like and one temperature-like
    column the temperature transformer returns exactly two columns,
    [timestamp] and [temperature], whatever else the table holds: the
    temperature column as given, the timestamp column converted when it
    is text that a format accepts and otherwise as given (a text that no
    format converts is returned as text, without an error). *)
Theorem X11_temperature_table_is_normalised
  (df : dataframe) (lt l : string) (s c : series) :
  Spec.like timestamp_names df = [(lt, s)] ->
  Spec.like temperature_names df = [(l, c)] ->
  _transform_temperature_data df
  = Ok [("timestamp", Spec2.parsed_timestamp s); ("temperature", c)].
Proof.
  intros Hts Htemp. unfold _transform_temperature_data.
  assert (Hl : labelled "timestamp" (rename temperature_col_mapping df)
               = [("timestamp", s)]).
  { now rewrite (renamed_like _ _ _ _ temperature_timestamp_label), Hts. }
  destruct (parse_timestamp_one _ _ _ Hl)
    as (parsed & Hparse & Hpts & Hother & _).
  rewrite Hparse. cbn [bind select].
  rewrite Hpts, (Hother "temperature") by discriminate.
  rewrite (renamed_like _ _ _ _ temperature_temperature_label), Htemp.
  reflexivity.
Qed.

(** X12.  For a table with one timestamp-like column, one current-like
    and one voltage-like column of floats and no power-like column, the
    MPP transformer returns the four canonical columns, power being the
    elementwise binary64 product. *)
Theorem X12_float_mpp_table_is_normalised
  (df : dataframe) (lt lc lv : string) (s : series) (xs ys : list float) :
  Spec.like timestamp_names df = [(lt, s)] ->
  Spec.like current_names df = [(lc, SFloat xs)] ->
  Spec.like voltage_names df = [(lv, SFloat ys)] ->
  Spec.like power_names df = [] ->
  _transform_mpp_data df
  = Ok [("timestamp", Spec2.parsed_timestamp s);
        ("current", SFloat xs);
        ("voltage", SFloat ys);
        ("power", SFloat (map2 PrimFloat.mul xs ys))].
Proof.
  intros Hts Hc Hv Hp. unfold _transform_mpp_data.
  assert (Hl : labelled "timestamp" (rename mpp_col_mapping df)
               = [("timestamp", s)]).
  { now rewrite (renamed_like _ _ _ _ mpp_timestamp_label), Hts. }
  destruct (parse_timestamp_one _ _ _ Hl)
    as (parsed & Hparse & Hpts & Hother & Hcols).
  assert (Hcur : labelled "current" parsed = [("current", SFloat xs)]).
  { rewrite Hother by discriminate.
    now rewrite (renamed_like _ _ _ _ mpp_current_label), Hc. }
  assert (Hvol : labelled "voltage" parsed = [("voltage", SFloat ys)]).
  { rewrite Hother by discriminate.
    now rewrite (renamed_like _ _ _ _ mpp_voltage_label), Hv. }
  assert (Hpow : labelled "power" parsed = []).
  { rewrite Hother by discriminate.
    now rewrite (renamed_like _ _ _ _ mpp_power_label), Hp. }
  assert (Hmem : mem "power" (columns parsed) = false).
  { rewrite Hcols, (renamed_mem _ _ _ _ mpp_power_label).
    exact (like_nil _ _ Hp). }
  rewrite Hparse. cbn [bind]. rewrite Hmem. cbn [negb].
  rewrite (getitem_one _ _ _ _ Hcur), (getitem_one _ _ _ _ Hvol).
  cbn [bind mul series_mul]. unfold setitem. rewrite Hmem.
  cbn [select]. rewrite !labelled_app, Hpts, Hcur, Hvol, Hpow.
  reflexivity.
Qed.

(** X13.  For a table with one timestamp-like column, one raw-reading
    column of integers, no irradiance-like column and no column already
    called [raw_reading], the irradiance transformer returns the three
    canonical columns, the irradiance being the raw reading converted to
    binary64 and multiplied by 0.1. *)
Theorem X13_raw_only_irradiance_table_is_normalised
  (df : dataframe) (lt lr : string) (s : series) (xs : list Z) :
  Spec.like timestamp_names df = [(lt, s)] ->
  Spec.like raw_names df = [(lr, SInt xs)] ->
  Spec.like irradiance_names df = [] ->
  mem "raw_reading" (columns df) = false ->
  _transform_irradiance_data df
  = Ok [("timestamp", Spec2.parsed_timestamp s);
        ("raw_reading", SInt xs);
        ("irradiance",
         SFloat (map (fun x => (float_of_int64 x * conversion_factor)%float)
                     xs))].
Proof.
  intros Hts Hraw Hirr Hlit. unfold _transform_irradiance_data.
  assert (Hl : labelled "timestamp" (rename irradiance_col_mapping df)
               = [("timestamp", s)]).
  { now rewrite (renamed_like _ _ _ _ irradiance_timestamp_label), Hts. }
  destruct (parse_timestamp_one _ _ _ Hl)
    as (parsed & Hparse & Hpts & Hother & Hcols).
  assert (Hrawcol : labelled "raw_reading" parsed
                    = [("raw_reading", SInt xs)]).
  { rewrite Hother by discriminate.
    rewrite (labelled_rename _ _ _ df irradiance_raw_label).
    assert (Hfilter : filter (fun c => is_like raw_names (fst c)
                                       || String.eqb (fst c) "raw_reading") df
                      = Spec.like raw_names df).
    { unfold Spec.like. apply filter_ext_in. intros [l0 s0] Hin. cbn [fst].
      destruct (String.eqb l0 "raw_reading") eqn:E;
        [| now rewrite orb_false_r].
      apply String.eqb_eq in E. subst l0.
      assert (Hin' : mem "raw_reading" (columns df) = true).
      { apply mem_true. apply in_map_iff. now exists ("raw_reading", s0). }
      congruence. }
    now rewrite Hfilter, Hraw. }
  assert (Hirrcol : labelled "irradiance" parsed = []).
  { rewrite Hother by discriminate.
    now rewrite (renamed_like _ _ _ _ irradiance_irradiance_label), Hirr. }
  assert (Hmem : mem "irradiance" (columns parsed) = false).
  { rewrite Hcols, (renamed_mem _ _ _ _ irradiance_irradiance_label).
    exact (like_nil _ _ Hirr). }
  assert (Hmemraw : mem "raw_reading" (columns parsed) = true).
  { apply mem_labelled. rewrite Hrawcol. discriminate. }
  rewrite Hparse. cbn [bind]. rewrite Hmem, Hmemraw. cbn [negb andb].
  rewrite (getitem_one _ _ _ _ Hrawcol). cbn [bind scale].
  unfold setitem. rewrite Hmem.
  cbn [select]. rewrite !labelled_app, Hpts, Hrawcol, Hirrcol.
  reflexivity.
Qed.

End NormaliserFacts.

(* ------------------------------------------------------------------ *)
(** ** More on the batch path *)

Section ImporterFacts.

Context {W : World}.

Lemma importer_row_shape (data : dataframe) (board channel : Z) (i : nat)
  (r : row) :
  Importer.mpp_row data board channel i = Ok r ->
  exists timestamp current voltage power,
    r = MppRow timestamp current voltage power (PInt board) (PInt channel).
Proof.
  unfold Importer.mpp_row. intro H. repeat bind_inv H. inversion H.
  now exists a, a0, a1, a2.
Qed.

(** The loop over the rows, when it completes: one row appended for each
    index, all with the board and channel of the call. *)
Lemma execute_rows_Ok (data : dataframe) (board channel : Z)
  (indices : list nat) (db db' : store) :
  Importer.execute_rows db data board channel indices = Ok db' ->
  exists rows,
    db' = db ++ rows /\
    List.length rows = List.length indices /\
    Spec2.every_row_on board channel rows.
Proof.
  revert db. induction indices as [| i rest IH]; intros db H.
  - inversion H. exists []. rewrite app_nil_r.
    repeat split. constructor.
  - cbn [Importer.execute_rows] in H.
    apply bind_Ok in H. destruct H as (r & Hr & H).
    apply bind_Ok in H. destruct H as (db1 & Hins & H).
    unfold insert in Hins.
    destruct (db_accepts db r); [| discriminate Hins].
    inversion Hins. subst db1.
    destruct (IH _ H) as (rows & -> & Hlen & Hall).
    exists (r :: rows). rewrite <- app_assoc. repeat split.
    + simpl. now rewrite Hlen.
    + constructor; [exact (importer_row_shape _ _ _ _ _ Hr) | exact Hall].
Qed.

Lemma insert_mpp_data_cases
  (db : store) (data : dataframe) (board channel : Z) :
  (exists rows,
      Importer.insert_mpp_data db data board channel
      = (db ++ rows, [Importer.Inserted (Importer.len data)]) /\
      List.length rows = Importer.len data /\
      Spec2.every_row_on board channel rows) \/
  (exists e,
      Importer.insert_mpp_data db data board channel
      = (db, [Importer.InsertError e])).
Proof.
  unfold Importer.insert_mpp_data.
  destruct (Importer.execute_rows db data board channel
              (seq 0 (Importer.len data))) as [db' | e] eqn:H.
  - left. destruct (execute_rows_Ok _ _ _ _ _ _ H) as (rows & -> & Hlen & Hall).
    exists rows. rewrite length_seq in Hlen. repeat split; assumption.
  - right. now exists e.
Qed.



(** X14.  [insert_mpp_data] is all or nothing: either every row of the
    table is appended to the store, in order, each under the board and
    channel given, and the count is logged; or an error is logged and
    the store is exactly as before. *)
Theorem X14_insert_mpp_data_is_all_or_nothing
  (db : store) (data : dataframe) (board channel : Z) :
  (exists rows,
      Importer.insert_mpp_data db data board channel
      = (db ++ rows, [Importer.Inserted (Importer.len data)]) /\
      List.length rows = Importer.len data /\
      Spec2.every_row_on board channel rows) \/
  (exists e,
      Importer.insert_mpp_data db data board channel
      = (db, [Importer.InsertError e])).
Proof.
  destruct (insert_mpp_data_cases db data board channel)
    as [(rows & Hrows) | (e & He)].
  - left. exists rows. exact Hrows.
  - right. exists e. exact He.
Qed.





End ImporterFacts.

(* ------------------------------------------------------------------ *)
(** ** The configuration *)

Section ConfigFacts.

Lemma contains_dot_app (a b : string) :
  Config.contains_dot (a ++ b)
  = Config.contains_dot a || Config.contains_dot b.
Proof.
  induction a as [| c a IH]; [reflexivity |].
  cbn [append Config.contains_dot]. rewrite IH. apply orb_assoc.
Qed.

Lemma split_dot_plain (name : string) :
  Config.contains_dot name = false -> Config.split_dot name = [name].
Proof.
  induction name as [| c name IH]; [reflexivity |].
  cbn [Config.contains_dot Config.split_dot]. intro H.
  apply orb_false_elim in H. destruct H as [Hc Hrest].
  rewrite Hc, (IH Hrest). reflexivity.
Qed.

Lemma split_dot_section (section rest : string) :
  Config.contains_dot section = false ->
  Config.split_dot (section ++ "." ++ rest)
  = section :: Config.split_dot rest.
Proof.
  induction section as [| c section IH]; [reflexivity |].
  cbn [Config.contains_dot]. intro H.
  apply orb_false_elim in H. destruct H as [Hc Hrest].
  cbn [append Config.split_dot]. rewrite Hc.
  change (section ++ String "." rest)%string
    with (section ++ "." ++ rest)%string.
  rewrite (IH Hrest). reflexivity.
Qed.

(** A dotted key of two parts is looked up part by part. *)
Lemma get_two_parts (_config : value) (section name : string)
  (default : value) :
  Config.contains_dot section = false ->
  Config.contains_dot name = false ->
  Config.get _config (section ++ "." ++ name) default
  = Ok (Config.walk [section; name] _config default).
Proof.
  intros Hs Hn. unfold Config.get.
  assert (Hdot : Config.contains_dot ("." ++ name) = true) by reflexivity.
  rewrite contains_dot_app, Hdot, orb_true_r.
  now rewrite (split_dot_section _ _ Hs), (split_dot_plain _ Hn).
Qed.

(** X18.  [Config.get] with a key [section.name] returns the value under
    [name] in the mapping under [section], and the default as soon as
    [section] is missing, is not a mapping, or has no [name]; it never
    raises, even when the configuration itself is not a mapping. *)
Theorem X18_dotted_get_walks_the_sections
  (_config : value) (section name : string) (default : value) :
  Config.contains_dot section = false ->
  Config.contains_dot name = false ->
  Config.get _config (section ++ "." ++ name) default
  = Ok (match _config with
        | PDict items =>
            match lookup section items with
            | Some (PDict inner) =>
                match lookup name inner with
                | Some v => v
                | None => default
                end
            | _ => default
            end
        | _ => default
        end).
Proof.
  intros Hs Hn. rewrite (get_two_parts _ _ _ _ Hs Hn).
  reflexivity.
Qed.

Lemma lookup_set_item_same (items : list (string * value)) (key : string)
  (v : value) :
  lookup key (Config.set_item items key v) = Some v.
Proof.
  induction items as [| [k old] items IH]; cbn [Config.set_item lookup].
  - now rewrite String.eqb_refl.
  - destruct (String.eqb k key) eqn:E; cbn [lookup]; rewrite E;
      [reflexivity | exact IH].
Qed.

Lemma lookup_set_item_other (items : list (string * value))
  (key other : string) (v : value) :
  other <> key ->
  lookup other (Config.set_item items key v) = lookup other items.
Proof.
  intro Hneq.
  assert (Hkey : String.eqb key other = false).
  { apply String.eqb_neq. congruence. }
  induction items as [| [k old] items IH]; cbn [Config.set_item lookup].
  - now rewrite Hkey.
  - destruct (String.eqb k key) eqn:E; cbn [lookup].
    + apply String.eqb_eq in E. subst k. now rewrite Hkey.
    + now rewrite IH.
Qed.

End ConfigFacts.

Section OverrideFacts.

Context {W : World}.
Variable getenv : string -> option string.
Variable isdigit : string -> bool.

(** One override: the setting it names takes the new value, the other
    settings of the database section keep theirs. *)
Lemma override_walk (_config after : value) (key value : string) :
  Config.override isdigit _config key value = Ok after ->
  exists new,
    Config.override_value isdigit key value = Ok new /\
    (forall default, Config.walk ["database"; key] after default = new) /\
    (forall other default,
        other <> key ->
        Config.walk ["database"; other] after default
        = Config.walk ["database"; other] _config default).
Proof.
  unfold Config.override. intro H.
  apply bind_Ok in H. destruct H as (new & Hnew & H).
  apply bind_Ok in H. destruct H as (database & Hget & H).
  apply bind_Ok in H. destruct H as (database' & Hset & H).
  destruct _config; try discriminate Hget. cbn [Config.getitem] in Hget.
  destruct (lookup "database" items) as [d |] eqn:Hd; [| discriminate Hget].
  inversion Hget. subst d.
  destruct database; try discriminate Hset.
  inversion Hset. subst database'.
  inversion H. subst after.
  exists new. split; [exact Hnew |]. split.
  - intro default. cbn [Config.walk].
    now rewrite lookup_set_item_same, lookup_set_item_same.
  - intros other default Hother. cbn [Config.walk].
    rewrite lookup_set_item_same, Hd.
    now rewrite (lookup_set_item_other _ _ _ _ Hother).
Qed.

(** The setting a list of settings fixes for a key, if any. *)
Lemma apply_overrides_walk (settings : list (string * option string))
  (_config after : value) (key : string) (default : value) :
  NoDup (map fst settings) ->
  Config.apply_overrides isdigit _config settings = Ok after ->
  Ok (Config.walk ["database"; key] after default)
  = match find (fun kv => String.eqb (fst kv) key) settings with
    | Some (_, Some value) => Config.override_value isdigit key value
    | _ => Ok (Config.walk ["database"; key] _config default)
    end.
Proof.
  revert _config. induction settings as [| [k [v |]] rest IH];
    intros _config Hnd H.
  - inversion H. reflexivity.
  - cbn [Config.apply_overrides] in H.
    apply bind_Ok in H. destruct H as (mid & Hover & H).
    inversion Hnd as [| ? ? Hnotin Hnd']. subst.
    specialize (IH mid Hnd' H).
    destruct (override_walk _ _ _ _ Hover) as (new & Hnew & Hsame & Hother).
    cbn [find fst]. destruct (String.eqb k key) eqn:E.
    + apply String.eqb_eq in E. subst k.
      assert (Hfind : find (fun kv => String.eqb (fst kv) key) rest = None).
      { destruct (find (fun kv => String.eqb (fst kv) key) rest)
          as [[k' v'] |] eqn:F; [| reflexivity].
        apply find_some in F. destruct F as [Hin Hk]. cbn [fst] in Hk.
        apply String.eqb_eq in Hk. subst k'. destruct Hnotin.
        apply in_map_iff. now exists (key, v'). }
      rewrite Hfind in IH. rewrite IH, Hnew. now rewrite Hsame.
    + rewrite IH.
      destruct (find (fun kv => String.eqb (fst kv) key) rest)
        as [[k' [v' |]] |]; try reflexivity;
        rewrite Hother; try reflexivity;
        intro Heq; subst k; rewrite String.eqb_refl in E; discriminate E.
  - cbn [Config.apply_overrides] in H.
    inversion Hnd as [| ? ? Hnotin Hnd']. subst.
    specialize (IH _config Hnd' H).
    cbn [find fst]. destruct (String.eqb k key) eqn:E; [| exact IH].
    apply String.eqb_eq in E. subst k.
    assert (Hfind : find (fun kv => String.eqb (fst kv) key) rest = None).
    { destruct (find (fun kv => String.eqb (fst kv) key) rest)
        as [[k' v'] |] eqn:F; [| reflexivity].
      apply find_some in F. destruct F as [Hin Hk]. cbn [fst] in Hk.
      apply String.eqb_eq in Hk. subst k'. destruct Hnotin.
      apply in_map_iff. now exists (key, v'). }
    now rewrite Hfind in IH.
Qed.

(** Creating the missing database section does not change what a
    database setting reads as. *)
Lemma ensure_database_walk (_config after : value) (key : string)
  (default : value) :
  (present <- Config.contains _config "database" ;;
   if negb present then Config.setitem _config "database" (PDict [])
   else Ok _config) = Ok after ->
  Config.walk ["database"; key] after default
  = Config.walk ["database"; key] _config default.
Proof.
  intro H. apply bind_Ok in H. destruct H as (present & Hc & H).
  destruct present; cbn [negb] in H; [now inversion H |].
  destruct _config; try discriminate H.
  cbn [Config.contains] in Hc.
  destruct (lookup "database" items) eqn:Hd; [discriminate Hc |].
  inversion H. cbn [Config.walk].
  now rewrite lookup_set_item_same, Hd.
Qed.

(** X19.  Environment variables take precedence: in a configuration that
    [Config.__init__] has built, each of [database.host], [database.port],
    [database.dbname], [database.user] and [database.password] reads as
    the value of its environment variable when that variable is set (the
    text itself, or for the port the integer when the text is all
    digits), and as the value of the loaded document, or the default,
    when it is not set. *)
Theorem X19_environment_overrides_the_document
  (loaded : option value) (_config : value) (key variable : string)
  (default : value) :
  Config.__init__ getenv isdigit loaded = Ok _config ->
  In (key, variable) Spec2.variables ->
  Config.get _config ("database." ++ key) default
  = match getenv variable with
    | Some value => Config.override_value isdigit key value
    | None =>
        Config.get (fst (Config.load_config (PDict []) loaded))
                   ("database." ++ key) default
    end.
Proof.
  intros Hinit Hin.
  unfold Config.__init__, Config._apply_environment_overrides in Hinit.
  set (document := fst (Config.load_config (PDict []) loaded)) in *.
  assert (Hmid : exists mid,
             (present <- Config.contains document "database" ;;
              if negb present
              then Config.setitem document "database" (PDict [])
              else Ok document) = Ok mid /\
             Config.apply_overrides isdigit mid (Config.db_settings getenv)
             = Ok _config).
  { apply bind_Ok in Hinit. destruct Hinit as (present & Hc & Hinit).
    apply bind_Ok in Hinit. destruct Hinit as (mid & Hmid & Hinit).
    exists mid. split; [| exact Hinit]. now rewrite Hc. }
  destruct Hmid as (mid & Hensure & Hover).
  assert (Hnd : NoDup (map fst (Config.db_settings getenv))).
  { repeat constructor; simpl; intuition discriminate. }
  pose proof (apply_overrides_walk _ _ _ key default Hnd Hover) as Hwalk.
  rewrite (ensure_database_walk _ _ key default Hensure) in Hwalk.
  assert (Hget : forall c,
             Config.get c ("database." ++ key) default
             = Ok (Config.walk ["database"; key] c default)).
  { intro c. apply (get_two_parts c "database" key default); [reflexivity |].
    destruct Hin as [H | [H | [H | [H | [H | []]]]]];
      inversion H; reflexivity. }
  rewrite !Hget, Hwalk.
  destruct Hin as [H | [H | [H | [H | [H | []]]]]]; inversion H; subst;
    cbn [Config.db_settings find fst String.eqb Ascii.eqb Bool.eqb];
    match goal with
    | |- context [getenv ?v] => destruct (getenv v)
    end; reflexivity.
Qed.

(** X21.  A configuration document that is [None] (what [yaml.safe_load]
    returns for an empty file), a boolean, a number or a date makes
    [Config.__init__] raise [TypeError], whatever the environment. *)
Theorem X21_scalar_document_raises_TypeError (document : value) :
  Spec2.is_scalar document = true ->
  Config.__init__ getenv isdigit (Some document) = Raise TypeError.
Proof.
  intro H. unfold Config.__init__, Config._apply_environment_overrides.
  cbn [Config.load_config fst].
  destruct document; try discriminate H; reflexivity.
Qed.

End OverrideFacts.

(* ------------------------------------------------------------------ *)
(** ** The connector's database settings *)

Section ServerFacts.

Lemma lookup_absent (items : list (string * value)) (key : string) :
  ~ In key (map fst items) -> lookup key items = None.
Proof.
  induction items as [| [k v] items IH]; intro H; [reflexivity |].
  cbn [lookup]. destruct (String.eqb k key) eqn:E.
  - apply String.eqb_eq in E. subst k. destruct H. now left.
  - apply IH. intro Hin. apply H. now right.
Qed.

Lemma lookup_update (extra base : list (string * value)) (key : string) :
  NoDup (map fst extra) ->
  lookup key (Server.update base extra)
  = match lookup key extra with
    | Some v => Some v
    | None => lookup key base
    end.
Proof.
  unfold Server.update. revert base.
  induction extra as [| [k v] rest IH]; intros base Hnd; [reflexivity |].
  inversion Hnd as [| ? ? Hnotin Hnd']. subst.
  cbn [fold_left fst snd lookup]. rewrite (IH _ Hnd').
  destruct (String.eqb k key) eqn:E.
  - apply String.eqb_eq in E. subst k.
    now rewrite (lookup_absent rest key Hnotin), lookup_set_item_same.
  - destruct (lookup key rest); [reflexivity |].
    apply lookup_set_item_other. intro Heq. subst k.
    rewrite String.eqb_refl in E. discriminate E.
Qed.

(** X22.  The database settings of a new connector are the defaults
    overlaid with the settings given: a setting that is given wins, a
    default that is not given stays, so each of [dbname], [user],
    [password], [host] and [port] always has a value; settings under
    other names are taken over as well. *)
Theorem X22_connector_settings_overlay_the_defaults
  (host port : value) (given : list (string * value)) (key : string) :
  NoDup (map fst given) ->
  lookup key (Server.db_config (Server.__init__ host port (Some given)))
  = match lookup key given with
    | Some v => Some v
    | None => lookup key Server.default_db_config
    end.
Proof.
  intro Hnd. unfold Server.__init__. cbn [Server.db_config].
  destruct given as [| kv more]; [reflexivity |].
  exact (lookup_update (kv :: more) Server.default_db_config key Hnd).
Qed.

End ServerFacts.

(* ------------------------------------------------------------------ *)
(** ** The measurement endpoints *)

Section ApiFacts.

Lemma length_range (n : Z) :
  (0 <= n)%Z -> Z.of_nat (List.length (Api.range n)) = n.
Proof.
  intro H. unfold Api.range. rewrite length_map, length_seq.
  now apply Z2Nat.id.
Qed.

(** X23.  For a query within the declared bounds the MPP endpoint returns
    exactly [limit] rows and reports [limit] as the page size, and the
    page it reports is the one that holds the row at [offset]: pages are
    numbered from 1 and page [p] covers the offsets from [(p-1)*limit]
    up to, not including, [p*limit]. *)
Theorem X23_page_number_matches_the_offset
  (query : Api.MeasurementQuery) (board channel : option Z) :
  Api.within_bounds query = true ->
  let response := Api.get_mpp_measurements query board channel in
  Z.of_nat (List.length (Api.data response)) = Api.limit query /\
  Api.page_size response = Api.limit query /\
  (1 <= Api.page response)%Z /\
  ((Api.page response - 1) * Api.limit query <= Api.offset query
   < Api.page response * Api.limit query)%Z.
Proof.
  unfold Api.within_bounds. intro H.
  apply andb_prop in H. destruct H as [H Hoff].
  apply andb_prop in H. destruct H as [Hlow Hhigh].
  apply Z.leb_le in Hlow, Hhigh, Hoff.
  cbn [Api.get_mpp_measurements Api.data Api.page_size Api.page].
  rewrite length_map, length_range by lia.
  unfold Api.page_of.
  assert (Hpos : Z.ltb 0 (Api.limit query) = true) by (apply Z.ltb_lt; lia).
  rewrite Hpos.
  pose proof (Z.div_pos (Api.offset query) (Api.limit query)) as Hdiv.
  pose proof (Z.mul_div_le (Api.offset query) (Api.limit query)) as Hle.
  pose proof (Z.mul_succ_div_gt (Api.offset query) (Api.limit query)) as Hgt.
  repeat split; try lia; nia.
Qed.

End ApiFacts.

(* ------------------------------------------------------------------ *)
(** ** More examples in the sample worlds *)

Lemma X4_witness :
  @json_loads Sample.world Sample.bare_mpp_frame
  = Some (PDict [("type", PStr "mpp");
                 ("data", PDict [("timestamp", PStr "2023-09-20T12:00:00")])]) /\
  fst (@_process_message Sample.world [] Sample.bare_mpp_frame)
  = [] ++ [Sample.bare_mpp_stored] /\
  Spec2.default_attribution Sample.bare_mpp_stored.
Proof.
  assert (H1 : @json_loads Sample.world Sample.bare_mpp_frame
               = Some (PDict [("type", PStr "mpp");
                              ("data", PDict [("timestamp",
                                               PStr "2023-09-20T12:00:00")])]))
    by (vm_compute; reflexivity).
  assert (H2 : fst (@_process_message Sample.world [] Sample.bare_mpp_frame)
               = [] ++ [Sample.bare_mpp_stored])
    by (vm_compute; reflexivity).
  split; [exact H1 |]. split; [exact H2 |].
  exact (@X4_missing_metadata_is_stored_under_the_defaults Sample.world []
           Sample.bare_mpp_frame _ Sample.bare_mpp_stored H1 eq_refl H2).
Defined.

Lemma X5_witness :
  @json_loads Sample2.world Sample2.null_metadata_frame
  = Some Sample2.null_metadata_message /\
  fst (@_process_message Sample2.world [Sample.mpp_stored]
         Sample2.null_metadata_frame)
  = [Sample.mpp_stored].
Proof.
  assert (H1 : @json_loads Sample2.world Sample2.null_metadata_frame
               = Some Sample2.null_metadata_message)
    by (vm_compute; reflexivity).
  split; [exact H1 |].
  exact (@X5_non_object_metadata_is_never_stored Sample2.world
           [Sample.mpp_stored] Sample2.null_metadata_frame _ PNone
           H1 eq_refl eq_refl).
Defined.

Lemma X6_witness :
  exists s t temperature,
    lookup "timestamp" Sample2.temperature_payload = Some (PStr s) /\
    @fromisoformat Sample.world s = Some t /\
    @py_float Sample.world (PFloat 0x1.9p+4%float) = Ok temperature /\
    TemperatureRow (PDatetime Sample.noon) (PFloat 0x1.9p+4%float)
                   (PStr "a3086f43-c11c-4cad-9497-dcd1c7a1e9ed")
    = TemperatureRow (PDatetime t) (PFloat temperature)
                     (PStr "a3086f43-c11c-4cad-9497-dcd1c7a1e9ed").
Proof.
  apply (@X6_temperature_row_parameters Sample.world []
           Sample2.temperature_payload Sample2.temperature_metadata).
  vm_compute. reflexivity.
Defined.

Lemma X7_witness :
  @validate_data_format Sample.world Sample2.two_timestamps_table
    "temperature" = Ok true /\
  @transform_measurement_data Sample.world Sample2.two_timestamps_table
    "temperature" = Raise AttributeError.
Proof.
  split; [vm_compute; reflexivity |].
  apply (@X7_several_timestamp_columns_raise_AttributeError Sample.world).
  - vm_compute. lia.
  - right. left. reflexivity.
Defined.

Lemma X8_witness :
  has_like timestamp_names Sample2.no_timestamp_table = false /\
  @transform_measurement_data Sample.world Sample2.no_timestamp_table
    "temperature" = Raise KeyError.
Proof.
  split; [reflexivity |].
  apply (@X8_no_timestamp_column_raises_KeyError Sample.world).
  - reflexivity.
  - right. left. reflexivity.
Defined.

Lemma X10_witness :
  @transform_measurement_data Sample.world Sample.mpp_table "mpp"
  = Ok Sample.canonical_mpp_table /\
  @transform_measurement_data Sample.world Sample.canonical_mpp_table "mpp"
  = Ok Sample.canonical_mpp_table.
Proof.
  assert (H : @transform_measurement_data Sample.world Sample.mpp_table "mpp"
              = Ok Sample.canonical_mpp_table)
    by (vm_compute; reflexivity).
  split; [exact H |].
  exact (@X10_transform_is_idempotent Sample.world _ _ _ H).
Defined.

Lemma X11_witness :
  @_transform_temperature_data Sample.world Sample2.temperature_table
  = Ok [("timestamp", SDatetime [Sample.noon]);
        ("temperature", SFloat [0x1.9p+4%float])].
Proof.
  rewrite (@X11_temperature_table_is_normalised Sample.world
             Sample2.temperature_table "Time" "Temp"
             (SObject [PStr "2023-09-20 12:00:00"])
             (SFloat [0x1.9p+4%float]) eq_refl eq_refl).
  vm_compute. reflexivity.
Defined.

Lemma X12_witness :
  @_transform_mpp_data Sample.world Sample.mpp_table
  = Ok Sample.canonical_mpp_table.
Proof.
  rewrite (@X12_float_mpp_table_is_normalised Sample.world
             Sample.mpp_table "Time" "I" "V"
             (SObject [PStr "2023-09-20 12:00:00"])
             [0x1.999999999999ap-5%float] [0x1.999999999999ap-1%float]
             eq_refl eq_refl eq_refl eq_refl).
  vm_compute. reflexivity.
Defined.

Lemma X13_witness :
  @validate_data_format Sample.world Sample2.raw_table "irradiance"
  = Ok true /\
  @_transform_irradiance_data Sample.world Sample2.raw_table
  = Ok [("timestamp", SDatetime [Sample.noon]);
        ("raw_reading", SInt [900]);
        ("irradiance", SFloat [90%float])].
Proof.
  split; [vm_compute; reflexivity |].
  rewrite (@X13_raw_only_irradiance_table_is_normalised Sample.world
             Sample2.raw_table "Time" "Raw" (SDatetime [Sample.noon]) [900]
             eq_refl eq_refl eq_refl eq_refl).
  vm_compute. reflexivity.
Defined.


Lemma X18_witness :
  Config.get Sample2.document "database.host" PNone = Ok (PStr "localhost") /\
  Config.get Sample2.document "database.sslmode" PNone = Ok PNone /\
  Config.get PNone "database.host" (PStr "none") = Ok (PStr "none").
Proof.
  pose proof (X18_dotted_get_walks_the_sections Sample2.document
                "database" "host" PNone eq_refl eq_refl) as H1.
  pose proof (X18_dotted_get_walks_the_sections Sample2.document
                "database" "sslmode" PNone eq_refl eq_refl) as H2.
  pose proof (X18_dotted_get_walks_the_sections PNone
                "database" "host" (PStr "none") eq_refl eq_refl) as H3.
  cbn [append] in H1, H2, H3. rewrite H1, H2, H3.
  repeat split; reflexivity.
Defined.

Lemma X19_witness :
  @Config.__init__ Sample2.world Sample2.getenv Sample2.isdigit
    (Some Sample2.document)
  = Ok (PDict [("database", PDict [("host", PStr "db.example.org");
                                   ("port", PInt 6543);
                                   ("dbname", PStr "perocube")]);
               ("api", PDict [("port", PInt 8000)])]) /\
  Config.get (PDict [("database", PDict [("host", PStr "db.example.org");
                                         ("port", PInt 6543);
                                         ("dbname", PStr "perocube")]);
                     ("api", PDict [("port", PInt 8000)])])
             "database.port" PNone
  = Ok (PInt 6543).
Proof.
  assert (H : @Config.__init__ Sample2.world Sample2.getenv Sample2.isdigit
                (Some Sample2.document)
              = Ok (PDict [("database", PDict [("host", PStr "db.example.org");
                                               ("port", PInt 6543);
                                               ("dbname", PStr "perocube")]);
                           ("api", PDict [("port", PInt 8000)])]))
    by (vm_compute; reflexivity).
  split; [exact H |].
  pose proof (@X19_environment_overrides_the_document Sample2.world
                Sample2.getenv Sample2.isdigit _ _ "port" "DB_PORT" PNone H
                (or_intror (or_introl eq_refl))) as Hport.
  cbn [append] in Hport. rewrite Hport. vm_compute. reflexivity.
Defined.

Lemma X21_witness :
  @Config.__init__ Sample2.world Sample2.getenv Sample2.isdigit (Some PNone)
  = Raise TypeError.
Proof.
  exact (@X21_scalar_document_raises_TypeError Sample2.world Sample2.getenv
           Sample2.isdigit PNone eq_refl).
Defined.

Lemma X22_witness :
  lookup "host"
    (Server.db_config
       (Server.__init__ (PStr "0.0.0.0") (PInt 5000)
          (Some [("host", PStr "db.example.org")])))
  = Some (PStr "db.example.org") /\
  lookup "dbname"
    (Server.db_config
       (Server.__init__ (PStr "0.0.0.0") (PInt 5000)
          (Some [("host", PStr "db.example.org")])))
  = Some (PStr "perocube").
Proof.
  assert (Hnd : NoDup (map fst [("host", PStr "db.example.org")])).
  { repeat constructor. simpl. tauto. }
  split.
  - exact (X22_connector_settings_overlay_the_defaults
             (PStr "0.0.0.0") (PInt 5000) _ "host" Hnd).
  - exact (X22_connector_settings_overlay_the_defaults
             (PStr "0.0.0.0") (PInt 5000) _ "dbname" Hnd).
Defined.

Lemma X23_witness :
  Api.measurement_query None None (Some 3) (Some 7) None None
  = Some (Api.mkQuery None None 3 7 "timestamp" "desc") /\
  Api.page (Api.get_mpp_measurements
              (Api.mkQuery None None 3 7 "timestamp" "desc") (Some 0) None)
  = 3 /\
  (1 <= 3)%Z /\ ((3 - 1) * 3 <= 7 < 3 * 3)%Z.
Proof.
  split; [reflexivity |]. split; [reflexivity |].
  destruct (X23_page_number_matches_the_offset
              (Api.mkQuery None None 3 7 "timestamp" "desc") (Some 0) None
              eq_refl) as (_ & _ & Hpage & Hrange).
  split; [exact Hpage | exact Hrange].
Defined.

(* ------------------------------------------------------------------ *)
(** ** Order of processing, supplied irradiance, letter case *)

Section OrderFacts.

Context {W : World}.

(** X9.  Within a connection, frames are processed one after the other
    in the order of arrival, each on the store the previous one left:
    for a run of decodable frames whose acknowledgments get through,
    the final store is the left fold of [_process_message] over the
    frames, and the session has sent one ACK per frame. *)
Theorem X9_frames_are_processed_in_arrival_order
  (db : store) (frames : list string) :
  forallb Spec2.decodable frames = true ->
  fst (_handle_client db (map Spec2.delivered frames))
  = fold_left (fun st data => fst (_process_message st (Spec2.decoded data)))
              frames db /\
  sent (snd (_handle_client db (map Spec2.delivered frames)))
  = repeat "ACK" (List.length frames).
Proof.
  revert db. induction frames as [| data rest IH]; intros db H.
  - split; reflexivity.
  - cbn [forallb] in H. apply andb_prop in H. destruct H as [Hd Hrest].
    unfold Spec2.decodable in Hd. apply andb_prop in Hd.
    destruct Hd as [Hne Hdec].
    destruct (utf8_decode data) as [message |] eqn:Hm; [| discriminate Hdec].
    assert (Hdata : data <> "").
    { intro E. subst data. discriminate Hne. }
    cbn [map].
    rewrite (handle_client_step db (Spec2.delivered data)
               (map Spec2.delivered rest) data message
               eq_refl eq_refl Hdata Hm eq_refl).
    cbn [fst snd fold_left List.length repeat].
    assert (Hdecoded : Spec2.decoded data = message).
    { unfold Spec2.decoded. now rewrite Hm. }
    rewrite Hdecoded.
    destruct (IH (fst (_process_message db message)) Hrest) as (Hst & Hack).
    split; [exact Hst |].
    rewrite sent_app, sent_logs. cbn [app sent]. now rewrite Hack.
Qed.

(** X17.  An irradiance that the table supplies is never recomputed: for
    a table with one timestamp-like, one raw-reading and one
    irradiance-like column the transformer returns both columns as
    given, whatever their values and dtypes. *)
Theorem X17_supplied_irradiance_is_kept
  (df : dataframe) (lt lr li : string) (s raw irradiance : series) :
  Spec.like timestamp_names df = [(lt, s)] ->
  Spec.like raw_names df = [(lr, raw)] ->
  Spec.like irradiance_names df = [(li, irradiance)] ->
  mem "raw_reading" (columns df) = false ->
  _transform_irradiance_data df
  = Ok [("timestamp", Spec2.parsed_timestamp s);
        ("raw_reading", raw);
        ("irradiance", irradiance)].
Proof.
  intros Hts Hraw Hirr Hlit. unfold _transform_irradiance_data.
  assert (Hl : labelled "timestamp" (rename irradiance_col_mapping df)
               = [("timestamp", s)]).
  { now rewrite (renamed_like _ _ _ _ irradiance_timestamp_label), Hts. }
  destruct (parse_timestamp_one _ _ _ Hl)
    as (parsed & Hparse & Hpts & Hother & Hcols).
  assert (Hrawcol : labelled "raw_reading" parsed = [("raw_reading", raw)]).
  { rewrite Hother by discriminate.
    rewrite (labelled_rename _ _ _ df irradiance_raw_label).
    assert (Hfilter : filter (fun c => is_like raw_names (fst c)
                                       || String.eqb (fst c) "raw_reading") df
                      = Spec.like raw_names df).
    { unfold Spec.like. apply filter_ext_in. intros [l0 s0] Hin. cbn [fst].
      destruct (String.eqb l0 "raw_reading") eqn:E;
        [| now rewrite orb_false_r].
      apply String.eqb_eq in E. subst l0.
      assert (Hin' : mem "raw_reading" (columns df) = true).
      { apply mem_true. apply in_map_iff. now exists ("raw_reading", s0). }
      congruence. }
    now rewrite Hfilter, Hraw. }
  assert (Hirrcol : labelled "irradiance" parsed
                    = [("irradiance", irradiance)]).
  { rewrite Hother by discriminate.
    now rewrite (renamed_like _ _ _ _ irradiance_irradiance_label), Hirr. }
  assert (Hmem : mem "irradiance" (columns parsed) = true).
  { apply mem_labelled. rewrite Hirrcol. discriminate. }
  rewrite Hparse. cbn [bind]. rewrite Hmem. cbn [negb andb bind select].
  rewrite Hpts, Hrawcol, Hirrcol. reflexivity.
Qed.

End OrderFacts.

Section CaseFacts.

Lemma lower_ascii_idem (c : ascii) :
  lower_ascii (lower_ascii c) = lower_ascii c.
Proof.
  destruct c as [[] [] [] [] [] [] [] []]; reflexivity.
Qed.

Lemma lower_idem (l : string) : lower (lower l) = lower l.
Proof.
  induction l as [| c l IH]; [reflexivity |].
  cbn [lower]. now rewrite lower_ascii_idem, IH.
Qed.

Lemma is_like_lower (names : list string) (l : string) :
  is_like names (lower l) = is_like names l.
Proof. unfold is_like. now rewrite lower_idem. Qed.

(** X20.  Column names are matched without regard to the case of ASCII
    letters: a label and its lower-case form pass the same alias tests
    and are sent to the same canonical name by each of the three
    column mappings. *)
Theorem X20_labels_are_matched_case_insensitively (l : string) :
  (forall names, is_like names (lower l) = is_like names l) /\
  mpp_col_mapping (lower l) = mpp_col_mapping l /\
  temperature_col_mapping (lower l) = temperature_col_mapping l /\
  irradiance_col_mapping (lower l) = irradiance_col_mapping l.
Proof.
  split; [intro names; apply is_like_lower |].
  unfold mpp_col_mapping, temperature_col_mapping, irradiance_col_mapping.
  rewrite !is_like_lower. repeat split; reflexivity.
Qed.

End CaseFacts.

Lemma X9_witness :
  forallb (@Spec2.decodable Sample.world)
          [Sample.not_json_frame; Sample.mpp_frame; Sample.bare_mpp_frame]
  = true /\
  fst (@_handle_client Sample.world []
         (map Spec2.delivered
              [Sample.not_json_frame; Sample.mpp_frame;
               Sample.bare_mpp_frame]))
  = [Sample.mpp_stored; Sample.bare_mpp_stored] /\
  sent (snd (@_handle_client Sample.world []
               (map Spec2.delivered
                    [Sample.not_json_frame; Sample.mpp_frame;
                     Sample.bare_mpp_frame])))
  = ["ACK"; "ACK"; "ACK"].
Proof.
  assert (H : forallb (@Spec2.decodable Sample.world)
                [Sample.not_json_frame; Sample.mpp_frame;
                 Sample.bare_mpp_frame] = true)
    by (vm_compute; reflexivity).
  split; [exact H |].
  destruct (@X9_frames_are_processed_in_arrival_order Sample.world [] _ H)
    as (Hstore & Hack).
  rewrite Hstore, Hack. split; vm_compute; reflexivity.
Defined.

Lemma X17_witness :
  @_transform_irradiance_data Sample.world
    [("Time", SDatetime [Sample.noon]); ("Raw", SInt [900]);
     ("Irr", SFloat [0x1.68p+9%float])]
  = Ok [("timestamp", SDatetime [Sample.noon]);
        ("raw_reading", SInt [900]);
        ("irradiance", SFloat [0x1.68p+9%float])].
Proof.
  rewrite (@X17_supplied_irradiance_is_kept Sample.world
             [("Time", SDatetime [Sample.noon]); ("Raw", SInt [900]);
              ("Irr", SFloat [0x1.68p+9%float])]
             "Time" "Raw" "Irr"
             (SDatetime [Sample.noon]) (SInt [900])
             (SFloat [0x1.68p+9%float]) eq_refl eq_refl eq_refl eq_refl).
  reflexivity.
Defined.

(* ------------------------------------------------------------------ *)
(** ** Starting and stopping the server *)

Section ListenerFacts.

Lemma spawned_app (xs ys : list Listener.event) :
  Listener.spawned (xs ++ ys) = Listener.spawned xs ++ Listener.spawned ys.
Proof.
  induction xs as [| x xs IH]; [reflexivity |].
  destruct x; cbn [app Listener.spawned]; rewrite IH; reflexivity.
Qed.

Lemma spawned_accept_connections (accepts : list Listener.accepted) :
  Listener.spawned (Listener._accept_connections accepts)
  = Listener.served accepts.
Proof.
  induction accepts as [| a accepts IH]; [reflexivity |].
  destruct a as [client [|] |];
    cbn [Listener._accept_connections Listener.spawned Listener.served];
    rewrite IH; reflexivity.
Qed.

(** X24.  The listener survives every error of its accept loop: when the
    start-up succeeds, a handler thread is started for each connection
    whose thread can be started, in the order of the connections, however
    many [accept] calls or thread starts fail in between; when the socket
    cannot be created or bound or the database cannot be reached, no
    handler is started at all. *)
Theorem X24_handlers_are_started_for_every_connection
  (env : Listener.startup) (accepts : list Listener.accepted) :
  Listener.spawned (snd (Listener.main env accepts))
  = if Listener.starts env then Listener.served accepts else [].
Proof.
  unfold Listener.main, Listener.start, Listener.stop, Listener.starts.
  destruct env as [[|] [|] [|]];
    cbn [Listener.socket_created Listener.listening
         Listener.database_reachable negb andb snd];
    try reflexivity.
  rewrite spawned_app. cbn [Listener.spawned app].
  rewrite spawned_accept_connections, app_nil_r. reflexivity.
Qed.

(** X25.  Whatever happens during the start-up and in the accept loop,
    [main] ends with the server not running and with neither the
    listening socket nor the database connection left open; the
    connection was opened, and is closed, exactly when the start-up
    succeeded, and the last thing logged is that the server stopped. *)
Theorem X25_main_releases_socket_and_connection
  (env : Listener.startup) (accepts : list Listener.accepted) :
  let server := fst (Listener.main env accepts) in
  Listener.is_running server = false /\
  Listener.is_open (Listener.server_socket server) = false /\
  Listener.db_conn server
  = (if Listener.starts env then Listener.ClosedHandle
     else Listener.NoHandle) /\
  (Listener.server_socket server = Listener.NoHandle
   <-> Listener.socket_created env = false) /\
  exists events,
    snd (Listener.main env accepts)
    = events ++ [Listener.Stopping; Listener.Stopped].
Proof.
  unfold Listener.main, Listener.start, Listener.stop, Listener.starts.
  destruct env as [[|] [|] [|]];
    cbn [Listener.socket_created Listener.listening
         Listener.database_reachable negb andb fst snd
         Listener.created Listener.server_socket Listener.is_running
         Listener.db_conn Listener.close Listener.is_open];
    (repeat split; try reflexivity; try discriminate;
     [eexists; rewrite ?app_assoc; reflexivity]).
Qed.

End ListenerFacts.
